(** * Maven Generator Specs: catalog, load ledger and report flow

    A shallow embedding of [Maven_Generator_Specs.py] (version 5.0): the two
    specification tables, the load ledger kept by [GeneratorSpecsApp], the
    usage summary of the load tab and the save flow of [_save_report],
    followed by the properties the specification states about them.

    Conventions.  A Python [str] is a [string]; each character stands for
    the code point of the same number, so the text covered is the one made
    of code points below 256.  A Python [int] is a [Z].  A Python [float]
    is an IEEE 754 binary64 value, a [spec_float] operated on with the
    correctly rounded operations of [SpecFloat] at precision 53.  A [dict]
    with fixed keys is a record, a [dict] used as a table is a [gmap].
    Widget construction is not modelled: only the attributes of the
    application object and the rows of the reports table are state. *)

From Stdlib Require Import ZArith List Bool Ascii String Lia.
From Stdlib Require Import Numbers.DecimalString Numbers.DecimalPos Floats.SpecFloat.
From stdpp Require Import base option list gmap strings sorting.

Local Open Scope string_scope.
Local Open Scope Z_scope.

(** ** Python builtins used by the program *)

Module Py.

(** Exceptions the modelled expressions can raise. *)
Inductive exn := ValueError | ZeroDivisionError | OverflowError.

Inductive result (A : Type) :=
| Ok (a : A)
| Raise (e : exn).
Arguments Ok {A} a.
Arguments Raise {A} e.

Definition bind {A B} (r : result A) (k : A -> result B) : result B :=
  match r with
  | Ok a => k a
  | Raise e => Raise e
  end.

(** [s or d] on strings: the empty string is the only falsy one. *)
Definition str_or (s d : string) : string :=
  match s with
  | EmptyString => d
  | _ => s
  end.

(** [x or d] on [Optional[int]]: [None] and [0] are falsy. *)
Definition int_or (x : option Z) (d : Z) : Z :=
  match x with
  | Some 0 | None => d
  | Some n => n
  end.

(** Truth value of an [Optional[int]] and of an optional object. *)
Definition truthy_int (x : option Z) : bool :=
  match x with
  | Some 0 | None => false
  | Some _ => true
  end.

Definition truthy_str (x : option string) : bool :=
  match x with
  | Some EmptyString | None => false
  | Some _ => true
  end.

(** [str(n)] for an [int] within the interpreter's limit on the digits
    of a conversion (see [str_within_limit] below). *)
Definition str_of_int (n : Z) : string :=
  NilZero.string_of_int (Z.to_int n).

(** [str(x)] for an optional value inside an f-string. *)
Definition fmt_opt {A} (f : A -> string) (x : option A) : string :=
  match x with
  | Some a => f a
  | None => "None"
  end.

#[global] Instance result_ret : MRet result := fun _ a => Ok a.
#[global] Instance result_bind : MBind result := fun _ _ k r => bind r k.

(** *** Text *)

Definition code (c : ascii) : N := N_of_ascii c.

Definition in_range (lo hi : N) (c : ascii) : bool :=
  ((lo <=? code c) && (code c <=? hi))%N.

(** ASCII decimal digits, the only characters below 256 that [int]
    reads as digits. *)
Definition is_decimal (c : ascii) : bool := in_range 48 57 c.

(** [c.isalnum()] for one character: letters, decimal digits, and the
    characters with a digit or numeric value.  Below 256 these are the
    ASCII letters and digits, the ordinal indicators 170 and 186, the
    micro sign 181, the superscripts 178, 179 and 185, the fractions
    188 to 190, and the accented letters 192 to 255 without the
    multiplication and division signs 215 and 247. *)
Definition isalnum (c : ascii) : bool :=
  in_range 48 57 c || in_range 65 90 c || in_range 97 122 c
  || in_range 170 170 c || in_range 178 179 c || in_range 181 181 c
  || in_range 185 186 c || in_range 188 190 c
  || in_range 192 214 c || in_range 216 246 c || in_range 248 255 c.

(** [c.isspace()] for one character, the set [str.strip()] removes:
    tab to carriage return, the separators 28 to 31, the space, the
    next-line control 133 and the no-break space 160. *)
Definition isspace (c : ascii) : bool :=
  in_range 9 13 c || in_range 28 32 c || in_range 133 133 c
  || in_range 160 160 c.

Fixpoint filter (p : ascii -> bool) (s : string) : string :=
  match s with
  | EmptyString => EmptyString
  | String c r => if p c then String c (filter p r) else filter p r
  end.

Fixpoint map (f : ascii -> ascii) (s : string) : string :=
  match s with
  | EmptyString => EmptyString
  | String c r => String (f c) (map f r)
  end.

Fixpoint lstrip (ws : ascii -> bool) (s : string) : string :=
  match s with
  | EmptyString => EmptyString
  | String c r => if ws c then lstrip ws r else s
  end.

Fixpoint rstrip (ws : ascii -> bool) (s : string) : string :=
  match s with
  | EmptyString => EmptyString
  | String c r =>
      match rstrip ws r with
      | EmptyString => if ws c then EmptyString else String c EmptyString
      | r' => String c r'
      end
  end.

(** [s.strip()]. *)
Definition strip (s : string) : string := rstrip isspace (lstrip isspace s).

(** [s[:n]]. *)
Fixpoint take (n : nat) (s : string) : string :=
  match n, s with
  | S k, String c r => String c (take k r)
  | _, _ => EmptyString
  end.

(** [s.replace(a, b)] for one-character [a] and [b]. *)
Definition replace (a b : ascii) (s : string) : string :=
  map (fun c => if Ascii.eqb c a then b else c) s.

(** [all(p(c) for c in s)]. *)
Fixpoint all (p : ascii -> bool) (s : string) : bool :=
  match s with
  | EmptyString => true
  | String c r => p c && all p r
  end.

(** [c in t] for a character [c] and a string [t]. *)
Fixpoint char_in (c : ascii) (t : string) : bool :=
  match t with
  | EmptyString => false
  | String d r => Ascii.eqb c d || char_in c r
  end.

(** *** [int(s)] in base ten

    White space around the literal is dropped: the ASCII white space 9
    to 13 and 32, and the two white space characters above 127, which
    the conversion first turns into spaces.  A literal is an optional
    sign followed by decimal digits, single underscores allowed between
    two digits.  Anything else raises [ValueError], and so does a literal
    with more digit characters than the interpreter's limit, 4300 unless
    it is reconfigured; leading zeros count, underscores do not. *)

Definition int_space (c : ascii) : bool :=
  in_range 9 13 c || in_range 32 32 c || in_range 133 133 c
  || in_range 160 160 c.

Definition digit_value (c : ascii) : Z := Z.of_N (code c) - 48.

Fixpoint digits (s : string) (acc : Z) (after_digit : bool) : option Z :=
  match s with
  | EmptyString => if after_digit then Some acc else None
  | String c r =>
      if is_decimal c then digits r (10 * acc + digit_value c) true
      else if Ascii.eqb c "_" && after_digit then digits r acc false
      else None
  end.

(** [sys.get_int_max_str_digits()], by default. *)
Definition max_str_digits : Z := 4300.

(** The number of digit characters of a text. *)
Definition digit_count (s : string) : nat := String.length (filter is_decimal s).

Definition int (s : string) : result Z :=
  let t := rstrip int_space (lstrip int_space s) in
  let body sign r :=
    match digits r 0 false with
    | Some n =>
        if Z.of_nat (digit_count r) <=? max_str_digits then Ok (sign * n)
        else Raise ValueError
    | None => Raise ValueError
    end in
  match t with
  | String "+" r => body 1 r
  | String "-" r => body (-1) r
  | _ => body 1 t
  end.

(** [str(n)], [f"{n}"] and [f"{n:,}"] raise [ValueError] for an [int]
    of more than [max_str_digits] decimal digits; this is the test. *)
Definition str_within_limit (n : Z) : bool := Z.abs n <? 10 ^ max_str_digits.

(** *** Floats *)

Definition float := spec_float.
Definition prec : Z := 53.
Definition emax : Z := 1024.

(** The float nearest to an integer; exact below [2^53]. *)
Definition float_of_int (n : Z) : float := binary_normalize prec emax n 0 false.

(** [a / b] on two [int]s: the correctly rounded quotient;
    [ZeroDivisionError] for a zero divisor and [OverflowError] when the
    quotient is beyond the largest float. *)
Definition int_truediv (a b : Z) : result float :=
  match b, a with
  | 0, _ => Raise ZeroDivisionError
  | _, 0 => Ok (S754_zero (b <? 0)%Z)
  | _, _ =>
      match SFdiv prec emax
              (S754_finite (a <? 0)%Z (Z.to_pos (Z.abs a)) 0)
              (S754_finite (b <? 0)%Z (Z.to_pos (Z.abs b)) 0) with
      | S754_infinity _ => Raise OverflowError
      | q => Ok q
      end
  end.

(** [x * n] for a float and an [int] that a float holds exactly. *)
Definition float_mul_int (x : float) (n : Z) : float :=
  SFmul prec emax x (float_of_int n).

(** [x > n] and [x <= n] for a float and an [int] that a float holds
    exactly. *)
Definition float_gt_int (x : float) (n : Z) : bool :=
  SFltb (float_of_int n) x.

Definition float_le_int (x : float) (n : Z) : bool :=
  SFleb x (float_of_int n).

End Py.

(** ** Data *)

(** [@dataclass WiringSpecs], fields in declaration order. *)
Record WiringSpecs := mkWiringSpecs {
  voltage : string;
  amperage : string;
  wire_gauge : string;
  conduit_size : string;
  breaker_size : string;
  ground_wire : string;
  neutral_wire : string;
  receptacle : string;
  notes : string
}.

(** Characters that a string literal of this file cannot hold directly:
    the inch mark (code point 34) and the plus-minus sign (code point 177). *)
Definition chr (n : N) : string := String (ascii_of_N n) EmptyString.
Definition inch_mark : string := chr 34.
Definition plus_minus : string := chr 177.

Definition SINGLE_PHASE_SPECS : gmap Z WiringSpecs :=
  <[30 := mkWiringSpecs "240V" "125A" "1/0 AWG Copper" ("1.5" ++ inch_mark ++ " (1-1/2 inch)") "150A"
            "6 AWG Copper" "1/0 AWG" "Hardwired dedicated circuit"
            "Requires isolated ground. Dedicated circuit mandatory per NFPA 99. Must be on emergency power system per healthcare facility code."]>
  (<[32 := mkWiringSpecs "240V" "133A" "1/0 AWG Copper" ("1.5" ++ inch_mark ++ " (1-1/2 inch)") "150A"
            "6 AWG Copper" "1/0 AWG" "Hardwired dedicated circuit"
            "Isolated ground required. Room requires RF shielding. Emergency power backup mandatory."]>
  (<[40 := mkWiringSpecs "240V" "167A" "2/0 AWG Copper" ("2" ++ inch_mark ++ " (2 inch)") "200A"
            "4 AWG Copper" "2/0 AWG" "Hardwired dedicated circuit"
            "High-power imaging. Requires 200A+ service. Isolated ground and RF shielding mandatory."]>
  (<[50 := mkWiringSpecs "240V" "208A" "4/0 AWG Copper" ("2.5" ++ inch_mark ++ " (2-1/2 inch)") "250A"
            "4 AWG Copper" "4/0 AWG" "Hardwired dedicated circuit"
            "CT/MRI class system. Requires dedicated transformer. Harmonic filtering recommended."]>
  (<[60 := mkWiringSpecs "240V" "250A" "250 MCM Copper" ("3" ++ inch_mark ++ " (3 inch)") "300A"
            "2 AWG Copper" "250 MCM" "Hardwired dedicated circuit"
            "High-field MRI or advanced CT. Requires dedicated service entrance. Power quality monitoring essential."]>
  ∅)))).

Definition THREE_PHASE_SPECS : gmap Z WiringSpecs :=
  <[30 := mkWiringSpecs "208V/480V" "83A @ 208V / 36A @ 480V"
            "4 AWG Copper (208V) / 8 AWG Copper (480V)" ("1.25" ++ inch_mark ++ " (1-1/4 inch)")
            "100A (208V) / 50A (480V)" "8 AWG Copper" "4 AWG (if required)"
            "Hardwired 4-wire connection"
            "Three-phase medical imaging. Isolated ground required. Phase balance critical for image quality."]>
  (<[32 := mkWiringSpecs "208V/480V" "89A @ 208V / 39A @ 480V"
            "3 AWG Copper (208V) / 8 AWG Copper (480V)" ("1.25" ++ inch_mark ++ " (1-1/4 inch)")
            "100A (208V) / 50A (480V)" "8 AWG Copper" "3 AWG (if required)"
            "Hardwired 4-wire connection"
            ("Advanced imaging equipment. Voltage regulation " ++ plus_minus ++ "5% required. RF shielding mandatory.")]>
  (<[40 := mkWiringSpecs "208V/480V" "111A @ 208V / 48A @ 480V"
            "1 AWG Copper (208V) / 6 AWG Copper (480V)" ("1.5" ++ inch_mark ++ " (1-1/2 inch)")
            "125A (208V) / 60A (480V)" "6 AWG Copper" "1 AWG (if required)"
            "Hardwired 4-wire connection"
            "CT scanner class equipment. Power quality monitoring required. THD must be <5%."]>
  (<[50 := mkWiringSpecs "208V/480V" "139A @ 208V / 60A @ 480V"
            "1/0 AWG Copper (208V) / 4 AWG Copper (480V)" ("2" ++ inch_mark ++ " (2 inch)")
            "175A (208V) / 80A (480V)" "6 AWG Copper" "1/0 AWG (if required)"
            "Hardwired 4-wire connection"
            "High-power CT/MRI system. Dedicated transformer recommended. Active harmonic filter may be required."]>
  (<[60 := mkWiringSpecs "208V/480V" "167A @ 208V / 72A @ 480V"
            "2/0 AWG Copper (208V) / 3 AWG Copper (480V)" ("2" ++ inch_mark ++ " (2 inch)")
            "200A (208V) / 100A (480V)" "4 AWG Copper" "2/0 AWG (if required)"
            "Hardwired 4-wire connection"
            "Premium imaging suite. Dedicated electrical room required. K-rated transformer mandatory."]>
  ∅)))).

Definition POWER_RATINGS : list Z := [30; 32; 40; 50; 60].

(** The catalog lookup of [_update_specs]: the single-phase table when the
    phase is the string [single], the three-phase table for anything else;
    [dict.get] returns [None] for a key that is not in the table. *)
Definition lookup_specs (phase : string) (power : Z) : option WiringSpecs :=
  if String.eqb phase "single"
  then SINGLE_PHASE_SPECS !! power
  else THREE_PHASE_SPECS !! power.


(** One entry of [self.loads], a dict with the keys [id], [name], [watts]
    and [quantity]. *)
Module Load.
Record t := mk {
  id : Z;
  name : string;
  watts : Z;
  quantity : Z
}.
End Load.

Definition DEFAULT_LOADS : list Load.t :=
  [ Load.mk 1 "X-Ray Tube" 15000 1;
    Load.mk 2 "Image Processor" 3000 1;
    Load.mk 3 "Room HVAC" 2000 1 ].

(** [@dataclass SavedReport].  [phase_type] and [power_rating] receive
    [self.selected_phase] and [self.selected_power], which are optional
    attributes, so they are kept optional here. *)
Module SavedReport.
Record t := mk {
  id : string;
  project_name : string;
  phase_type : option string;
  power_rating : option Z;
  status : string;
  created_at : string;
  updated_at : string;
  project_address : string;
  contractor : string;
  electrician : string;
  license_number : string;
  custom_notes : string;
  checklist_data : string;
  load_data : string;
  pdf_path : string
}.
End SavedReport.

(** The five [StringVar]s of [self.project_info]. *)
Module ProjectInfo.
Record t := mk {
  project_name : string;
  project_address : string;
  contractor : string;
  electrician : string;
  license_number : string
}.
Definition empty : t := mk "" "" "" "" "".
End ProjectInfo.

(** The [data] dict that [_save_report] hands to the PDF generator. *)
Module ReportData.
Record t := mk {
  report_id : string;
  project_name : string;
  project_address : string;
  contractor : string;
  electrician : string;
  license_number : string;
  phase_type : option string;
  power_rating : option Z;
  specs : gmap string string;
  specs_notes : string;
  loads : list Load.t;
  checklist : gmap string bool
}.
End ReportData.

(** ** The reports table of [DatabaseManager] *)

Module Db.

(** Rows of the table [reports], keyed by the primary key [id]. *)
Abbreviation table := (gmap string SavedReport.t).

(** The default that [_init_database] declares for the column [status].
    A default fills a column that an [INSERT] leaves out; the statement
    of [save_report] gives all fifteen values. *)
Definition default_status : string := "draft".

(** [save_report]: [INSERT OR REPLACE], answering [True]; when the
    storage engine raises [sqlite3.Error] nothing is written and the
    answer is [False].  The flag [engine_ok] says whether the engine goes
    through with the statement; it does not for a record that leaves a
    column declared [NOT NULL] empty.  A rating beyond 64 bits, which no
    widget offers, makes the call raise [OverflowError] instead and is
    outside this definition. *)
Definition save_report (engine_ok : bool) (r : SavedReport.t) (tbl : table)
  : table * bool :=
  if engine_ok then (<[SavedReport.id r := r]> tbl, true) else (tbl, false).

(** Descending order on [updated_at]. *)
Definition newer (a b : SavedReport.t) : Prop :=
  String.leb (SavedReport.updated_at b) (SavedReport.updated_at a) = true.

#[global] Instance newer_dec : RelDecision newer.
Proof. intros a b. unfold newer. apply _. Defined.

(** [get_reports]: the rows by [updated_at], newest first, at most
    [limit] of them; the empty list on [sqlite3.Error]. *)
Definition get_reports (engine_ok : bool) (limit : nat) (tbl : table)
  : list SavedReport.t :=
  if engine_ok
  then take limit (merge_sort newer (snd <$> map_to_list tbl))
  else [].

End Db.

(** ** The application object *)

Module App.

(** The attributes of [GeneratorSpecsApp] that the modelled methods read
    or write, the rows of the reports table behind [self.db], and the
    toasts shown so far (message and kind, oldest first). *)
Record t := mk {
  selected_phase : option string;
  selected_power : option Z;
  current_specs : option WiringSpecs;
  current_tab : string;
  loads : list Load.t;
  load_id : Z;
  checklist_vars : gmap string bool;
  project_info : ProjectInfo.t;
  reports : Db.table;
  toasts : list (string * string)
}.

(** [__init__]: the selection is empty, the ledger is a copy of the
    default loads and the next id is 4.  The reports table is the one
    the database file already holds. *)
Definition init (tbl : Db.table) : t :=
  mk None None None "specs" DEFAULT_LOADS 4 ∅ ProjectInfo.empty tbl [].

Definition set_phase v (a : t) : t :=
  mk v (selected_power a) (current_specs a) (current_tab a) (loads a)
     (load_id a) (checklist_vars a) (project_info a) (reports a) (toasts a).
Definition set_power v (a : t) : t :=
  mk (selected_phase a) v (current_specs a) (current_tab a) (loads a)
     (load_id a) (checklist_vars a) (project_info a) (reports a) (toasts a).
Definition set_specs v (a : t) : t :=
  mk (selected_phase a) (selected_power a) v (current_tab a) (loads a)
     (load_id a) (checklist_vars a) (project_info a) (reports a) (toasts a).
Definition set_tab v (a : t) : t :=
  mk (selected_phase a) (selected_power a) (current_specs a) v (loads a)
     (load_id a) (checklist_vars a) (project_info a) (reports a) (toasts a).
Definition set_loads v (a : t) : t :=
  mk (selected_phase a) (selected_power a) (current_specs a) (current_tab a) v
     (load_id a) (checklist_vars a) (project_info a) (reports a) (toasts a).
Definition set_load_id v (a : t) : t :=
  mk (selected_phase a) (selected_power a) (current_specs a) (current_tab a)
     (loads a) v (checklist_vars a) (project_info a) (reports a) (toasts a).
Definition set_checklist v (a : t) : t :=
  mk (selected_phase a) (selected_power a) (current_specs a) (current_tab a)
     (loads a) (load_id a) v (project_info a) (reports a) (toasts a).
Definition set_project v (a : t) : t :=
  mk (selected_phase a) (selected_power a) (current_specs a) (current_tab a)
     (loads a) (load_id a) (checklist_vars a) v (reports a) (toasts a).
Definition set_reports v (a : t) : t :=
  mk (selected_phase a) (selected_power a) (current_specs a) (current_tab a)
     (loads a) (load_id a) (checklist_vars a) (project_info a) v (toasts a).

(** [_toast]. *)
Definition _toast (msg kind : string) (a : t) : t :=
  mk (selected_phase a) (selected_power a) (current_specs a) (current_tab a)
     (loads a) (load_id a) (checklist_vars a) (project_info a) (reports a)
     (toasts a ++ [(msg, kind)]).

(** [_switch_tab]: records the tab.  The widgets it then rebuilds are not
    state; the variables that the safety tab registers in
    [checklist_vars] for the items it shows are covered by the action
    [SetChecklist] below. *)
Definition _switch_tab (tab : string) (a : t) : t := set_tab tab a.

(** [_update_specs]. *)
Definition _update_specs (a : t) : t :=
  let specs :=
    if bool_decide (selected_phase a = Some "single")
    then power ← selected_power a; SINGLE_PHASE_SPECS !! power
    else power ← selected_power a; THREE_PHASE_SPECS !! power in
  _switch_tab "specs" (set_specs specs a).

(** [_select_phase] and [_select_power]. *)
Definition _select_phase (phase : string) (a : t) : t :=
  let a := set_phase (Some phase) a in
  if Py.truthy_int (selected_power a) then _update_specs a else a.

Definition _select_power (power : Z) (a : t) : t :=
  let a := set_power (Some power) a in
  if Py.truthy_str (selected_phase a) then _update_specs a else a.

(** [_reset_selection]. *)
Definition _reset_selection (a : t) : t :=
  set_specs None (set_power None (set_phase None a)).

(** *** The load ledger *)

(** [int(var.get() or d)]: the default [d] for an empty entry, the
    parsed text otherwise. *)
Definition int_or_default (text : string) (d : Z) : Py.result Z :=
  match text with
  | EmptyString => Py.Ok d
  | _ => Py.int text
  end.

(** The dict literal built by [submit] in [_add_load]; its items are
    evaluated in the order [id], [name], [watts], [quantity]. *)
Definition new_load (name_var watts_var qty_var : string) (a : t)
  : Py.result Load.t :=
  w ← int_or_default watts_var 0;
  q ← int_or_default qty_var 1;
  mret (Load.mk (load_id a) (Py.str_or name_var "New Load") w q).

(** [submit], the command of the Add button of the dialog opened by
    [_add_load], on the texts of the three entries.  The handler catches
    [ValueError], the only exception the conversions raise, and then
    leaves everything as it was (the dialog stays open). *)
Definition submit (name_var watts_var qty_var : string) (a : t) : t :=
  match new_load name_var watts_var qty_var a with
  | Py.Ok l =>
      _switch_tab "load"
        (set_load_id (load_id a + 1) (set_loads (loads a ++ [l]) a))
  | Py.Raise _ => a
  end.

(** [_remove_load], as far as the attributes go: the list without the
    entries of that id, and the load tab open.  The redraw of the tab
    that its last statement starts, and what it can raise, is
    [LoadTab._remove_load] below. *)
Definition _remove_load (load_id : Z) (a : t) : t :=
  _switch_tab "load"
    (set_loads (List.filter (fun l => negb (Load.id l =? load_id)%Z) (loads a)) a).

(** [sum(l["watts"] * l["quantity"] for l in self.loads)]. *)
Definition total_watts (ls : list Load.t) : Z :=
  foldr (fun l acc => Load.watts l * Load.quantity l + acc) 0 ls.

(** The summary block of [_build_load_tab]. *)
Record summary := mk_summary {
  total_kw : Py.float;
  capacity : Z;
  usage : Py.float;
  status : string
}.

Definition classify (usage : Py.float) : string :=
  if Py.float_gt_int usage 100 then "OVERLOADED"
  else if Py.float_gt_int usage 80 then "HIGH LOAD"
  else "SAFE".

Definition load_summary (a : t) : Py.result summary :=
  let total := total_watts (loads a) in
  total_kw ← Py.int_truediv total 1000;
  let capacity := Py.int_or (selected_power a) 30 in
  q ← Py.int_truediv total (capacity * 1000);
  let usage := Py.float_mul_int q 100 in
  mret (mk_summary total_kw capacity usage (classify usage)).

(** *** Saving a report *)

(** What [_save_report] takes from outside the program during one call:
    the clock readings in the order they are made, the digest, the
    JSON encoder, the reports directory, the PDF generator and the
    storage engine. *)
Record world := mk_world {
  now_iso_id : string;
  now_stamp : string;
  now_iso_created : string;
  now_iso_updated : string;
  md5_hexdigest : string -> string;
  json_dumps_checklist : gmap string bool -> string;
  json_dumps_loads : list Load.t -> string;
  reports_dir : string -> string;
  pdf_generate : string -> ReportData.t -> bool;
  db_engine_ok : bool;
  open_pdf_error : option string
}.

Definition specs_dict (specs : WiringSpecs) : gmap string string :=
  <["voltage" := voltage specs]>
  (<["amperage" := amperage specs]>
  (<["wire_gauge" := wire_gauge specs]>
  (<["neutral_wire" := neutral_wire specs]>
  (<["ground_wire" := ground_wire specs]>
  (<["conduit_size" := conduit_size specs]>
  (<["breaker_size" := breaker_size specs]>
  (<["receptacle" := receptacle specs]> ∅))))))).

(** The [data] dict gathered at the start of [_save_report]. *)
Definition gather (w : world) (specs : WiringSpecs) (a : t) : ReportData.t :=
  let info := project_info a in
  ReportData.mk
    (Py.take 12 (md5_hexdigest w (now_iso_id w)))
    (Py.str_or (ProjectInfo.project_name info) "Untitled Project")
    (ProjectInfo.project_address info)
    (ProjectInfo.contractor info)
    (ProjectInfo.electrician info)
    (ProjectInfo.license_number info)
    (selected_phase a)
    (selected_power a)
    (specs_dict specs)
    (notes specs)
    (loads a)
    (checklist_vars a).

(** The name component of the PDF file name. *)
Definition safe_name (project_name : string) : string :=
  Py.replace " " "_"
    (Py.take 40
       (Py.strip
          (Py.filter (fun c => Py.isalnum c || Py.char_in c " -_")
             project_name))).

Definition filename (w : world) (data : ReportData.t) : string :=
  safe_name (ReportData.project_name data) ++ "_"
    ++ Py.fmt_opt (fun x => x) (ReportData.phase_type data) ++ "_"
    ++ Py.fmt_opt Py.str_of_int (ReportData.power_rating data) ++ "kW_"
    ++ now_stamp w ++ ".pdf".

(** The [SavedReport] built after a successful render. *)
Definition saved_report (w : world) (data : ReportData.t) (pdf_path : string)
  : SavedReport.t :=
  SavedReport.mk
    (ReportData.report_id data)
    (ReportData.project_name data)
    (ReportData.phase_type data)
    (ReportData.power_rating data)
    "completed"
    (now_iso_created w)
    (now_iso_updated w)
    (ReportData.project_address data)
    (ReportData.contractor data)
    (ReportData.electrician data)
    (ReportData.license_number data)
    ""
    (json_dumps_checklist w (ReportData.checklist data))
    (json_dumps_loads w (ReportData.loads data))
    pdf_path.

(** [_save_report]. *)
Definition _save_report (w : world) (a : t) : t :=
  match current_specs a with
  | None => _toast "Please select a configuration first" "warning" a
  | Some specs =>
      let data := gather w specs a in
      let pdf_path := reports_dir w (filename w data) in
      let a := _toast "Generating PDF..." "info" a in
      if negb (pdf_generate w pdf_path data)
      then _toast "Failed to generate PDF" "error" a
      else
        let report := saved_report w data pdf_path in
        let a := set_reports (Db.save_report (db_engine_ok w) report (reports a)).1 a in
        let a := _toast "Report saved successfully!" "success" a in
        match open_pdf_error w with
        | Some e => _toast ("Could not open PDF: " ++ e) "warning" a
        | None => a
        end
  end.

(** *** The reports page *)

(** [_refresh_reports]: the twenty newest reports, one card each; the
    title of a card is [report.project_name or "Untitled"]. *)
Definition card_title (r : SavedReport.t) : string :=
  Py.str_or (SavedReport.project_name r) "Untitled".

Definition card_titles (engine_ok : bool) (tbl : Db.table) : list string :=
  card_title <$> Db.get_reports engine_ok 20 tbl.

(** The two values that the second line of a card interpolates: the
    phase label and the text of the power rating. *)
Definition card_phase (r : SavedReport.t) : string :=
  if bool_decide (SavedReport.phase_type r = Some "single")
  then "Single Phase" else "Three Phase".

Definition card_power (r : SavedReport.t) : string :=
  Py.fmt_opt Py.str_of_int (SavedReport.power_rating r).

(** *** Sessions *)

(** What the user can do: the commands bound to the widgets, typing into
    the project form, ticking a checklist box, and closing the program
    and starting it again, which keeps nothing but the database file. *)
Inductive action :=
| SelectPhase (phase : string)
| SelectPower (power : Z)
| SwitchTab (tab : string)
| ResetSelection
| Submit (name_var watts_var qty_var : string)
| RemoveLoad (load_id : Z)
| EditProjectInfo (info : ProjectInfo.t)
| SetChecklist (item : string) (checked : bool)
| SaveReport (w : world)
| Relaunch.

Definition step (a : t) (act : action) : t :=
  match act with
  | SelectPhase phase => _select_phase phase a
  | SelectPower power => _select_power power a
  | SwitchTab tab => _switch_tab tab a
  | ResetSelection => _reset_selection a
  | Submit n w q => submit n w q a
  | RemoveLoad i => _remove_load i a
  | EditProjectInfo info => set_project info a
  | SetChecklist item checked =>
      set_checklist (<[item := checked]> (checklist_vars a)) a
  | SaveReport w => _save_report w a
  | Relaunch => init (reports a)
  end.

Definition run (acts : list action) (a : t) : t := fold_left step acts a.

End App.

(** ** The logo of the navigation bar *)

Module Logo.

(** The text before the first comma, and the text after it if there is
    one. *)
Fixpoint before_comma (s : string) : string :=
  match s with
  | EmptyString => EmptyString
  | String c r => if Ascii.eqb c "," then EmptyString else String c (before_comma r)
  end.

Fixpoint after_comma (s : string) : option string :=
  match s with
  | EmptyString => None
  | String c r => if Ascii.eqb c "," then Some r else after_comma r
  end.

(** [s.split(",")[1] if "," in s else s]. *)
Definition payload (s : string) : string :=
  match after_comma s with
  | Some r => before_comma r
  | None => s
  end.

(** ["=" * n]. *)
Fixpoint equals (n : nat) : string :=
  match n with
  | O => EmptyString
  | S k => String "=" (equals k)
  end.

(** The padding step of [_build_ui]: [padding = 4 - len(logo_data) % 4],
    and the signs are appended unless [padding] is 4. *)
Definition pad (logo_data : string) : string :=
  let padding := (4 - String.length logo_data mod 4)%nat in
  if Nat.eqb padding 4 then logo_data else logo_data ++ equals padding.

(** The text handed to [base64.b64decode], for a data URL [s]. *)
Definition logo_data (s : string) : string := pad (payload s).

End Logo.

(** ** The load analysis of the PDF *)

Module Pdf.

(** Commas between groups of three digits, on the digits from the right. *)
Fixpoint commas (since : nat) (rev_digits : list ascii) : list ascii :=
  match rev_digits with
  | [] => []
  | c :: r =>
      if Nat.eqb since 3 then ","%char :: c :: commas 1 r
      else c :: commas (S since) r
  end.

(** [f"{n:,}"] for an [int]. *)
Definition fmt_thousands (n : Z) : string :=
  let digits := list_ascii_of_string (Py.str_of_int (Z.abs n)) in
  let grouped := string_of_list_ascii (rev (commas 0 (rev digits))) in
  if n <? 0 then String "-" grouped else grouped.


(** The loop of [generate] over [data['loads']]: the rows so far and the
    running total. *)
Fixpoint load_loop (loads : list Load.t) (rows : list (list string)) (total : Z)
  : list (list string) * Z :=
  match loads with
  | [] => (rows, total)
  | load :: rest =>
      let t := Load.watts load * Load.quantity load in
      load_loop rest
        (rows ++ [[Load.name load; fmt_thousands (Load.watts load);
                   Py.str_of_int (Load.quantity load); fmt_thousands t ++ " W"]])
        (total + t)
  end.

(** The rows of the load analysis table of [generate], or [None] when the
    section is left out because [data.get('loads')] is empty. *)
Definition load_rows (data : ReportData.t) : option (list (list string)) :=
  match ReportData.loads data with
  | [] => None
  | loads =>
      let header := ["<b>Equipment</b>"; "<b>Watts</b>"; "<b>Qty</b>"; "<b>Total</b>"] in
      let '(rows, total) := load_loop loads [header] 0 in
      let last_row := [""; ""; "Total:"; fmt_thousands total ++ " W"] in
      Some (rows ++ [last_row])%list
  end.

(** The two values that the configuration banner of [generate]
    interpolates.  The key [power_rating] is always in the dict, so the
    default of [data.get('power_rating', 30)] is not used. *)
Definition banner_phase (data : ReportData.t) : string :=
  if bool_decide (ReportData.phase_type data = Some "single")
  then "Single Phase" else "Three Phase".

Definition banner_power (data : ReportData.t) : string :=
  Py.fmt_opt Py.str_of_int (ReportData.power_rating data).

(** The project information table; [today] is the formatted date of the
    clock. *)
Definition info (today : string) (data : ReportData.t) : list (list string) :=
  [ ["Project:"; ReportData.project_name data];
    ["Address:"; Py.str_or (ReportData.project_address data) "N/A"];
    ["Contractor:"; Py.str_or (ReportData.contractor data) "N/A"];
    ["Electrician:"; Py.str_or (ReportData.electrician data) "N/A"];
    ["Date:"; today] ].

(** [specs.get(key, d)]. *)
Definition get (specs : gmap string string) (key d : string) : string :=
  default d (specs !! key).

(** The electrical specifications table. *)
Definition spec_rows (data : ReportData.t) : list (list string) :=
  let specs := ReportData.specs data in
  [ ["<b>Parameter</b>"; "<b>Value</b>"];
    ["Voltage"; get specs "voltage" "N/A"];
    ["Amperage"; get specs "amperage" "N/A"];
    ["Wire Gauge (Hot)"; get specs "wire_gauge" "N/A"];
    ["Neutral Wire"; get specs "neutral_wire" "N/A"];
    ["Ground Wire"; get specs "ground_wire" "N/A"];
    ["Conduit Size"; get specs "conduit_size" "N/A"];
    ["Breaker Size"; get specs "breaker_size" "N/A"];
    ["Connection"; get specs "receptacle" "N/A"] ].

(** The notes paragraph, or [None] when [data.get('specs_notes')] is
    empty and the section is left out. *)
Definition notes_paragraph (data : ReportData.t) : option string :=
  if Py.truthy_str (Some (ReportData.specs_notes data))
  then Some (ReportData.specs_notes data) else None.

End Pdf.

(** ** The wiring diagram *)

Module Diagram.

(** A line segment with its colour, and a legend entry. *)
Record wire := mk_wire {
  x1 : Z; y1 : Z; x2 : Z; y2 : Z;
  colour : string
}.

Definition red : string := "#ef4444".
Definition green : string := "#22c55e".
Definition blue : string := "#3b82f6".
Definition yellow : string := "#eab308".

(** [phase == "single"] on the optional phase. *)
Definition is_single (phase : option string) : bool :=
  bool_decide (phase = Some "single").

(** The title of both diagrams. *)
Definition title (phase : option string) (power : option Z) : string :=
  (if is_single phase then "SINGLE" else "THREE") ++ " PHASE - "
    ++ Py.fmt_opt Py.str_of_int power ++ " kW".

(** The wires and the legend of [_build_diagram_tab], drawn on the canvas
    of the diagram tab; its gray is the slate of the theme. *)
Definition screen_gray : string := "#94a3b8".

Definition screen_wires (phase : option string) : list wire :=
  if is_single phase then
    [ mk_wire 160 100 220 100 red; mk_wire 330 100 390 100 red;
      mk_wire 445 160 445 220 red;
      mk_wire 160 120 220 120 screen_gray; mk_wire 330 120 390 120 screen_gray;
      mk_wire 425 160 425 220 screen_gray;
      mk_wire 160 140 220 140 green; mk_wire 330 140 360 140 green;
      mk_wire 360 140 360 270 green; mk_wire 330 270 390 270 green ]
  else
    [ mk_wire 160 95 220 95 red; mk_wire 330 95 390 95 red;
      mk_wire 460 160 460 220 red;
      mk_wire 160 115 220 115 yellow; mk_wire 330 115 390 115 yellow;
      mk_wire 445 160 445 220 yellow;
      mk_wire 160 135 220 135 blue; mk_wire 330 135 390 135 blue;
      mk_wire 430 160 430 220 blue;
      mk_wire 160 155 220 155 green; mk_wire 330 155 360 155 green;
      mk_wire 360 155 360 270 green; mk_wire 330 270 390 270 green ].

Definition screen_legend (phase : option string)
  : list (string * string * Z) :=
  if is_single phase
  then [("Hot", red, 150); ("Neutral", screen_gray, 280); ("Ground", green, 410)]
  else [("Phase A", red, 100); ("Phase B", yellow, 220); ("Phase C", blue, 340);
        ("Ground", green, 460)].

(** [_build_diagram_tab]: nothing is drawn while no specification is
    resolved; otherwise the title, the values written into the boxes of
    the power source, the breaker, the disconnect and the equipment, the
    wires and the legend.  The fifth box, the ground rod, carries a
    constant. *)
Definition _build_diagram_tab (a : App.t)
  : option (string * list string * list wire * list (string * string * Z)) :=
  match App.current_specs a with
  | None => None
  | Some specs =>
      let phase := App.selected_phase a in
      let power := App.selected_power a in
      let values :=
        [voltage specs; breaker_size specs; "Fused";
         Py.fmt_opt Py.str_of_int power ++ " kW"] in
      Some (title phase power, values, screen_wires phase, screen_legend phase)
  end.

(** The wires and the legend of [_generate_diagram], drawn into the image
    of the PDF; its gray is a lighter one. *)
Definition pdf_gray : string := "#e2e8f0".

Definition pdf_wires (phase : option string) : list wire :=
  if is_single phase then
    [ mk_wire 170 110 230 110 red; mk_wire 350 110 410 110 red;
      mk_wire 470 180 470 250 red;
      mk_wire 170 130 230 130 pdf_gray; mk_wire 350 130 410 130 pdf_gray;
      mk_wire 450 180 450 250 pdf_gray;
      mk_wire 170 150 230 150 green; mk_wire 350 150 380 150 green;
      mk_wire 380 150 380 310 green; mk_wire 350 310 380 310 green;
      mk_wire 380 310 410 310 green ]
  else
    [ mk_wire 170 100 230 100 red; mk_wire 350 100 410 100 red;
      mk_wire 480 180 480 250 red;
      mk_wire 170 120 230 120 yellow; mk_wire 350 120 410 120 yellow;
      mk_wire 465 180 465 250 yellow;
      mk_wire 170 140 230 140 blue; mk_wire 350 140 410 140 blue;
      mk_wire 450 180 450 250 blue;
      mk_wire 170 160 230 160 green; mk_wire 350 160 380 160 green;
      mk_wire 380 160 380 310 green; mk_wire 350 310 410 310 green ].

Definition pdf_legend (phase : option string) : list (string * string) :=
  if is_single phase
  then [("Hot", red); ("Neutral", pdf_gray); ("Ground", green)]
  else [("Phase A", red); ("Phase B", yellow); ("Phase C", blue); ("Ground", green)].

(** What [_generate_diagram] draws from the [data] dict of a report, whose
    keys [phase_type] and [power_rating] are always present. *)
Definition _generate_diagram (data : ReportData.t)
  : string * list string * list wire * list (string * string) :=
  let phase := ReportData.phase_type data in
  let power := ReportData.power_rating data in
  let specs := ReportData.specs data in
  let values :=
    [Pdf.get specs "voltage" "240V"; Pdf.get specs "breaker_size" "150A";
     "Fused"; Py.fmt_opt Py.str_of_int power ++ " kW"] in
  (title phase power, values, pdf_wires phase, pdf_legend phase).

End Diagram.

(** ** Drawing the load tab *)

Module LoadTab.

(** What the load tab shows: for each load its name and the text of its
    total, the summary, and the text of the capacity. *)
Record view := mk_view {
  rows : list (string * string);
  stats : App.summary;
  capacity_text : string
}.

(** [f"{n:,}"] and [f"{n}"] for an [int]. *)
Definition format_int (f : Z -> string) (n : Z) : Py.result string :=
  if Py.str_within_limit n then Py.Ok (f n) else Py.Raise Py.ValueError.

(** The loop of [_build_load_tab] over [self.loads]. *)
Fixpoint draw_rows (loads : list Load.t) : Py.result (list (string * string)) :=
  match loads with
  | [] => Py.Ok []
  | load :: rest =>
      let watts := Load.watts load * Load.quantity load in
      text ← format_int Pdf.fmt_thousands watts;
      more ← draw_rows rest;
      mret ((Load.name load, text ++ " W") :: more)
  end.

(** [_build_load_tab]: the rows, then the summary, then the texts of the
    summary, of which the capacity is the one that formats an [int].
    The widgets it creates are not modelled. *)
Definition _build_load_tab (a : App.t) : Py.result view :=
  rows ← draw_rows (App.loads a);
  stats ← App.load_summary a;
  capacity_text ← format_int Py.str_of_int (App.capacity stats);
  mret (mk_view rows stats (capacity_text ++ " kW")).

(** A call of [_remove_load]: the attributes after it, and the outcome of
    the redraw that [_switch_tab("load")] makes from them.  An exception
    of the redraw leaves the call after the list has been replaced. *)
Definition _remove_load (load_id : Z) (a : App.t) : App.t * Py.result view :=
  let a := App._remove_load load_id a in
  (a, _build_load_tab a).

End LoadTab.

(** ** The toast notification *)

Module Toast.

(** What an animation does to the toast: it places it at a vertical
    position, or destroys it. *)
Inductive event :=
| Place (y : Z)
| Destroy.

(** The inner [step] of [_animate_in].  Each call places the toast and
    schedules the next call through [self.after]; [fuel] bounds the number
    of calls. *)
Fixpoint animate_in_step (fuel : nat) (y : Z) : option (list event) :=
  match fuel with
  | O => None
  | S k =>
      if y <? 15 then
        rest ← animate_in_step k (y + 4);
        Some (Place y :: rest)
      else Some []
  end.

Definition _animate_in (fuel : nat) : option (list event) :=
  animate_in_step fuel (-50).

(** The inner [step] of [_animate_out]. *)
Fixpoint animate_out_step (fuel : nat) (y : Z) : option (list event) :=
  match fuel with
  | O => None
  | S k =>
      if y >? -50 then
        rest ← animate_out_step k (y - 6);
        Some (Place y :: rest)
      else Some [Destroy]
  end.

Definition _animate_out (fuel : nat) : option (list event) :=
  animate_out_step fuel 15.

End Toast.

(** ** Notions used in the statements *)

(** The text of [n] zeros. *)
Definition zeros (n : Z) : string :=
  string_of_list_ascii (repeat "0"%char (Z.to_nat n)).

(** [n] placements that start at [y] and move by [d] each time. *)
Definition slide (y d : Z) (n : nat) : list Toast.event :=
  (fun i : nat => Toast.Place (y + d * Z.of_nat i)) <$> seq 0 n.

(** A float that is not a number. *)
Definition is_nan (x : Py.float) : bool :=
  match x with
  | S754_nan => true
  | _ => false
  end.

(** The ten pairs of the fixed domain. *)
Definition domain : list (string * Z) :=
  list_prod ["single"; "three"] POWER_RATINGS.

(** The value of a digit sequence read from the left, starting from
    [acc]. *)
Fixpoint uint_fold (d : Decimal.uint) (acc : Z) : Z :=
  match d with
  | Decimal.Nil => acc
  | Decimal.D0 l => uint_fold l (10 * acc + 0)
  | Decimal.D1 l => uint_fold l (10 * acc + 1)
  | Decimal.D2 l => uint_fold l (10 * acc + 2)
  | Decimal.D3 l => uint_fold l (10 * acc + 3)
  | Decimal.D4 l => uint_fold l (10 * acc + 4)
  | Decimal.D5 l => uint_fold l (10 * acc + 5)
  | Decimal.D6 l => uint_fold l (10 * acc + 6)
  | Decimal.D7 l => uint_fold l (10 * acc + 7)
  | Decimal.D8 l => uint_fold l (10 * acc + 8)
  | Decimal.D9 l => uint_fold l (10 * acc + 9)
  end.

(** The ids of the entries of a ledger, in order. *)
Definition ids (ls : list Load.t) : list Z := List.map Load.id ls.

(** What every reachable ledger satisfies: the ids are pairwise
    distinct, positive, and below the counter, which never falls under
    its initial value. *)
Definition ledger_ok (a : App.t) : Prop :=
  NoDup (ids (App.loads a))
  /\ Forall (fun i => 1 <= i < App.load_id a) (ids (App.loads a))
  /\ 4 <= App.load_id a.

(** A ledger whose rows can be written: the total of every load has at
    most 4300 digits. *)
Definition rows_drawable (a : App.t) : Prop :=
  Forall (fun l => Z.abs (Load.watts l * Load.quantity l) < 10 ^ 4300)
         (App.loads a).

(** A state whose load tab can be drawn: the rows can be written, the
    aggregate is below [2^1023] in absolute value, and the capacity has
    at most 4300 digits. *)
Definition drawable (a : App.t) : Prop :=
  rows_drawable a
  /\ Z.abs (App.total_watts (App.loads a)) < 2 ^ 1023
  /\ Z.abs (Py.int_or (App.selected_power a) 30) < 10 ^ 4300.

(** The test of the list comprehension in [_remove_load]. *)
Definition keep_other (i : Z) (l : Load.t) : bool := negb (Load.id l =? i).

(** The two operations on the ledger. *)
Inductive ledger_op :=
| Add (name_var watts_var qty_var : string)
| Remove (load_id : Z).

Definition op_action (op : ledger_op) : App.action :=
  match op with
  | Add n w q => App.Submit n w q
  | Remove i => App.RemoveLoad i
  end.

(** The ids handed out along a sequence of operations, oldest first: one
    for each add that goes through. *)
Fixpoint issued (ops : list ledger_op) (a : App.t) : list Z :=
  match ops with
  | [] => []
  | op :: rest =>
      match op with
      | Add n w q =>
          match App.new_load n w q a with
          | Py.Ok l => [Load.id l]
          | Py.Raise _ => []
          end
      | Remove _ => []
      end ++ issued rest (App.step a (op_action op))
  end.

(** A world to run examples in: fixed clock readings, a digest that
    answers the same thirty-two characters for every text, a renderer
    and a storage engine that succeed. *)
Definition sample_world : App.world :=
  App.mk_world "2024-05-06T07:08:09.101112" "20240506_070809"
               "2024-05-06T07:08:10.000001" "2024-05-06T07:08:10.000002"
               (fun _ => "0123456789abcdef0123456789abcdef")
               (fun _ => "{}") (fun _ => "[]")
               (fun f => "/home/user/.maven/Reports/" ++ f)
               (fun _ _ => true) true None.

(** The path [_save_report] renders to. *)
Definition pdf_path_of (w : App.world) (specs : WiringSpecs) (a : App.t) : string :=
  App.reports_dir w (App.filename w (App.gather w specs a)).

(** The row [_save_report] writes after a successful render. *)
Definition row_of (w : App.world) (specs : WiringSpecs) (a : App.t) : SavedReport.t :=
  App.saved_report w (App.gather w specs a) (pdf_path_of w specs a).

(** The characters the name filter lets through, and the ones a
    sanitized name can hold. *)
Definition kept (c : ascii) : bool := Py.isalnum c || Py.char_in c " -_".
Definition name_char (c : ascii) : bool :=
  Py.isalnum c || Ascii.eqb c "-" || Ascii.eqb c "_".

(** The commands as the widgets offer them: the two phase cards pass
    single or three, the rating buttons one of [POWER_RATINGS]. *)
Definition ui_action (act : App.action) : Prop :=
  match act with
  | App.SelectPhase phase => phase = "single" \/ phase = "three"
  | App.SelectPower power => power ∈ POWER_RATINGS
  | _ => True
  end.

(** The selection and the resolved specification agree: a phase is one of
    the two cards, a rating one of the five buttons, and the specification
    is the catalog entry of the pair when both are chosen, absent
    otherwise. *)
Definition selection_ok (a : App.t) : Prop :=
  (forall phase, App.selected_phase a = Some phase ->
     phase = "single" \/ phase = "three")
  /\ (forall power, App.selected_power a = Some power -> power ∈ POWER_RATINGS)
  /\ App.current_specs a
     = match App.selected_phase a, App.selected_power a with
       | Some phase, Some power => lookup_specs phase power
       | _, _ => None
       end.

(** A row as the save flow writes it from the widgets: a name that is not
    empty, one of the two phases, one of the five ratings, the status
    completed, no notes, and an id of at most twelve characters. *)
Definition row_ok (r : SavedReport.t) : Prop :=
  SavedReport.project_name r <> ""
  /\ (SavedReport.phase_type r = Some "single"
      \/ SavedReport.phase_type r = Some "three")
  /\ (exists power, SavedReport.power_rating r = Some power
                    /\ power ∈ POWER_RATINGS)
  /\ SavedReport.status r = "completed"
  /\ SavedReport.custom_notes r = ""
  /\ (String.length (SavedReport.id r) <= 12)%nat.

(** The sign bit of a float; a NaN has none. *)
Definition sign_is (s : bool) (x : Py.float) : Prop :=
  match x with
  | S754_zero s' | S754_infinity s' | S754_finite s' _ _ => s' = s
  | S754_nan => False
  end.


(** The colours of a list of wires, and a wire that is horizontal or
    vertical. *)
Definition colours (ws : list Diagram.wire) : list string :=
  Diagram.colour <$> ws.

Definition straight (w : Diagram.wire) : Prop :=
  Diagram.x1 w = Diagram.x2 w \/ Diagram.y1 w = Diagram.y2 w.

(** ** Facts about the float operations *)

Section FloatFacts.

Import Py.

Lemma float_of_int_80 :
  float_of_int 80 = S754_finite false 5629499534213120 (-46).
Proof. vm_compute. reflexivity. Qed.

Lemma float_of_int_100 :
  float_of_int 100 = S754_finite false 7036874417766400 (-46).
Proof. vm_compute. reflexivity. Qed.

(** Comparison is antisymmetric. *)
Lemma SFcompare_antisym (x y : float) :
  SFcompare y x = CompOpp <$> SFcompare x y.
Proof.
  destruct x as [sx|sx| |sx mx ex], y as [sy|sy| |sy my ey]; simpl;
    try reflexivity;
    try (destruct sx; reflexivity); try (destruct sy; reflexivity);
    try (destruct sx, sy; reflexivity).
  assert (Pos.compare_cont Eq my mx = CompOpp (Pos.compare_cont Eq mx my)) as Hc.
  { symmetry. apply (Pos.compare_cont_antisym mx my Eq). }
  destruct sx, sy; simpl; try reflexivity;
    rewrite (Z.compare_antisym ex ey), Hc;
    destruct (ex ?= ey)%Z; simpl; try reflexivity;
    destruct (Pos.compare_cont Eq mx my); reflexivity.
Qed.

Lemma SFcompare_total (x y : float) :
  is_nan x = false -> is_nan y = false -> is_Some (SFcompare x y).
Proof.
  destruct x, y; simpl; intros; try discriminate; eauto.
Qed.

(** On numbers, [x > y] is the negation of [x <= y]. *)
Lemma SFltb_negb_SFleb (x y : float) :
  is_nan x = false -> is_nan y = false -> SFltb y x = negb (SFleb x y).
Proof.
  intros Hx Hy. unfold SFltb, SFleb. rewrite SFcompare_antisym.
  destruct (SFcompare_total x y Hx Hy) as [c ->].
  destruct c; reflexivity.
Qed.

(** Shifting a mantissa to the right keeps it nonnegative. *)
Lemma shr_1_nonneg mrs : 0 <= shr_m mrs -> 0 <= shr_m (shr_1 mrs).
Proof.
  destruct mrs as [m r s]; simpl.
  destruct m as [|p|p]; simpl; try lia; destruct p; simpl; lia.
Qed.

Lemma iter_pos_shr_1_nonneg p : forall mrs,
  0 <= shr_m mrs -> 0 <= shr_m (SpecFloat.iter_pos shr_1 p mrs).
Proof.
  induction p as [p IH|p IH|]; intros mrs H; simpl.
  - apply IH, IH, shr_1_nonneg, H.
  - apply IH, IH, H.
  - apply shr_1_nonneg, H.
Qed.

Lemma shr_fexp_nonneg m e l :
  0 <= m -> 0 <= shr_m (shr_fexp prec emax m e l).1.
Proof.
  intros H. unfold shr_fexp, shr.
  assert (0 <= shr_m (shr_record_of_loc m l)) as H0.
  { destruct l as [|[]]; simpl; exact H. }
  destruct (fexp prec emax (Zdigits2 m + e) - e); simpl; auto.
  apply iter_pos_shr_1_nonneg, H0.
Qed.

Lemma round_nearest_even_nonneg m l :
  0 <= m -> 0 <= round_nearest_even m l.
Proof.
  intros H. unfold round_nearest_even.
  destruct l as [|[]]; try lia. destruct (Z.even m); lia.
Qed.

(** Rounding a nonnegative mantissa never gives a NaN. *)
Lemma binary_round_aux_not_nan s m e l :
  0 <= m -> is_nan (binary_round_aux prec emax s m e l) = false.
Proof.
  intros H. unfold binary_round_aux.
  pose proof (shr_fexp_nonneg m e l H) as H1.
  destruct (shr_fexp prec emax m e l) as [mrs1 e1]; simpl in H1.
  pose proof (shr_fexp_nonneg _ e1 loc_Exact
                (round_nearest_even_nonneg _ (loc_of_shr_record mrs1) H1)) as H2.
  destruct (shr_fexp prec emax _ e1 loc_Exact) as [mrs2 e2]; simpl in H2.
  destruct (shr_m mrs2) as [|q|q]; try reflexivity; try lia.
  destruct (e2 <=? emax - prec); reflexivity.
Qed.

Lemma SFdiv_core_binary_nonneg (m1 m2 : positive) e1 e2 :
  0 <= (SFdiv_core_binary prec emax (Zpos m1) e1 (Zpos m2) e2).1.1.
Proof.
  unfold SFdiv_core_binary.
  set (s := e1 - e2 - _).
  set (m' := match s with Z0 => _ | Zpos _ => _ | Zneg _ => _ end).
  assert (0 <= m') as Hm'.
  { subst m'. destruct s; try lia. apply Z.shiftl_nonneg. lia. }
  pose proof (Z.div_eucl_eq m' (Zpos m2) ltac:(lia)) as Heq.
  pose proof (Z.mod_pos_bound m' (Zpos m2) ltac:(lia)) as Hr.
  unfold Z.modulo in Hr.
  destruct (Z.div_eucl m' (Zpos m2)) as [q r]; simpl. nia.
Qed.

Lemma SFdiv_finite_not_nan sx mx ex sy my ey :
  is_nan (SFdiv prec emax (S754_finite sx mx ex) (S754_finite sy my ey)) = false.
Proof.
  simpl.
  pose proof (SFdiv_core_binary_nonneg mx my ex ey) as H.
  destruct (SFdiv_core_binary prec emax (Zpos mx) ex (Zpos my) ey) as [[mz ez] lz].
  apply binary_round_aux_not_nan, H.
Qed.

(** The quotient of two integers is a number, and a finite one. *)
Lemma int_truediv_number a b q :
  int_truediv a b = Ok q ->
  is_nan q = false /\ (forall s, q <> S754_infinity s).
Proof.
  unfold int_truediv. intros H.
  destruct b as [|b|b]; try discriminate H;
    destruct a as [|a|a]; try (injection H as <-; split; [reflexivity|discriminate]);
    match type of H with
    | match ?d with _ => _ end = _ =>
        pose proof (SFdiv_finite_not_nan _ _ _ _ _ _ : is_nan d = false) as Hn;
        destruct d eqn:Hd; try discriminate H; injection H as <-;
        split; try exact Hn; try discriminate
    end.
Qed.

(** Multiplying such a quotient by an integer constant gives a number. *)
Lemma float_mul_int_100_number q :
  is_nan q = false -> (forall s, q <> S754_infinity s) ->
  is_nan (float_mul_int q 100) = false.
Proof.
  intros Hn Hi. unfold float_mul_int. rewrite float_of_int_100.
  destruct q as [s|s| |s m e]; try discriminate Hn.
  - reflexivity.
  - destruct (Hi s eq_refl).
  - apply binary_round_aux_not_nan. lia.
Qed.

(** A float that is at most 80 is at most 100. *)
Lemma le_80_le_100 (x : float) :
  float_le_int x 80 = true -> float_le_int x 100 = true.
Proof.
  unfold float_le_int. rewrite float_of_int_80, float_of_int_100.
  unfold SFleb, SFcompare.
  destruct x as [s|s| |s m e]; try (intros H; exact H).
  destruct s; try (intros H; exact H).
  destruct (Z.compare_spec e (-46)); try (intros H'; exact H').
  rewrite !Pos.compare_cont_spec. cbn [Pos.switch_Eq].
  assert (5629499534213120 < 7036874417766400)%positive as Hlt
    by reflexivity.
  destruct (Pos.compare_spec m 5629499534213120) as [Hm|Hm|Hm];
    intros H'; try discriminate H';
    destruct (Pos.compare_spec m 7036874417766400) as [Hn|Hn|Hn];
    try reflexivity; exfalso; clear H'.
  - subst m. exact (Pos.lt_irrefl _ (Pos.lt_trans _ _ _ Hlt Hn)).
  - exact (Pos.lt_irrefl _ (Pos.lt_trans _ _ _ Hm (Pos.lt_trans _ _ _ Hlt Hn))).
Qed.

(** *** The weight of a quotient

    The facts below bound the exponent that rounding gives by the number
    of binary digits of the mantissa, to tell when a quotient of two
    integers is within the range of a float. *)

Lemma fexp_eq x : fexp prec emax x = Z.max (x - 53) (-1074).
Proof. reflexivity. Qed.

(** The number of binary digits of a positive number lies between two
    powers of two. *)
Lemma digits2_pos_bounds p :
  2 ^ (Zpos (digits2_pos p) - 1) <= Zpos p < 2 ^ Zpos (digits2_pos p).
Proof.
  induction p as [p IH|p IH|]; cbn [digits2_pos];
    rewrite ?Pos2Z.inj_succ.
  - replace (Z.succ (Zpos (digits2_pos p)) - 1) with (Z.succ (Zpos (digits2_pos p) - 1))
      by lia.
    rewrite !Z.pow_succ_r by lia. lia.
  - replace (Z.succ (Zpos (digits2_pos p)) - 1) with (Z.succ (Zpos (digits2_pos p) - 1))
      by lia.
    rewrite !Z.pow_succ_r by lia. lia.
  - simpl. lia.
Qed.

Lemma Zdigits2_nonneg m : 0 <= Zdigits2 m.
Proof. destruct m; simpl; lia. Qed.

Lemma Zdigits2_lt_pow m : 0 <= m -> m < 2 ^ Zdigits2 m.
Proof.
  destruct m as [|p|p]; intros H.
  - simpl. lia.
  - apply digits2_pos_bounds.
  - lia.
Qed.

Lemma Zdigits2_le k m : 0 <= k -> 0 <= m -> m < 2 ^ k -> Zdigits2 m <= k.
Proof.
  intros Hk Hm Hlt. destruct m as [|p|p]; [exact Hk| |lia].
  cbn [Zdigits2].
  pose proof (digits2_pos_bounds p) as [Hlo _].
  assert (2 ^ (Zpos (digits2_pos p) - 1) < 2 ^ k) as H by lia.
  apply Z.pow_lt_mono_r_iff in H; lia.
Qed.

Lemma Zdigits2_ge k m : 0 <= k -> 2 ^ k <= m -> k < Zdigits2 m.
Proof.
  intros Hk Hle.
  assert (0 < 2 ^ k) by (apply Z.pow_pos_nonneg; lia).
  pose proof (Zdigits2_lt_pow m ltac:(lia)) as Hlt.
  pose proof (Zdigits2_nonneg m).
  assert (2 ^ k < 2 ^ Zdigits2 m) as H' by lia.
  apply Z.pow_lt_mono_r_iff in H'; lia.
Qed.

Lemma Zdigits2_mono a b : 0 <= a <= b -> Zdigits2 a <= Zdigits2 b.
Proof.
  intros [Ha Hab]. apply Zdigits2_le; [apply Zdigits2_nonneg|exact Ha|].
  pose proof (Zdigits2_lt_pow b ltac:(lia)). lia.
Qed.

(** One shift to the right takes one digit away. *)
Lemma shr_1_digits mrs :
  0 <= shr_m mrs ->
  0 <= shr_m (shr_1 mrs)
  /\ Zdigits2 (shr_m (shr_1 mrs)) = Z.max 0 (Zdigits2 (shr_m mrs) - 1).
Proof.
  destruct mrs as [m r s]; cbn [shr_m]. intros Hm.
  destruct m as [|p|p]; [| |lia].
  - simpl. lia.
  - destruct p as [p|p|]; cbn [shr_1 shr_m Zdigits2 digits2_pos];
      rewrite ?Pos2Z.inj_succ; lia.
Qed.

Lemma iter_pos_shr_1_digits p : forall mrs,
  0 <= shr_m mrs ->
  0 <= shr_m (SpecFloat.iter_pos shr_1 p mrs)
  /\ Zdigits2 (shr_m (SpecFloat.iter_pos shr_1 p mrs))
     = Z.max 0 (Zdigits2 (shr_m mrs) - Zpos p).
Proof.
  induction p as [p IH|p IH|]; intros mrs H; cbn [SpecFloat.iter_pos].
  - destruct (shr_1_digits mrs H) as [H1 E1].
    destruct (IH _ H1) as [H2 E2]. destruct (IH _ H2) as [H3 E3].
    split; [exact H3|]. rewrite E3, E2, E1. lia.
  - destruct (IH _ H) as [H2 E2]. destruct (IH _ H2) as [H3 E3].
    split; [exact H3|]. rewrite E3, E2. lia.
  - destruct (shr_1_digits mrs H) as [H1 E1]. split; [exact H1|].
    rewrite E1. lia.
Qed.

(** The mantissa and the exponent that [shr_fexp] gives. *)
Lemma shr_fexp_digits m e l :
  0 <= m ->
  let d := Zdigits2 m in
  let out := shr_fexp prec emax m e l in
  0 <= shr_m out.1
  /\ out.2 = Z.max e (fexp prec emax (d + e))
  /\ Zdigits2 (shr_m out.1) = Z.max 0 (d + e - out.2).
Proof.
  intros Hm d out. subst out. unfold shr_fexp, shr. fold d.
  assert (shr_m (shr_record_of_loc m l) = m) as Hrec
    by (destruct l as [|[]]; reflexivity).
  pose proof (Zdigits2_nonneg m) as Hd. fold d in Hd.
  destruct (fexp prec emax (d + e) - e) as [|n|n] eqn:Hn; cbn [fst snd].
  - rewrite Hrec. fold d. lia.
  - destruct (iter_pos_shr_1_digits n (shr_record_of_loc m l)) as [H1 E1];
      [rewrite Hrec; exact Hm|].
    rewrite Hrec in E1. fold d in E1. split; [exact H1|]. rewrite E1. lia.
  - rewrite Hrec. fold d. lia.
Qed.

Lemma round_nearest_even_bounds m l :
  m <= round_nearest_even m l <= m + 1.
Proof.
  unfold round_nearest_even. destruct l as [|[]]; try lia.
  destruct (Z.even m); lia.
Qed.

Lemma Zdigits2_succ m : 0 <= m -> Zdigits2 (m + 1) <= Zdigits2 m + 1.
Proof.
  intros Hm. pose proof (Zdigits2_nonneg m) as Hd.
  pose proof (Zdigits2_lt_pow m Hm) as Hlt.
  apply Zdigits2_le; [lia|lia|].
  rewrite Z.pow_add_r by lia. change (2 ^ 1) with 2. lia.
Qed.

(** What [binary_round_aux] gives, by the weight of its argument. *)
Lemma binary_round_aux_finite s m e l :
  0 <= m -> e <= 971 -> Zdigits2 m + e <= 1023 ->
  forall s', binary_round_aux prec emax s m e l <> S754_infinity s'.
Proof.
  intros Hm He Hd s'. unfold binary_round_aux.
  destruct (shr_fexp_digits m e l Hm) as (H1 & E1 & D1).
  destruct (shr_fexp prec emax m e l) as [mrs1 e1]; cbn [fst snd] in *.
  set (m1 := round_nearest_even (shr_m mrs1) (loc_of_shr_record mrs1)).
  pose proof (round_nearest_even_bounds (shr_m mrs1) (loc_of_shr_record mrs1)) as Hr.
  fold m1 in Hr.
  assert (0 <= m1) as Hm1 by lia.
  assert (Zdigits2 m1 <= Zdigits2 (shr_m mrs1) + 1) as Hd1.
  { etransitivity; [apply (Zdigits2_mono m1 (shr_m mrs1 + 1)); lia|].
    apply Zdigits2_succ, H1. }
  destruct (shr_fexp_digits m1 e1 loc_Exact Hm1) as (H2 & E2 & D2).
  destruct (shr_fexp prec emax m1 e1 loc_Exact) as [mrs2 e2]; cbn [fst snd] in *.
  rewrite fexp_eq in *.
  destruct (shr_m mrs2) as [|q|q]; try discriminate.
  destruct (Z.leb_spec e2 (emax - prec)) as [Hle|Hgt]; [discriminate|].
  unfold emax, prec in Hgt. lia.
Qed.

Lemma binary_round_aux_infinite s m e l :
  0 < m -> 0 <= e -> 1025 <= Zdigits2 m + e ->
  binary_round_aux prec emax s m e l = S754_infinity s.
Proof.
  intros Hm0 He Hd. assert (0 <= m) as Hm by lia.
  pose proof (Zdigits2_ge 0 m ltac:(lia) ltac:(simpl; lia)) as Hd0.
  unfold binary_round_aux.
  destruct (shr_fexp_digits m e l Hm) as (H1 & E1 & D1).
  destruct (shr_fexp prec emax m e l) as [mrs1 e1]; cbn [fst snd] in *.
  set (m1 := round_nearest_even (shr_m mrs1) (loc_of_shr_record mrs1)).
  pose proof (round_nearest_even_bounds (shr_m mrs1) (loc_of_shr_record mrs1)) as Hr.
  fold m1 in Hr.
  assert (0 <= m1) as Hm1 by lia.
  assert (Zdigits2 (shr_m mrs1) <= Zdigits2 m1) as Hd1
    by (apply Zdigits2_mono; lia).
  assert (Zdigits2 m1 <= Zdigits2 (shr_m mrs1) + 1) as Hd1'.
  { etransitivity; [apply (Zdigits2_mono m1 (shr_m mrs1 + 1)); lia|].
    apply Zdigits2_succ, H1. }
  destruct (shr_fexp_digits m1 e1 loc_Exact Hm1) as (H2 & E2 & D2).
  destruct (shr_fexp prec emax m1 e1 loc_Exact) as [mrs2 e2]; cbn [fst snd] in *.
  rewrite fexp_eq in *.
  assert (0 < Zdigits2 (shr_m mrs2)) as Hpos by lia.
  destruct (shr_m mrs2) as [|q|q]; [simpl in Hpos; lia| |lia].
  destruct (Z.leb_spec e2 (emax - prec)) as [Hle|Hgt]; [|reflexivity].
  unfold emax, prec in Hle. lia.
Qed.

Lemma Zdigits2_shiftl m s :
  0 <= m -> 0 <= s -> Zdigits2 (Z.shiftl m s) <= Zdigits2 m + s.
Proof.
  intros Hm Hs. pose proof (Zdigits2_nonneg m) as Hd.
  pose proof (Zdigits2_lt_pow m Hm) as Hlt.
  assert (0 < 2 ^ s) as Hpow by (apply Z.pow_pos_nonneg; lia).
  rewrite Z.shiftl_mul_pow2 by exact Hs.
  apply Zdigits2_le; [lia|nia|].
  rewrite Z.pow_add_r by lia. nia.
Qed.

(** The quotient that [SFdiv_core_binary] gives for two integers. *)
Lemma SFdiv_core_binary_int (a b : positive) :
  let out := SFdiv_core_binary prec emax (Zpos a) 0 (Zpos b) 0 in
  let q := out.1.1 in
  let e := out.1.2 in
  0 <= q
  /\ e = Z.min (fexp prec emax (Zdigits2 (Zpos a) - Zdigits2 (Zpos b))) 0
  /\ Zdigits2 q + e <= Zdigits2 (Zpos a)
  /\ (e = 0 -> q = Zpos a / Zpos b).
Proof.
  intros out q e. subst q e out. unfold SFdiv_core_binary.
  rewrite !Z.add_0_r, !Z.sub_0_r.
  set (e := Z.min (fexp prec emax (Zdigits2 (Zpos a) - Zdigits2 (Zpos b))) 0).
  assert (e <= 0) as He by (subst e; lia).
  replace (0 - e) with (- e) by lia.
  set (m' := match - e with Z0 => _ | Zpos _ => _ | Zneg _ => _ end).
  assert (m' = Z.shiftl (Zpos a) (- e)) as Hm'.
  { subst m'. destruct (- e) eqn:Hs; [reflexivity|reflexivity|lia]. }
  assert (0 <= m') as Hpos by (rewrite Hm'; apply Z.shiftl_nonneg; lia).
  pose proof (Z.div_eucl_eq m' (Zpos b) ltac:(lia)) as Heq.
  pose proof (Z.mod_pos_bound m' (Zpos b) ltac:(lia)) as Hr.
  assert (Z.div_eucl m' (Zpos b) = (m' / Zpos b, m' mod Zpos b)) as Hdm.
  { unfold Z.div, Z.modulo. destruct (Z.div_eucl m' (Zpos b)); reflexivity. }
  rewrite Hdm in *. cbn [fst snd].
  assert (0 <= m' / Zpos b) as Hq by (apply Z.div_pos; lia).
  assert (m' / Zpos b <= m') as Hle.
  { apply Z.div_le_upper_bound; [lia|]. nia. }
  split; [exact Hq|]. split; [reflexivity|]. split.
  - pose proof (Zdigits2_mono (m' / Zpos b) m' ltac:(lia)) as H1.
    pose proof (Zdigits2_shiftl (Zpos a) (- e) ltac:(lia) ltac:(lia)) as H2.
    rewrite <- Hm' in H2. lia.
  - intros H0. rewrite Hm', H0. reflexivity.
Qed.

Lemma SFdiv_core_binary_big (a b : positive) :
  2 ^ 1024 * Zpos b <= Zpos a ->
  let out := SFdiv_core_binary prec emax (Zpos a) 0 (Zpos b) 0 in
  out.1.2 = 0 /\ 0 < out.1.1 /\ 1025 <= Zdigits2 out.1.1.
Proof.
  intros Ha out. subst out.
  destruct (SFdiv_core_binary_int a b) as (Hq & He & _ & Hq0).
  pose proof (digits2_pos_bounds b) as [Hlo _].
  set (db := Zpos (digits2_pos b)) in *.
  assert (0 < db) as Hdb by (subst db; lia).
  set (P := 2 ^ 1024) in *.
  assert (0 < P) as HP by (subst P; apply Z.pow_pos_nonneg; lia).
  assert (2 ^ (1023 + db) = P * 2 ^ (db - 1)) as Hsplit.
  { subst P. rewrite <- Z.pow_add_r by lia. f_equal. lia. }
  assert (2 ^ (1023 + db) <= Zpos a) as Hx.
  { rewrite Hsplit. etransitivity; [|exact Ha].
    apply Z.mul_le_mono_nonneg_l; [lia|exact Hlo]. }
  pose proof (Zdigits2_ge (1023 + db) (Zpos a) ltac:(lia) Hx) as Hda.
  assert (Zdigits2 (Zpos b) = db) as Hb by reflexivity.
  rewrite Hb in He. rewrite fexp_eq in He.
  assert ((SFdiv_core_binary prec emax (Zpos a) 0 (Zpos b) 0).1.2 = 0) as He0 by lia.
  specialize (Hq0 He0).
  assert (P <= Zpos a / Zpos b) as Hquot by (apply Z.div_le_lower_bound; lia).
  split; [exact He0|]. rewrite Hq0. split; [lia|].
  pose proof (Zdigits2_ge 1024 (Zpos a / Zpos b) ltac:(lia) Hquot). lia.
Qed.

Lemma SFdiv_int_finite sa sb (a b : positive) :
  Zpos a < 2 ^ 1023 ->
  forall s',
    SFdiv prec emax (S754_finite sa a 0) (S754_finite sb b 0) <> S754_infinity s'.
Proof.
  intros Ha s'. cbn [SFdiv].
  destruct (SFdiv_core_binary_int a b) as (Hq & He & Hd & _).
  assert (Zdigits2 (Zpos a) <= 1023) as Hda
    by (apply Zdigits2_le; [lia|lia|exact Ha]).
  destruct (SFdiv_core_binary prec emax (Zpos a) 0 (Zpos b) 0) as [[mz ez] lz].
  cbn [fst snd] in *.
  apply binary_round_aux_finite; [exact Hq| |]; lia.
Qed.

Lemma SFdiv_int_infinite sa sb (a b : positive) :
  2 ^ 1024 * Zpos b <= Zpos a ->
  SFdiv prec emax (S754_finite sa a 0) (S754_finite sb b 0)
  = S754_infinity (xorb sa sb).
Proof.
  intros Ha. cbn [SFdiv].
  destruct (SFdiv_core_binary_big a b Ha) as (He & Hq & Hd).
  destruct (SFdiv_core_binary prec emax (Zpos a) 0 (Zpos b) 0) as [[mz ez] lz].
  cbn [fst snd] in *. subst ez.
  apply binary_round_aux_infinite; lia.
Qed.

(** The operands that [int_truediv] hands to the division. *)
Ltac abs_operands :=
  repeat match goal with
         | |- context [Z.to_pos (Z.abs (Z.pos ?p))] =>
             change (Z.to_pos (Z.abs (Z.pos p))) with p
         | |- context [Z.to_pos (Z.abs (Z.neg ?p))] =>
             change (Z.to_pos (Z.abs (Z.neg p))) with p
         end.

(** The quotient of two integers is in the range of a float when the
    dividend is below [2^1023] in absolute value, and beyond it when the
    dividend is at least [2^1024] times the divisor. *)
Lemma int_truediv_in_range a b :
  b <> 0 -> Z.abs a < 2 ^ 1023 -> exists q, int_truediv a b = Ok q.
Proof.
  intros Hb Ha. unfold int_truediv.
  destruct b as [|b|b]; [congruence|..];
    (destruct a as [|a|a]; [eexists; reflexivity|..]);
    abs_operands;
    match goal with
    | |- context [SFdiv prec emax (S754_finite ?sa a 0) (S754_finite ?sb b 0)] =>
        pose proof (SFdiv_int_finite sa sb a b Ha) as Hfin;
        destruct (SFdiv prec emax (S754_finite sa a 0) (S754_finite sb b 0))
          as [s0|s0| |s0 m0 e0];
        try (eexists; reflexivity); destruct (Hfin s0 eq_refl)
    end.
Qed.

Lemma int_truediv_overflow a b :
  b <> 0 -> 2 ^ 1024 * Z.abs b <= Z.abs a -> int_truediv a b = Raise OverflowError.
Proof.
  intros Hb Ha. unfold int_truediv.
  assert (0 < 2 ^ 1024) as Hpow by (apply Z.pow_pos_nonneg; lia).
  destruct b as [|b|b]; [congruence|..];
    (destruct a as [|a|a];
     [cbn [Z.abs] in Ha; set (P := 2 ^ 1024) in *; lia|..]);
    abs_operands;
    match goal with
    | |- context [SFdiv prec emax (S754_finite ?sa a 0) (S754_finite ?sb b 0)] =>
        rewrite (SFdiv_int_infinite sa sb a b Ha); reflexivity
    end.
Qed.

Lemma int_or_nonzero x d : d <> 0 -> int_or x d <> 0.
Proof. destruct x as [[| |]|]; simpl; intros; congruence. Qed.

Lemma int_truediv_raise a b e :
  int_truediv a b = Raise e -> b <> 0 -> e = OverflowError.
Proof.
  unfold int_truediv. intros H Hb.
  destruct b as [|b|b]; [congruence|..];
    destruct a as [|a|a]; try discriminate H;
    match type of H with
    | match ?d with _ => _ end = _ => destruct d; congruence
    end.
Qed.

End FloatFacts.

(** ** The specification catalog *)

Section Catalog.

(** [_update_specs] stores the catalog entry of the selected phase and
    power. *)
Lemma update_specs_lookup (a : App.t) phase power :
  App.selected_phase a = Some phase ->
  App.selected_power a = Some power ->
  App.current_specs (App._update_specs a) = lookup_specs phase power.
Proof.
  intros Hp Hr. unfold App._update_specs, lookup_specs. simpl.
  rewrite Hp, Hr. simpl.
  destruct (String.eqb_spec phase "single") as [->|Hne].
  - rewrite bool_decide_eq_true_2; reflexivity.
  - rewrite bool_decide_eq_false_2; [reflexivity | congruence].
Qed.

Lemma single_phase_outside power :
  power ∉ POWER_RATINGS -> SINGLE_PHASE_SPECS !! power = None.
Proof.
  intros H. unfold SINGLE_PHASE_SPECS.
  rewrite !lookup_insert_ne; [apply lookup_empty | ..];
    intros <-; apply H; unfold POWER_RATINGS; set_solver.
Qed.

Lemma three_phase_outside power :
  power ∉ POWER_RATINGS -> THREE_PHASE_SPECS !! power = None.
Proof.
  intros H. unfold THREE_PHASE_SPECS.
  rewrite !lookup_insert_ne; [apply lookup_empty | ..];
    intros <-; apply H; unfold POWER_RATINGS; set_solver.
Qed.

(** C2: each of the ten pairs of a phase in single, three and a rating
    in 30, 32, 40, 50, 60 has exactly one specification in the catalog;
    a lookup depends on nothing but the selected pair, so repeating it
    gives an equal value; and for a rating outside the five the lookup
    gives no specification ([None], the not-found answer of [dict.get]),
    in particular for single/33 and three/45. *)
Theorem catalog_lookup_exact_on_domain :
  length domain = 10%nat
  /\ Forall (fun pr => exists specs,
               lookup_specs pr.1 pr.2 = Some specs
               /\ forall specs', lookup_specs pr.1 pr.2 = Some specs' -> specs' = specs)
            domain
  /\ (forall (a b : App.t) phase power,
        App.selected_phase a = Some phase -> App.selected_power a = Some power ->
        App.selected_phase b = Some phase -> App.selected_power b = Some power ->
        App.current_specs (App._update_specs a) = lookup_specs phase power
        /\ App.current_specs (App._update_specs b)
           = App.current_specs (App._update_specs a))
  /\ (forall phase power,
        power ∉ POWER_RATINGS -> lookup_specs phase power = None)
  /\ lookup_specs "single" 33 = None
  /\ lookup_specs "three" 45 = None.
Proof.
  split; [reflexivity|].
  split.
  { unfold domain. simpl.
    repeat constructor; simpl;
      (eexists; split; [vm_compute; reflexivity|]);
      intros specs' H; vm_compute in H; congruence. }
  split.
  { intros a b phase power Ha1 Ha2 Hb1 Hb2.
    rewrite (update_specs_lookup a phase power Ha1 Ha2).
    rewrite (update_specs_lookup b phase power Hb1 Hb2). auto. }
  split.
  { intros phase power H. unfold lookup_specs.
    destruct (String.eqb phase "single");
      [apply single_phase_outside | apply three_phase_outside]; exact H. }
  split; vm_compute; reflexivity.
Qed.

Lemma catalog_lookup_outside_witness : lookup_specs "three" 31 = None.
Proof.
  apply (proj1 (proj2 (proj2 (proj2 catalog_lookup_exact_on_domain)))).
  unfold POWER_RATINGS. intros H.
  repeat (apply elem_of_cons in H as [H|H]; [discriminate H|]).
  apply elem_of_nil in H. exact H.
Defined.

(** C3: selecting three phase and 50 kW resolves to the specification
    with voltage 208V/480V, amperage 139A @ 208V / 60A @ 480V, hot wire
    gauge 1/0 AWG Copper (208V) / 4 AWG Copper (480V) and breaker size
    175A (208V) / 80A (480V); the default loads add up to
    15000 + 3000 + 2000 = 20000 W, and with them the load summary at
    50 kW computes the total 20.0 kW, a usage of exactly 40.0, given here
    as binary64 numbers (mantissa times a power of two:
    5629499534213120 * 2^-48 = 20 and 5629499534213120 * 2^-47 = 40), and
    the status SAFE. *)
Theorem three_phase_50kW_scenario :
  let a := App._select_power 50 (App._select_phase "three" (App.init ∅)) in
  lookup_specs "three" 50 = App.current_specs a
  /\ voltage <$> App.current_specs a = Some "208V/480V"
  /\ amperage <$> App.current_specs a = Some "139A @ 208V / 60A @ 480V"
  /\ wire_gauge <$> App.current_specs a
     = Some "1/0 AWG Copper (208V) / 4 AWG Copper (480V)"
  /\ breaker_size <$> App.current_specs a = Some "175A (208V) / 80A (480V)"
  /\ App.loads a = DEFAULT_LOADS
  /\ App.total_watts (App.loads a) = 15000 + 3000 + 2000
  /\ App.total_watts (App.loads a) = 20000
  /\ App.load_summary a
     = Py.Ok (App.mk_summary
                (S754_finite false 5629499534213120 (-48))
                50
                (S754_finite false 5629499534213120 (-47))
                "SAFE")
  /\ 5629499534213120 = 20 * 2 ^ 48
  /\ 5629499534213120 = 40 * 2 ^ 47.
Proof.
  repeat split; vm_compute; reflexivity.
Qed.

End Catalog.

(** ** The usage classification of the load tab *)

Section LoadTab.

Import Py.

Lemma classify_cases u :
  App.classify u =
    if float_gt_int u 100 then "OVERLOADED"
    else if float_gt_int u 80 then "HIGH LOAD" else "SAFE".
Proof. reflexivity. Qed.

(** The usage of a summary is the quotient of the total by the capacity
    in watts, times 100, and it is a number. *)
Lemma load_summary_usage (a : App.t) s :
  App.load_summary a = Ok s ->
  App.capacity s = int_or (App.selected_power a) 30
  /\ App.status s = App.classify (App.usage s)
  /\ exists q, int_truediv (App.total_watts (App.loads a)) (App.capacity s * 1000) = Ok q
       /\ App.usage s = float_mul_int q 100.
Proof.
  unfold App.load_summary. cbv zeta.
  destruct (int_truediv (App.total_watts (App.loads a)) 1000) as [kw|e];
    simpl; [|discriminate].
  destruct (int_truediv _ (int_or (App.selected_power a) 30 * 1000)) as [q|e] eqn:Hq;
    simpl; [|discriminate].
  intros H. injection H as <-. simpl. eauto.
Qed.

Lemma load_summary_at (a : App.t) total cap :
  App.total_watts (App.loads a) = total ->
  int_or (App.selected_power a) 30 = cap ->
  App.load_summary a =
    (kw ← int_truediv total 1000;
     q ← int_truediv total (cap * 1000);
     mret (App.mk_summary kw cap (float_mul_int q 100)
             (App.classify (float_mul_int q 100)))).
Proof. intros <- <-. reflexivity. Qed.

(** C1: the status of the load summary follows the bands of the usage
    figure [total / (capacity * 1000) * 100]: SAFE when it is at most
    80, HIGH LOAD when it is above 80 and at most 100, OVERLOADED when
    it is above 100.  At a capacity of 30 kW a total of 24000 W gives a
    usage of exactly 80 and SAFE, 24001 W gives HIGH LOAD, 30000 W gives
    a usage of exactly 100 and HIGH LOAD, and 30001 W gives
    OVERLOADED. *)
Theorem usage_classification_bands (a : App.t) :
  (forall s, App.load_summary a = Ok s ->
     (exists q, int_truediv (App.total_watts (App.loads a)) (App.capacity s * 1000) = Ok q
                /\ App.usage s = float_mul_int q 100)
     /\ (App.status s = "SAFE" <-> float_le_int (App.usage s) 80 = true)
     /\ (App.status s = "HIGH LOAD" <->
           float_gt_int (App.usage s) 80 = true
           /\ float_le_int (App.usage s) 100 = true)
     /\ (App.status s = "OVERLOADED" <-> float_gt_int (App.usage s) 100 = true))
  /\ (int_or (App.selected_power a) 30 = 30 ->
       (App.total_watts (App.loads a) = 24000 ->
          exists s, App.load_summary a = Ok s
            /\ App.usage s = float_of_int 80 /\ App.status s = "SAFE")
       /\ (App.total_watts (App.loads a) = 24001 ->
          exists s, App.load_summary a = Ok s
            /\ float_gt_int (App.usage s) 80 = true
            /\ float_le_int (App.usage s) 100 = true
            /\ App.status s = "HIGH LOAD")
       /\ (App.total_watts (App.loads a) = 30000 ->
          exists s, App.load_summary a = Ok s
            /\ App.usage s = float_of_int 100 /\ App.status s = "HIGH LOAD")
       /\ (App.total_watts (App.loads a) = 30001 ->
          exists s, App.load_summary a = Ok s
            /\ float_gt_int (App.usage s) 100 = true
            /\ App.status s = "OVERLOADED")).
Proof.
  split.
  - intros s Hs.
    destruct (load_summary_usage a s Hs) as (Hcap & Hst & q & Hq & Hu).
    split; [eauto|].
    destruct (int_truediv_number _ _ _ Hq) as [Hn Hi].
    pose proof (float_mul_int_100_number q Hn Hi) as Hnum.
    rewrite <- Hu in Hnum.
    assert (float_gt_int (App.usage s) 100 = negb (float_le_int (App.usage s) 100)) as G100.
    { apply SFltb_negb_SFleb; [exact Hnum | rewrite float_of_int_100; reflexivity]. }
    assert (float_gt_int (App.usage s) 80 = negb (float_le_int (App.usage s) 80)) as G80.
    { apply SFltb_negb_SFleb; [exact Hnum | rewrite float_of_int_80; reflexivity]. }
    pose proof (le_80_le_100 (App.usage s)) as Hmono.
    rewrite Hst, classify_cases, G100, G80.
    destruct (float_le_int (App.usage s) 80), (float_le_int (App.usage s) 100);
      simpl; try (specialize (Hmono eq_refl); discriminate Hmono);
      repeat split; intros; try discriminate; try reflexivity;
      try (destruct_and?; discriminate).
  - intros Hcap. repeat split; intros Htot;
      rewrite (load_summary_at a _ _ Htot Hcap);
      eexists; (split; [vm_compute; reflexivity|]);
      repeat split; vm_compute; reflexivity.
Qed.

Lemma usage_classification_bands_witness :
  exists s, App.load_summary (App.submit "Spare" "4000" "1" (App.init ∅)) = Ok s
    /\ App.usage s = float_of_int 80 /\ App.status s = "SAFE".
Proof.
  apply (proj1 (proj2 (usage_classification_bands
                         (App.submit "Spare" "4000" "1" (App.init ∅))) eq_refl)).
  vm_compute. reflexivity.
Defined.

End LoadTab.

(** ** Facts about the text operations *)

Section TextFacts.

Import Py.

Lemma all_filter p s : all p (filter p s) = true.
Proof.
  induction s as [|c r IH]; simpl; [reflexivity|].
  destruct (p c) eqn:Hc; simpl; [rewrite Hc|]; exact IH.
Qed.

Lemma all_lstrip ws p s : all p s = true -> all p (lstrip ws s) = true.
Proof.
  induction s as [|c r IH]; simpl; [auto|].
  destruct (ws c); [|auto].
  intros H. apply andb_prop in H as [_ H]. auto.
Qed.

Lemma all_rstrip ws p s : all p s = true -> all p (rstrip ws s) = true.
Proof.
  induction s as [|c r IH]; simpl; [auto|].
  intros H. apply andb_prop in H as [Hc H]. specialize (IH H).
  destruct (rstrip ws r) as [|d r'].
  - destruct (ws c); simpl; [reflexivity|]. rewrite Hc. reflexivity.
  - simpl in *. rewrite Hc. exact IH.
Qed.

Lemma all_take n p : forall s, all p s = true -> all p (take n s) = true.
Proof.
  induction n as [|n IH]; intros [|c r]; simpl; auto.
  intros H. apply andb_prop in H as [-> H]. simpl. auto.
Qed.

Lemma all_map p q f s :
  (forall c, p c = true -> q (f c) = true) ->
  all p s = true -> all q (map f s) = true.
Proof.
  intros Hf. induction s as [|c r IH]; simpl; [auto|].
  intros H. apply andb_prop in H as [Hc H].
  rewrite (Hf c Hc). simpl. auto.
Qed.

Lemma length_take n : forall s,
  String.length (take n s) = Nat.min n (String.length s).
Proof.
  induction n as [|n IH]; intros [|c r]; simpl; auto.
Qed.

Lemma length_map f s : String.length (map f s) = String.length s.
Proof. induction s as [|c r IH]; simpl; auto. Qed.

Lemma filter_id p s : all p s = true -> filter p s = s.
Proof.
  induction s as [|c r IH]; simpl; [auto|].
  intros H. apply andb_prop in H as [-> H]. f_equal. auto.
Qed.

Lemma take_id n : forall s, (String.length s <= n)%nat -> take n s = s.
Proof.
  induction n as [|n IH]; intros [|c r]; simpl; auto; try lia.
  intros H. f_equal. apply IH. lia.
Qed.

Lemma map_id f p s :
  (forall c, p c = true -> f c = c) -> all p s = true -> map f s = s.
Proof.
  intros Hf. induction s as [|c r IH]; simpl; [auto|].
  intros H. apply andb_prop in H as [Hc H]. rewrite (Hf c Hc). f_equal. auto.
Qed.

Lemma lstrip_id ws s :
  all (fun c => negb (ws c)) s = true -> lstrip ws s = s.
Proof.
  destruct s as [|c r]; simpl; [auto|].
  destruct (ws c); [discriminate|reflexivity].
Qed.

Lemma rstrip_id ws s :
  all (fun c => negb (ws c)) s = true -> rstrip ws s = s.
Proof.
  induction s as [|c r IH]; simpl; [auto|].
  intros H. apply andb_prop in H as [Hc H]. rewrite (IH H).
  destruct r; [|reflexivity]. destruct (ws c); [discriminate|reflexivity].
Qed.

Lemma all_impl (p q : ascii -> bool) s :
  (forall c, p c = true -> q c = true) -> all p s = true -> all q s = true.
Proof.
  intros Hpq. induction s as [|c r IH]; simpl; [auto|].
  intros H. apply andb_prop in H as [Hc H]. rewrite (Hpq c Hc). simpl. auto.
Qed.

Lemma digits_string_of_uint d : forall acc,
  digits (NilEmpty.string_of_uint d) acc true = Some (uint_fold d acc).
Proof.
  induction d as [|d IH|d IH|d IH|d IH|d IH|d IH|d IH|d IH|d IH|d IH];
    intros acc; [reflexivity|..];
    cbn [NilEmpty.string_of_uint digits uint_fold];
    match goal with
    | |- (if is_decimal ?c then _ else _) = _ =>
        change (is_decimal c) with true; cbv iota
    end;
    match goal with
    | |- digits _ (_ + digit_value ?c) _ = _ =>
        let v := eval vm_compute in (digit_value c) in
        change (digit_value c) with v
    end;
    apply IH.
Qed.

Lemma uint_fold_acc d : forall acc : positive,
  uint_fold d (Zpos acc) = Zpos (Pos.of_uint_acc d acc).
Proof.
  induction d as [|d IH|d IH|d IH|d IH|d IH|d IH|d IH|d IH|d IH|d IH];
    intros acc; [reflexivity|..];
    cbn [uint_fold Pos.of_uint_acc]; rewrite <- IH; f_equal; lia.
Qed.

Lemma uint_fold_0 d : uint_fold d 0 = Z.of_N (Pos.of_uint d).
Proof.
  induction d as [|d IH|d IH|d IH|d IH|d IH|d IH|d IH|d IH|d IH|d IH];
    [reflexivity|exact IH|..];
    cbn [uint_fold Pos.of_uint];
    match goal with
    | |- uint_fold _ (10 * 0 + ?k) = _ =>
        change (10 * 0 + k) with k
    end;
    apply uint_fold_acc.
Qed.

Lemma digits_start d :
  d <> Decimal.Nil ->
  digits (NilEmpty.string_of_uint d) 0 false
  = digits (NilEmpty.string_of_uint d) 0 true.
Proof. destruct d; [congruence|..]; reflexivity. Qed.

Lemma all_decimal_string_of_uint d :
  all is_decimal (NilEmpty.string_of_uint d) = true.
Proof. induction d; simpl; auto. Qed.

Lemma decimal_not_int_space c :
  is_decimal c = true -> negb (int_space c) = true.
Proof. destruct c as [[] [] [] [] [] [] [] []]; vm_compute; auto. Qed.

Lemma not_int_space_string_of_uint d :
  all (fun c => negb (int_space c)) (NilEmpty.string_of_uint d) = true.
Proof.
  exact (all_impl _ _ _ decimal_not_int_space (all_decimal_string_of_uint d)).
Qed.

Lemma digit_count_decimal s :
  all is_decimal s = true -> digit_count s = String.length s.
Proof. intros H. unfold digit_count. rewrite (filter_id _ _ H). reflexivity. Qed.

(** The text of a positive number reads back as that number, unless it
    has more digits than the limit. *)
Lemma int_of_pos_text (p : positive) :
  let s := NilEmpty.string_of_uint (Pos.to_uint p) in
  rstrip int_space (lstrip int_space s) = s
  /\ digits s 0 false = Some (Zpos p)
  /\ int s = (if Z.of_nat (digit_count s) <=? max_str_digits
              then Ok (Zpos p) else Raise ValueError).
Proof.
  intros s.
  pose proof (DecimalPos.Unsigned.to_uint_nonnil p) as Hnil.
  pose proof (not_int_space_string_of_uint (Pos.to_uint p)) as Hsp.
  fold s in Hsp.
  assert (rstrip int_space (lstrip int_space s) = s) as Hstrip.
  { rewrite (lstrip_id _ _ Hsp). apply rstrip_id, Hsp. }
  assert (digits s 0 false = Some (Zpos p)) as Hd.
  { subst s. rewrite (digits_start _ Hnil), digits_string_of_uint, uint_fold_0.
    rewrite DecimalPos.Unsigned.of_to. reflexivity. }
  split; [exact Hstrip|]. split; [exact Hd|].
  unfold int. rewrite Hstrip.
  assert (exists c r, s = String c r /\ is_decimal c = true) as (c & r & Hs & Hc).
  { subst s. destruct (Pos.to_uint p); [congruence|..];
      eexists _, _; split; reflexivity. }
  rewrite Hs in *.
  destruct c as [[] [] [] [] [] [] [] []]; try discriminate Hc;
    rewrite Hd, Z.mul_1_l; reflexivity.
Qed.

(** [int(str(z))]: the decimal text of an integer, negative or not, is
    read back as that integer when it has at most 4300 digits, and is
    refused otherwise. *)
Lemma int_str_of_int (z : Z) :
  int (str_of_int z)
  = if Z.of_nat (digit_count (str_of_int z)) <=? max_str_digits
    then Ok z else Raise ValueError.
Proof.
  destruct z as [|p|p].
  - vm_compute. reflexivity.
  - unfold str_of_int. cbn [Z.to_int NilZero.string_of_int].
    pose proof (DecimalPos.Unsigned.to_uint_nonnil p) as Hnil.
    unfold NilZero.string_of_uint.
    destruct (int_of_pos_text p) as (_ & _ & H).
    destruct (Pos.to_uint p); [congruence|..]; exact H.
  - unfold str_of_int. cbn [Z.to_int NilZero.string_of_int].
    pose proof (DecimalPos.Unsigned.to_uint_nonnil p) as Hnil.
    destruct (int_of_pos_text p) as (Hstrip & Hd & _).
    assert (NilZero.string_of_uint (Pos.to_uint p)
            = NilEmpty.string_of_uint (Pos.to_uint p)) as ->.
    { unfold NilZero.string_of_uint. destruct (Pos.to_uint p); [congruence|..];
        reflexivity. }
    set (s := NilEmpty.string_of_uint (Pos.to_uint p)) in *.
    unfold int.
    assert (lstrip int_space (String "-" s) = String "-" s) as -> by reflexivity.
    assert (rstrip int_space (String "-" s) = String "-" s) as ->.
    { apply rstrip_id. simpl. apply not_int_space_string_of_uint. }
    rewrite Hd.
    change (digit_count (String "-" s)) with (digit_count s).
    reflexivity.
Qed.

(** The text of an integer is never empty. *)
Lemma str_of_int_nonempty z : str_of_int z <> "".
Proof.
  intros H. pose proof (int_str_of_int z) as Hz. rewrite H in Hz.
  vm_compute in Hz. discriminate Hz.
Qed.

(** A one followed by zeros: the text of a power of ten. *)
Lemma zeros_decimal n : all is_decimal (zeros n) = true.
Proof.
  unfold zeros. induction (Z.to_nat n) as [|k IH]; [reflexivity|].
  cbn [repeat string_of_list_ascii all]. rewrite IH. reflexivity.
Qed.

Lemma zeros_length n : 0 <= n -> Z.of_nat (String.length (zeros n)) = n.
Proof.
  intros Hn. unfold zeros.
  assert (forall k, String.length (string_of_list_ascii (repeat "0"%char k)) = k)
    as Hlen.
  { induction k as [|k IH]; [reflexivity|].
    cbn [repeat string_of_list_ascii String.length]. rewrite IH. reflexivity. }
  rewrite Hlen. lia.
Qed.

Lemma digits_zeros n : 0 <= n -> forall acc,
  digits (zeros n) acc true = Some (acc * 10 ^ n).
Proof.
  intros Hn.
  assert (forall k acc,
            digits (string_of_list_ascii (repeat "0"%char k)) acc true
            = Some (acc * 10 ^ Z.of_nat k)) as Hk.
  { induction k as [|k IH]; intros acc.
    - cbn [repeat string_of_list_ascii digits]. f_equal. simpl. lia.
    - cbn [repeat string_of_list_ascii digits].
      change (is_decimal "0") with true. cbv iota.
      change (digit_value "0") with 0.
      rewrite IH, Nat2Z.inj_succ, Z.pow_succ_r by lia. f_equal. lia. }
  intros acc. unfold zeros. rewrite Hk, (Z2Nat.id n Hn). reflexivity.
Qed.

Lemma int_one_zeros n :
  0 <= n ->
  int (String "1" (zeros n))
  = if n + 1 <=? max_str_digits then Ok (10 ^ n) else Raise ValueError.
Proof.
  intros Hn. set (s := String "1"%char (zeros n)).
  assert (all is_decimal s = true) as Hdec
    by (subst s; cbn [all]; rewrite zeros_decimal; reflexivity).
  pose proof (all_impl _ _ _ decimal_not_int_space Hdec) as Hsp.
  unfold int. rewrite (lstrip_id _ _ Hsp), (rstrip_id _ _ Hsp).
  subst s. cbv beta iota zeta.
  cbn [digits]. change (is_decimal "1") with true. cbv iota.
  change (10 * 0 + digit_value "1") with 1.
  rewrite (digits_zeros n Hn), (digit_count_decimal _ Hdec).
  cbn [String.length]. rewrite Nat2Z.inj_succ, (zeros_length n Hn).
  replace (Z.succ n) with (n + 1) by lia.
  rewrite !Z.mul_1_l. reflexivity.
Qed.

(** [int] raises nothing but [ValueError]. *)
Lemma int_raises_ValueError s e : int s = Raise e -> e = ValueError.
Proof.
  unfold int.
  destruct (rstrip int_space (lstrip int_space s)) as [|c r].
  - simpl. congruence.
  - destruct c as [[] [] [] [] [] [] [] []];
      match goal with
      | |- context [digits ?x 0 false] => destruct (digits x 0 false)
      end;
      try match goal with
      | |- context [Z.of_nat ?n <=? max_str_digits] =>
          destruct (Z.of_nat n <=? max_str_digits)
      end; congruence.
Qed.

End TextFacts.

(** ** The load ledger *)

Section Ledger.

Import App.

Lemma total_watts_app l1 l2 :
  total_watts (l1 ++ l2) = total_watts l1 + total_watts l2.
Proof.
  induction l1 as [|x l1 IH]; simpl; [reflexivity|].
  unfold total_watts in *. simpl. rewrite IH. lia.
Qed.

Lemma remove_load_loads i a :
  loads (_remove_load i a) = List.filter (keep_other i) (loads a).
Proof. reflexivity. Qed.

Lemma remove_load_counter i a : load_id (_remove_load i a) = load_id a.
Proof. reflexivity. Qed.

Lemma keep_other_spec i l :
  (keep_other i l = true /\ Load.id l <> i)
  \/ (keep_other i l = false /\ Load.id l = i).
Proof.
  unfold keep_other. destruct (Z.eqb_spec (Load.id l) i); simpl; auto.
Qed.

Lemma ids_cons l ls : ids (l :: ls) = Load.id l :: ids ls.
Proof. reflexivity. Qed.

(** Removing an id that no entry carries keeps the list. *)
Lemma filter_absent i ls :
  i ∉ ids ls -> List.filter (keep_other i) ls = ls.
Proof.
  induction ls as [|l ls IH]; intros H; [reflexivity|].
  rewrite ids_cons, not_elem_of_cons in H. destruct H as [Hne H].
  cbn [List.filter].
  destruct (keep_other_spec i l) as [[-> _]|[_ Heq]]; [|congruence].
  f_equal. apply IH, H.
Qed.

Lemma filter_ids_sub i ls x :
  x ∈ ids (List.filter (keep_other i) ls) -> x ∈ ids ls.
Proof.
  induction ls as [|l ls IH]; [auto|].
  cbn [List.filter]. rewrite ids_cons, elem_of_cons.
  destruct (keep_other i l); [|auto].
  rewrite ids_cons, elem_of_cons. intros [?|?]; auto.
Qed.

Lemma filter_ids_gone i ls : i ∉ ids (List.filter (keep_other i) ls).
Proof.
  induction ls as [|l ls IH]; [apply not_elem_of_nil|].
  cbn [List.filter].
  destruct (keep_other_spec i l) as [[-> Hne]|[-> _]]; [|exact IH].
  rewrite ids_cons, not_elem_of_cons. auto.
Qed.

Lemma filter_ids_NoDup i ls :
  NoDup (ids ls) -> NoDup (ids (List.filter (keep_other i) ls)).
Proof.
  induction ls as [|l ls IH]; [auto|].
  rewrite ids_cons, NoDup_cons. intros [Hl Hnd].
  cbn [List.filter]. destruct (keep_other i l); [|auto].
  rewrite ids_cons, NoDup_cons. split; [|auto].
  intros Hin. apply Hl. exact (filter_ids_sub i ls _ Hin).
Qed.

(** The outcome of [submit]: either the entry is built and appended and
    the counter moves on, or nothing changes. *)
Lemma submit_ok n w q a l :
  new_load n w q a = Py.Ok l ->
  submit n w q a
  = _switch_tab "load" (set_load_id (load_id a + 1) (set_loads (loads a ++ [l]) a)).
Proof. unfold submit. intros ->. reflexivity. Qed.

Lemma submit_raise n w q a e :
  new_load n w q a = Py.Raise e -> submit n w q a = a.
Proof. unfold submit. intros ->. reflexivity. Qed.

Lemma new_load_id n w q a l : new_load n w q a = Py.Ok l -> Load.id l = load_id a.
Proof.
  unfold new_load.
  destruct (int_or_default w 0) as [wv|]; simpl; [|discriminate].
  destruct (int_or_default q 1) as [qv|]; simpl; [|discriminate].
  intros H. injection H as <-. reflexivity.
Qed.

Lemma ledger_ok_init tbl : ledger_ok (init tbl).
Proof.
  split; [|split]; simpl; [| |lia].
  - repeat (apply NoDup_cons; split;
            [rewrite ?elem_of_cons, elem_of_nil; lia|]).
    apply NoDup_nil. exact I.
  - repeat constructor; simpl; lia.
Qed.

Lemma ledger_ok_submit n w q a : ledger_ok a -> ledger_ok (submit n w q a).
Proof.
  intros (Hnd & Hlt & Hc). unfold submit.
  destruct (new_load n w q a) as [l|e] eqn:Hl; [|repeat split; assumption].
  pose proof (new_load_id _ _ _ _ _ Hl) as Hid.
  split; [|split]; simpl; [| |lia]; unfold ids; rewrite map_app; simpl.
  - apply NoDup_app. split; [exact Hnd|]. split.
    + intros x Hx Hx'. apply list_elem_of_singleton in Hx'. subst x.
      rewrite Forall_forall in Hlt. specialize (Hlt _ Hx). lia.
    + apply NoDup_singleton.
  - apply Forall_app. split.
    + eapply Forall_impl; [exact Hlt|]. simpl. intros; lia.
    + constructor; [|constructor]. lia.
Qed.

Lemma ledger_ok_remove i a : ledger_ok a -> ledger_ok (_remove_load i a).
Proof.
  intros (Hnd & Hlt & Hc). split; [|split]; rewrite ?remove_load_loads.
  - apply filter_ids_NoDup, Hnd.
  - rewrite remove_load_counter. rewrite Forall_forall in *.
    intros x Hx. apply Hlt. exact (filter_ids_sub i _ _ Hx).
  - exact Hc.
Qed.

(** Every other command leaves the ledger alone. *)
Lemma ledger_ok_same a b :
  loads b = loads a -> load_id b = load_id a -> ledger_ok a -> ledger_ok b.
Proof. unfold ledger_ok. intros -> ->. auto. Qed.

Lemma select_phase_ledger p a :
  loads (_select_phase p a) = loads a /\ load_id (_select_phase p a) = load_id a.
Proof.
  unfold _select_phase. destruct (Py.truthy_int _); split; reflexivity.
Qed.

Lemma select_power_ledger p a :
  loads (_select_power p a) = loads a /\ load_id (_select_power p a) = load_id a.
Proof.
  unfold _select_power. destruct (Py.truthy_str _); split; reflexivity.
Qed.

Lemma save_report_ledger w a :
  loads (_save_report w a) = loads a /\ load_id (_save_report w a) = load_id a.
Proof.
  unfold _save_report. destruct (current_specs a); [|split; reflexivity].
  destruct (pdf_generate w _ _); simpl; [|split; reflexivity].
  destruct (open_pdf_error w); split; reflexivity.
Qed.

Lemma ledger_ok_step a act : ledger_ok a -> ledger_ok (step a act).
Proof.
  intros H. destruct act; simpl.
  - eapply ledger_ok_same; [apply select_phase_ledger..|exact H].
  - eapply ledger_ok_same; [apply select_power_ledger..|exact H].
  - exact H.
  - exact H.
  - apply ledger_ok_submit, H.
  - apply ledger_ok_remove, H.
  - exact H.
  - exact H.
  - eapply ledger_ok_same; [apply save_report_ledger..|exact H].
  - apply ledger_ok_init.
Qed.

Lemma ledger_ok_run acts : forall a, ledger_ok a -> ledger_ok (run acts a).
Proof.
  induction acts as [|act acts IH]; intros a H; simpl; [exact H|].
  apply IH, ledger_ok_step, H.
Qed.

(** *** Drawing the load tab *)

Lemma str_within_limit_spec n :
  Py.str_within_limit n = true <-> Z.abs n < 10 ^ 4300.
Proof. unfold Py.str_within_limit, Py.max_str_digits. apply Z.ltb_lt. Qed.

Lemma format_int_ok f n :
  Z.abs n < 10 ^ 4300 -> LoadTab.format_int f n = Py.Ok (f n).
Proof.
  intros H. apply str_within_limit_spec in H.
  unfold LoadTab.format_int. rewrite H. reflexivity.
Qed.

Lemma format_int_raise f n e :
  LoadTab.format_int f n = Py.Raise e -> e = Py.ValueError.
Proof.
  unfold LoadTab.format_int. destruct (Py.str_within_limit n); congruence.
Qed.

Lemma draw_rows_ok ls :
  Forall (fun l => Z.abs (Load.watts l * Load.quantity l) < 10 ^ 4300) ls ->
  exists rows, LoadTab.draw_rows ls = Py.Ok rows.
Proof.
  induction 1 as [|l ls Hl _ [rows IH]]; [eexists; reflexivity|].
  cbn [LoadTab.draw_rows]. rewrite (format_int_ok _ _ Hl), IH.
  eexists. reflexivity.
Qed.

Lemma draw_rows_raise ls e :
  LoadTab.draw_rows ls = Py.Raise e -> e = Py.ValueError.
Proof.
  induction ls as [|l ls IH]; cbn [LoadTab.draw_rows]; [discriminate|].
  destruct (LoadTab.format_int _ _) as [text|e1] eqn:Ht;
    cbn [mbind Py.result_bind Py.bind].
  - destruct (LoadTab.draw_rows ls) as [more|e2];
      cbn [mbind Py.result_bind Py.bind mret Py.result_ret]; [discriminate|].
    intros [= <-]. apply IH. reflexivity.
  - intros [= <-]. exact (format_int_raise _ _ _ Ht).
Qed.

Lemma capacity_times_1000 a : Py.int_or (selected_power a) 30 * 1000 <> 0.
Proof. pose proof (int_or_nonzero (selected_power a) 30 ltac:(lia)). lia. Qed.

Lemma load_summary_ok a :
  Z.abs (total_watts (loads a)) < 2 ^ 1023 ->
  exists s, load_summary a = Py.Ok s
            /\ capacity s = Py.int_or (selected_power a) 30.
Proof.
  intros H. unfold load_summary. cbv zeta.
  destruct (int_truediv_in_range (total_watts (loads a)) 1000 ltac:(lia) H)
    as [kw ->].
  destruct (int_truediv_in_range (total_watts (loads a)) _
              (capacity_times_1000 a) H) as [q ->].
  eexists. split; reflexivity.
Qed.

Lemma load_summary_overflow a :
  2 ^ 1024 * 1000 <= Z.abs (total_watts (loads a)) ->
  load_summary a = Py.Raise Py.OverflowError.
Proof.
  intros H. unfold load_summary. cbv zeta.
  rewrite (int_truediv_overflow (total_watts (loads a)) 1000 ltac:(lia) H).
  reflexivity.
Qed.

Lemma load_summary_raise a e :
  load_summary a = Py.Raise e -> e = Py.OverflowError.
Proof.
  unfold load_summary. cbv zeta.
  destruct (Py.int_truediv (total_watts (loads a)) 1000) as [kw|e1] eqn:H1;
    cbn [mbind Py.result_bind Py.bind].
  - destruct (Py.int_truediv _ (Py.int_or (selected_power a) 30 * 1000))
      as [q|e2] eqn:H2; cbn [mbind Py.result_bind Py.bind mret Py.result_ret];
      [discriminate|].
    intros [= <-]. exact (int_truediv_raise _ _ _ H2 (capacity_times_1000 a)).
  - intros [= <-]. apply (int_truediv_raise _ _ _ H1). lia.
Qed.

(** The tab depends on the ledger and on the selected rating only. *)
Lemma build_load_tab_same a b :
  loads b = loads a -> selected_power b = selected_power a ->
  LoadTab._build_load_tab b = LoadTab._build_load_tab a.
Proof.
  intros Hl Hp. unfold LoadTab._build_load_tab, load_summary.
  rewrite Hl, Hp. reflexivity.
Qed.

Lemma build_load_tab_ok a :
  drawable a -> exists view, LoadTab._build_load_tab a = Py.Ok view.
Proof.
  intros (Hrows & Htotal & Hcap). unfold LoadTab._build_load_tab.
  destruct (draw_rows_ok _ Hrows) as [rows ->].
  destruct (load_summary_ok a Htotal) as (s & -> & Hs).
  cbn [mbind Py.result_bind Py.bind].
  rewrite format_int_ok by (rewrite Hs; exact Hcap).
  eexists. reflexivity.
Qed.

Lemma build_load_tab_raise a e :
  LoadTab._build_load_tab a = Py.Raise e ->
  e = Py.OverflowError \/ e = Py.ValueError.
Proof.
  unfold LoadTab._build_load_tab.
  destruct (LoadTab.draw_rows (loads a)) as [rows|e1] eqn:Hr;
    cbn [mbind Py.result_bind Py.bind];
    [|intros [= <-]; right; exact (draw_rows_raise _ _ Hr)].
  destruct (load_summary a) as [s|e2] eqn:Hs;
    cbn [mbind Py.result_bind Py.bind];
    [|intros [= <-]; left; exact (load_summary_raise _ _ Hs)].
  destruct (LoadTab.format_int Py.str_of_int (capacity s)) as [text|e3] eqn:Hc;
    cbn [mbind Py.result_bind Py.bind mret Py.result_ret]; [discriminate|].
  intros [= <-]. right. exact (format_int_raise _ _ _ Hc).
Qed.

Lemma build_load_tab_overflow a :
  rows_drawable a ->
  2 ^ 1024 * 1000 <= Z.abs (total_watts (loads a)) ->
  LoadTab._build_load_tab a = Py.Raise Py.OverflowError.
Proof.
  intros Hrows Htotal. unfold LoadTab._build_load_tab.
  destruct (draw_rows_ok _ Hrows) as [rows ->].
  rewrite (load_summary_overflow a Htotal). reflexivity.
Qed.

Lemma set_loads_same a : set_loads (loads a) a = a.
Proof. destruct a. reflexivity. Qed.

(** A number below a smaller power of ten is within the limit. *)
Lemma within_limit_by k n :
  0 <= k <= 4300 -> Z.abs n < 10 ^ k -> Z.abs n < 10 ^ 4300.
Proof.
  intros Hk Hn. eapply Z.lt_le_trans; [exact Hn|].
  apply Z.pow_le_mono_r; lia.
Qed.

(** C6, amended: in every ledger the program can reach, adding the load
    Test with 1000 W and quantity 2 appends it and raises the aggregate
    by exactly 2000; removing that load by its id then gives back the
    list and the aggregate from before; removing an id that no load
    carries changes neither the list nor the counter nor the aggregate,
    it only leaves the load tab open; and removing the same id a second
    time changes nothing more.  The call ends by drawing the load tab
    again, as it is drawn for the ledger from before: this raises
    nothing when every row total and the capacity have at most 4300
    digits and the aggregate is below 2^1023 in absolute value; it can
    raise nothing but [OverflowError] and [ValueError]; and it does raise
    [OverflowError], after the list has been replaced, when the rows can
    be written and the aggregate is at least 1000 * 2^1024 in absolute
    value. *)
Theorem add_then_remove_restores (acts : list action) (tbl : Db.table) :
  let a := run acts (init tbl) in
  let a1 := submit "Test" "1000" "2" a in
  loads a1 = (loads a ++ [Load.mk (load_id a) "Test" 1000 2])%list
  /\ total_watts (loads a1) = total_watts (loads a) + 2000
  /\ loads (_remove_load (load_id a) a1) = loads a
  /\ total_watts (loads (_remove_load (load_id a) a1)) = total_watts (loads a)
  /\ (forall i, i ∉ ids (loads a) ->
        let out := LoadTab._remove_load i a in
        out.1 = _switch_tab "load" a
        /\ loads out.1 = loads a
        /\ load_id out.1 = load_id a
        /\ total_watts (loads out.1) = total_watts (loads a)
        /\ out.2 = LoadTab._build_load_tab a
        /\ (drawable a -> exists view, out.2 = Py.Ok view)
        /\ (forall e, out.2 = Py.Raise e ->
              e = Py.OverflowError \/ e = Py.ValueError)
        /\ (rows_drawable a ->
            2 ^ 1024 * 1000 <= Z.abs (total_watts (loads a)) ->
            out.2 = Py.Raise Py.OverflowError))
  /\ (forall i, _remove_load i (_remove_load i a) = _remove_load i a).
Proof.
  intros a a1.
  assert (ledger_ok a) as (Hnd & Hlt & Hc)
    by apply ledger_ok_run, ledger_ok_init.
  assert (loads a1 = (loads a ++ [Load.mk (load_id a) "Test" 1000 2])%list) as E1
    by reflexivity.
  assert (load_id a ∉ ids (loads a)) as Hfresh.
  { intros Hin. rewrite Forall_forall in Hlt. specialize (Hlt _ Hin). lia. }
  assert (loads (_remove_load (load_id a) a1) = loads a) as E2.
  { rewrite remove_load_loads, E1, List.filter_app.
    rewrite (filter_absent _ _ Hfresh). cbn [List.filter].
    destruct (keep_other_spec (load_id a) (Load.mk (load_id a) "Test" 1000 2))
      as [[_ Hne]|[-> _]]; [simpl in Hne; congruence|].
    apply app_nil_r. }
  split; [exact E1|]. split.
  { rewrite E1, total_watts_app. unfold total_watts at 2. simpl. lia. }
  split; [exact E2|]. split; [rewrite E2; reflexivity|]. split.
  - intros i Hi out.
    assert (out.1 = _switch_tab "load" a) as Hstate.
    { subst out. unfold LoadTab._remove_load. cbn [fst].
      change (_remove_load i a)
        with (_switch_tab "load" (set_loads (List.filter (keep_other i) (loads a)) a)).
      rewrite (filter_absent _ _ Hi), set_loads_same. reflexivity. }
    assert (out.2 = LoadTab._build_load_tab a) as Hdraw.
    { change (snd out) with (LoadTab._build_load_tab (fst out)). rewrite Hstate.
      apply build_load_tab_same; reflexivity. }
    split; [exact Hstate|]. rewrite Hstate, Hdraw.
    split; [reflexivity|]. split; [reflexivity|]. split; [reflexivity|].
    split; [reflexivity|]. split; [apply build_load_tab_ok|].
    split; [apply build_load_tab_raise | apply build_load_tab_overflow].
  - intros i.
    pose proof (filter_absent i _ (filter_ids_gone i (loads a))) as Hi.
    unfold _remove_load, _switch_tab, set_tab, set_loads. simpl.
    f_equal. exact Hi.
Qed.

Lemma add_then_remove_restores_witness :
  exists view, (LoadTab._remove_load 99 (init ∅)).2 = Py.Ok view.
Proof.
  assert (99 ∉ ids (loads (init ∅))) as Habsent.
  { simpl. intros H.
    repeat (apply elem_of_cons in H as [H|H]; [discriminate H|]).
    apply elem_of_nil in H. exact H. }
  destruct (proj1 (proj2 (proj2 (proj2 (proj2 (add_then_remove_restores [] ∅)))))
              99 Habsent) as (_ & _ & _ & _ & _ & Hdraw & _).
  apply Hdraw. split; [|split].
  - repeat (apply List.Forall_cons;
            [apply (within_limit_by 5); [lia|vm_compute; reflexivity]|]).
    apply List.Forall_nil.
  - vm_compute. reflexivity.
  - apply (within_limit_by 5); [lia|vm_compute; reflexivity].
Defined.

(** With a load of 10^400 W in the ledger, which the dialog accepts,
    removing an id that no load carries leaves the list as it is and
    raises [OverflowError] from the redraw. *)
Lemma remove_absent_raises_on_huge_ledger :
  let a := run [Submit "Big" (String "1" (zeros 400)) "1"] (init ∅) in
  loads a = (DEFAULT_LOADS ++ [Load.mk 4 "Big" (10 ^ 400) 1])%list
  /\ (99 ∉ ids (loads a))
  /\ loads (LoadTab._remove_load 99 a).1 = loads a
  /\ (LoadTab._remove_load 99 a).2 = Py.Raise Py.OverflowError.
Proof.
  intros a.
  assert (loads a = (DEFAULT_LOADS ++ [Load.mk 4 "Big" (10 ^ 400) 1])%list) as Hl
    by (vm_compute; reflexivity).
  assert (99 ∉ ids (loads a)) as Habsent.
  { rewrite Hl. simpl. intros H.
    repeat (apply elem_of_cons in H as [H|H]; [discriminate H|]).
    apply elem_of_nil in H. exact H. }
  assert (loads (_remove_load 99 a) = loads a) as Hsame
    by (rewrite remove_load_loads; exact (filter_absent _ _ Habsent)).
  split; [exact Hl|]. split; [exact Habsent|]. split; [exact Hsame|].
  unfold LoadTab._remove_load. cbn [snd].
  apply build_load_tab_overflow.
  - unfold rows_drawable. rewrite Hsame, Hl.
    repeat (apply List.Forall_cons;
            [apply (within_limit_by 401); [lia|vm_compute; reflexivity]|]).
    apply List.Forall_nil.
  - rewrite Hsame, Hl. vm_compute. discriminate.
Qed.

Lemma submit_counter n w q a l :
  new_load n w q a = Py.Ok l -> load_id (submit n w q a) = load_id a + 1.
Proof. intros H. rewrite (submit_ok _ _ _ _ _ H). reflexivity. Qed.

Lemma submit_loads n w q a l :
  new_load n w q a = Py.Ok l -> loads (submit n w q a) = (loads a ++ [l])%list.
Proof. intros H. rewrite (submit_ok _ _ _ _ _ H). reflexivity. Qed.

(** The ids handed out are consecutive from the counter on, and the
    counter ends right after the last of them. *)
Lemma issued_consecutive ops : forall a,
  issued ops a = seqZ (load_id a) (Z.of_nat (length (issued ops a)))
  /\ load_id (run (List.map op_action ops) a)
     = load_id a + Z.of_nat (length (issued ops a)).
Proof.
  induction ops as [|op ops IH]; intros a.
  - simpl. split; [reflexivity | lia].
  - cbn [issued List.map run fold_left].
    destruct (IH (step a (op_action op))) as [IH1 IH2].
    fold (run (List.map op_action ops) (step a (op_action op))).
    rewrite IH2. clear IH2.
    destruct op as [n w q|i]; cbn [op_action step] in *.
    + destruct (new_load n w q a) as [l|e] eqn:Hl.
      * rewrite (submit_counter _ _ _ _ _ Hl) in *.
        rewrite (new_load_id _ _ _ _ _ Hl).
        cbn [app length]. split; [|lia].
        rewrite seqZ_cons by lia. f_equal.
        rewrite IH1 at 1. f_equal; lia.
      * rewrite (submit_raise _ _ _ _ _ Hl) in *.
        cbn [app]. split; [exact IH1 | reflexivity].
    + rewrite remove_load_counter in *.
      cbn [app]. split; [exact IH1 | reflexivity].
Qed.

(** C7: along every sequence of adds and removes on a ledger that starts
    from the three default loads, the ids handed out are 4, 5, 6, ... in
    this order, one per add that goes through, so each is a positive
    integer that was never handed out before, whatever was removed in
    between; the counter only grows; an add puts its load at the end of
    the list under the current value of the counter, which no load in
    the list and no earlier add has used; and the ids in the list stay
    pairwise distinct. *)
Theorem ids_monotonic_never_reused (ops : list ledger_op) (tbl : Db.table) :
  let a0 := init tbl in
  let a := run (List.map op_action ops) a0 in
  loads a0 = DEFAULT_LOADS
  /\ issued ops a0 = seqZ 4 (Z.of_nat (length (issued ops a0)))
  /\ load_id a = 4 + Z.of_nat (length (issued ops a0))
  /\ NoDup (ids (loads a))
  /\ Forall (fun i => 1 <= i < load_id a) (ids (loads a))
  /\ (forall n w q l, new_load n w q a = Py.Ok l ->
        Load.id l = load_id a
        /\ 1 <= Load.id l
        /\ loads (submit n w q a) = (loads a ++ [l])%list
        /\ load_id (submit n w q a) = load_id a + 1
        /\ (Load.id l ∉ ids (loads a))
        /\ (Load.id l ∉ ids DEFAULT_LOADS)
        /\ Forall (fun i => i < Load.id l) (issued ops a0)
        /\ NoDup (ids (loads (submit n w q a))))
  /\ (forall n w q e, new_load n w q a = Py.Raise e -> submit n w q a = a)
  /\ (forall i, load_id (_remove_load i a) = load_id a).
Proof.
  intros a0 a.
  destruct (issued_consecutive ops a0) as [Hiss Hcnt].
  change (load_id a0) with 4 in *. fold a in Hcnt.
  assert (ledger_ok a) as (Hnd & Hlt & Hc)
    by apply ledger_ok_run, ledger_ok_init.
  split; [reflexivity|]. split; [exact Hiss|]. split; [exact Hcnt|].
  split; [exact Hnd|]. split; [exact Hlt|]. split; [|split].
  - intros n w q l Hl.
    pose proof (new_load_id _ _ _ _ _ Hl) as Hid.
    split; [exact Hid|]. split; [lia|].
    split; [exact (submit_loads _ _ _ _ _ Hl)|].
    split; [exact (submit_counter _ _ _ _ _ Hl)|].
    split; [|split; [|split]].
    + intros Hin. rewrite Forall_forall in Hlt. specialize (Hlt _ Hin). lia.
    + simpl. rewrite !elem_of_cons, elem_of_nil. lia.
    + rewrite Hiss. apply Forall_seqZ. intros. lia.
    + apply (ledger_ok_submit n w q a). repeat split; assumption.
  - intros n w q e. apply submit_raise.
  - intros i. apply remove_load_counter.
Qed.

Lemma ids_monotonic_never_reused_witness :
  let a := run (List.map op_action [Add "A" "10" "1"; Remove 4; Remove 2]) (init ∅) in
  new_load "Pump" "750" "2" a = Py.Ok (Load.mk 5 "Pump" 750 2)
  /\ loads (submit "Pump" "750" "2" a) = (loads a ++ [Load.mk 5 "Pump" 750 2])%list
  /\ (5 ∉ ids (loads a))
  /\ Forall (fun i => i < 5) [4].
Proof.
  assert (new_load "Pump" "750" "2"
            (run (List.map op_action [Add "A" "10" "1"; Remove 4; Remove 2]) (init ∅))
          = Py.Ok (Load.mk 5 "Pump" 750 2)) as Hl by (vm_compute; reflexivity).
  destruct (proj1 (proj2 (proj2 (proj2 (proj2 (proj2
    (ids_monotonic_never_reused [Add "A" "10" "1"; Remove 4; Remove 2] ∅))))))
    "Pump" "750" "2" _ Hl) as (_ & _ & Happ & _ & Hfresh & _ & Hlt & _).
  split; [exact Hl|]. split; [exact Happ|]. split; [exact Hfresh|exact Hlt].
Defined.

(** *** What an add accepts *)

Lemma int_or_default_str_of_int z d :
  int_or_default (Py.str_of_int z) d
  = if Z.of_nat (Py.digit_count (Py.str_of_int z)) <=? Py.max_str_digits
    then Py.Ok z else Py.Raise Py.ValueError.
Proof.
  unfold int_or_default.
  pose proof (str_of_int_nonempty z) as Hne.
  destruct (Py.str_of_int z) eqn:Hs; [congruence|].
  rewrite <- Hs. apply int_str_of_int.
Qed.

Lemma int_or_default_raise text d e :
  int_or_default text d = Py.Raise e ->
  e = Py.ValueError /\ text <> "" /\ Py.int text = Py.Raise Py.ValueError.
Proof.
  unfold int_or_default. destruct text as [|c r]; [discriminate|].
  intros H. pose proof (int_raises_ValueError _ _ H) as ->.
  repeat split; [discriminate | exact H].
Qed.

(** C4, amended: an add is turned down only when the text of the
    wattage or of the quantity is not empty and [int] raises
    [ValueError] for it, because it is not an integer literal or because
    it has more than 4300 digits; then nothing is appended and the
    counter stays.  An empty wattage counts as 0, an empty quantity as 1
    and an empty name as New Load.  An integer is taken as it is: for all
    integers [w] and [q] whose decimal texts have at most 4300 digits,
    negative wattages and quantities below 1 included, adding their
    decimal text appends a load with exactly these values; an integer
    whose text has more digits is turned down; the text of 10^4299, which
    has 4300 digits, is read as that number and the text of 10^4300 is
    refused. *)
Theorem add_rejects_only_malformed_numbers
    (a : App.t) (name_var watts_var qty_var : string) :
  (forall w q,
     int_or_default watts_var 0 = Py.Ok w ->
     int_or_default qty_var 1 = Py.Ok q ->
     loads (submit name_var watts_var qty_var a)
     = (loads a ++ [Load.mk (load_id a) (Py.str_or name_var "New Load") w q])%list
     /\ load_id (submit name_var watts_var qty_var a) = load_id a + 1)
  /\ (forall e,
        int_or_default watts_var 0 = Py.Raise e
        \/ int_or_default qty_var 1 = Py.Raise e ->
        submit name_var watts_var qty_var a = a)
  /\ (forall e,
        new_load name_var watts_var qty_var a = Py.Raise e ->
        e = Py.ValueError
        /\ ((watts_var <> "" /\ Py.int watts_var = Py.Raise Py.ValueError)
            \/ (qty_var <> "" /\ Py.int qty_var = Py.Raise Py.ValueError)))
  /\ int_or_default "" 0 = Py.Ok 0
  /\ int_or_default "" 1 = Py.Ok 1
  /\ Py.str_or "" "New Load" = "New Load"
  /\ (forall w q : Z,
        Z.of_nat (Py.digit_count (Py.str_of_int w)) <= Py.max_str_digits ->
        Z.of_nat (Py.digit_count (Py.str_of_int q)) <= Py.max_str_digits ->
        loads (submit name_var (Py.str_of_int w) (Py.str_of_int q) a)
        = (loads a ++ [Load.mk (load_id a) (Py.str_or name_var "New Load") w q])%list)
  /\ (forall w q : Z,
        Py.max_str_digits < Z.of_nat (Py.digit_count (Py.str_of_int w))
        \/ Py.max_str_digits < Z.of_nat (Py.digit_count (Py.str_of_int q)) ->
        submit name_var (Py.str_of_int w) (Py.str_of_int q) a = a)
  /\ Py.max_str_digits = 4300
  /\ Py.int (String "1" (zeros 4299)) = Py.Ok (10 ^ 4299)
  /\ Py.int (String "1" (zeros 4300)) = Py.Raise Py.ValueError.
Proof.
  split; [|split; [|split]].
  - intros w q Hw Hq.
    assert (new_load name_var watts_var qty_var a
            = Py.Ok (Load.mk (load_id a) (Py.str_or name_var "New Load") w q)) as Hl.
    { unfold new_load. rewrite Hw, Hq. reflexivity. }
    split; [exact (submit_loads _ _ _ _ _ Hl) | exact (submit_counter _ _ _ _ _ Hl)].
  - intros e H.
    assert (exists e', new_load name_var watts_var qty_var a = Py.Raise e') as [e' He'].
    { unfold new_load. destruct H as [H|H].
      - rewrite H. eexists. reflexivity.
      - rewrite H. destruct (int_or_default watts_var 0); eexists; reflexivity. }
    exact (submit_raise _ _ _ _ _ He').
  - intros e. unfold new_load.
    destruct (int_or_default watts_var 0) as [w|e1] eqn:Hw.
    + destruct (int_or_default qty_var 1) as [q|e2] eqn:Hq; [discriminate|].
      simpl. intros H. injection H as <-.
      destruct (int_or_default_raise _ _ _ Hq) as (-> & ? & ?). auto.
    + simpl. intros H. injection H as <-.
      destruct (int_or_default_raise _ _ _ Hw) as (-> & ? & ?). auto.
  - split; [reflexivity|]. split; [reflexivity|]. split; [reflexivity|].
    split; [|split; [|split; [reflexivity|split]]];
      [| |exact (int_one_zeros 4299 ltac:(lia))
         |exact (int_one_zeros 4300 ltac:(lia))].
    + intros w q Hw Hq. apply submit_loads. unfold new_load.
      rewrite !int_or_default_str_of_int.
      apply Z.leb_le in Hw, Hq. rewrite Hw, Hq. reflexivity.
    + intros w q H. unfold submit, new_load.
      rewrite !int_or_default_str_of_int.
      destruct H as [H|H]; apply Z.leb_gt in H; rewrite H;
        [reflexivity|].
      destruct (Z.of_nat (Py.digit_count (Py.str_of_int w)) <=? Py.max_str_digits);
        reflexivity.
Qed.

Lemma add_rejects_only_malformed_numbers_witness :
  submit "Lamp" "12x" "1" (init ∅) = init ∅.
Proof.
  apply (proj1 (proj2 (add_rejects_only_malformed_numbers
                         (init ∅) "Lamp" "12x" "1")) Py.ValueError).
  left. vm_compute. reflexivity.
Defined.

(** A wattage of -5 and a quantity of 0 are accepted: the load is
    appended with these values and the counter moves on. *)
Lemma add_accepts_negative_watts_zero_quantity :
  Py.int "-5" = Py.Ok (-5)
  /\ Py.int "0" = Py.Ok 0
  /\ -5 < 0 /\ 0 < 1
  /\ loads (submit "Bad" "-5" "0" (init ∅))
     = (DEFAULT_LOADS ++ [Load.mk 4 "Bad" (-5) 0])%list
  /\ load_id (submit "Bad" "-5" "0" (init ∅)) = 5
  /\ submit "Bad" "-5" "0" (init ∅) <> init ∅.
Proof.
  repeat split; try (vm_compute; reflexivity); try lia.
  intros H. apply (f_equal load_id) in H. vm_compute in H. discriminate H.
Qed.

End Ledger.

(** ** Saving a report *)

Section SaveFlow.

Import App.

(** The three ways a call of [_save_report] can go, as far as the
    reports table is concerned. *)
Lemma save_report_reports w a :
  reports (_save_report w a) = reports a
  \/ exists specs,
       current_specs a = Some specs
       /\ pdf_generate w (pdf_path_of w specs a) (gather w specs a) = true
       /\ db_engine_ok w = true
       /\ reports (_save_report w a)
          = <[SavedReport.id (row_of w specs a) := row_of w specs a]> (reports a).
Proof.
  unfold _save_report.
  destruct (current_specs a) as [specs|] eqn:Hs; [|left; reflexivity].
  fold (pdf_path_of w specs a).
  destruct (pdf_generate w (pdf_path_of w specs a) (gather w specs a)) eqn:Hg;
    simpl; [|left; reflexivity].
  fold (row_of w specs a). unfold Db.save_report.
  destruct (db_engine_ok w) eqn:Hdb.
  - right. exists specs. repeat split; try assumption.
    destruct (open_pdf_error w); reflexivity.
  - left. destruct (open_pdf_error w); reflexivity.
Qed.

Lemma save_report_render_failed w a specs :
  current_specs a = Some specs ->
  pdf_generate w (pdf_path_of w specs a) (gather w specs a) = false ->
  _save_report w a
  = _toast "Failed to generate PDF" "error" (_toast "Generating PDF..." "info" a).
Proof.
  intros Hs Hg. unfold _save_report. rewrite Hs.
  fold (pdf_path_of w specs a). rewrite Hg. reflexivity.
Qed.

Lemma select_phase_reports p a : reports (_select_phase p a) = reports a.
Proof. unfold _select_phase. destruct (Py.truthy_int _); reflexivity. Qed.

Lemma select_power_reports p a : reports (_select_power p a) = reports a.
Proof. unfold _select_power. destruct (Py.truthy_str _); reflexivity. Qed.

Lemma submit_reports n w q a : reports (submit n w q a) = reports a.
Proof. unfold submit. destruct (new_load n w q a); reflexivity. Qed.

(** Only a save with a successful render and a working storage engine
    changes the reports table, and it writes the one row it built. *)
Lemma step_reports a act :
  reports (step a act) = reports a
  \/ exists w specs,
       act = SaveReport w
       /\ current_specs a = Some specs
       /\ pdf_generate w (pdf_path_of w specs a) (gather w specs a) = true
       /\ reports (step a act)
          = <[SavedReport.id (row_of w specs a) := row_of w specs a]> (reports a).
Proof.
  destruct act; simpl;
    try (left; reflexivity);
    try (left; first [apply select_phase_reports | apply select_power_reports
                     | apply submit_reports]).
  destruct (save_report_reports w a) as [H|(specs & Hs & Hg & _ & H)];
    [left; exact H|].
  right. exists w, specs. auto.
Qed.

Lemma run_snoc acts act a : run (acts ++ [act]) a = step (run acts a) act.
Proof. unfold run. apply fold_left_app. Qed.

(** Every row of the table was written by some save of the session
    history, from the state that save started in. *)
Lemma rows_come_from_saves acts : forall tbl id r,
  reports (run acts (init tbl)) !! id = Some r ->
  tbl !! id = Some r
  \/ exists w specs a,
       SaveReport w ∈ acts
       /\ current_specs a = Some specs
       /\ pdf_generate w (pdf_path_of w specs a) (gather w specs a) = true
       /\ r = row_of w specs a.
Proof.
  induction acts as [|act acts IH] using rev_ind; intros tbl id r.
  - simpl. auto.
  - rewrite run_snoc.
    destruct (step_reports (run acts (init tbl)) act)
      as [->|(w & specs & -> & Hs & Hg & ->)].
    + intros H. destruct (IH _ _ _ H) as [?|(w & specs & a & Hin & ?)]; [auto|].
      right. exists w, specs, a. rewrite elem_of_app. auto.
    + rewrite lookup_insert_Some.
      intros [[_ <-]|[_ H]].
      * right. exists w, specs, (run acts (init tbl)).
        rewrite elem_of_app, list_elem_of_singleton. auto.
      * destruct (IH _ _ _ H) as [?|(w' & specs' & a & Hin & ?)]; [auto|].
        right. exists w', specs', a. rewrite elem_of_app. auto.
Qed.

(** C8: when the PDF generator answers failure, [_save_report] shows the
    failure toast and returns with the reports table as it was; and over
    any history of a database that started empty, every row of the table
    points at a path for which the generator answered success in the
    save that wrote the row. *)
Theorem failed_render_never_persisted :
  (forall w a specs,
     current_specs a = Some specs ->
     pdf_generate w (pdf_path_of w specs a) (gather w specs a) = false ->
     reports (_save_report w a) = reports a
     /\ last (toasts (_save_report w a)) = Some ("Failed to generate PDF", "error"))
  /\ (forall acts id r,
        reports (run acts (init ∅)) !! id = Some r ->
        exists w data,
          SaveReport w ∈ acts
          /\ pdf_generate w (SavedReport.pdf_path r) data = true).
Proof.
  split.
  - intros w a specs Hs Hg.
    rewrite (save_report_render_failed w a specs Hs Hg). split; [reflexivity|].
    simpl. rewrite last_snoc. reflexivity.
  - intros acts id r H.
    destruct (rows_come_from_saves acts ∅ id r H)
      as [H0|(w & specs & a & Hin & Hs & Hg & ->)].
    + rewrite lookup_empty in H0. discriminate H0.
    + exists w, (gather w specs a). split; [exact Hin | exact Hg].
Qed.

Lemma failed_render_never_persisted_witness :
  let w := mk_world "t0" "t1" "t2" "t3" (fun s => s) (fun _ => "{}")
             (fun _ => "[]") (fun f => f) (fun _ _ => false) true None in
  let a := _select_power 50 (_select_phase "three" (init ∅)) in
  reports (_save_report w a) = reports a
  /\ last (toasts (_save_report w a)) = Some ("Failed to generate PDF", "error").
Proof.
  eapply (proj1 failed_render_never_persisted); vm_compute; reflexivity.
Defined.

(** C10: over any history of a database that started empty, every row
    of the reports table has the status completed, none has draft, the
    default the table declares for the column, and every record the
    reports listing returns has the status completed. *)
Theorem stored_reports_are_completed (acts : list action) :
  let tbl := reports (run acts (init ∅)) in
  (forall id r, tbl !! id = Some r ->
     SavedReport.status r = "completed"
     /\ SavedReport.status r <> Db.default_status)
  /\ (forall engine_ok limit r,
        r ∈ Db.get_reports engine_ok limit tbl ->
        SavedReport.status r = "completed").
Proof.
  intros tbl.
  assert (forall id r, tbl !! id = Some r -> SavedReport.status r = "completed")
    as Hrows.
  { intros id r H.
    destruct (rows_come_from_saves acts ∅ id r H)
      as [H0|(w & specs & a & _ & _ & _ & ->)]; [|reflexivity].
    rewrite lookup_empty in H0. discriminate H0. }
  split.
  - intros id r H. rewrite (Hrows id r H). split; [reflexivity|discriminate].
  - intros engine_ok limit r. unfold Db.get_reports.
    destruct engine_ok; [|intros H; apply elem_of_nil in H; destruct H].
    intros H. apply subseteq_take in H.
    rewrite merge_sort_Permutation in H.
    apply list_elem_of_fmap in H as ([id r'] & -> & H).
    apply elem_of_map_to_list in H. exact (Hrows id r' H).
Qed.

Lemma stored_reports_are_completed_witness :
  let a := run [SelectPhase "single"; SelectPower 30; SaveReport sample_world]
               (init ∅) in
  SavedReport.status <$> (reports a !! "0123456789ab") = Some "completed".
Proof.
  assert (exists r, reports (run [SelectPhase "single"; SelectPower 30;
                                   SaveReport sample_world] (init ∅))
                      !! "0123456789ab" = Some r) as [r Hr]
    by (eexists; vm_compute; reflexivity).
  simpl. simpl in Hr. rewrite Hr. simpl. f_equal.
  exact (proj1 (proj1 (stored_reports_are_completed
           [SelectPhase "single"; SelectPower 30; SaveReport sample_world])
           _ _ Hr)).
Defined.

(** *** The project name *)

(** C5, amended: an empty project name becomes Untitled Project in the
    gathered report data and in the row that is stored; every other
    name, a name made of white space included, is taken over unchanged;
    and the project form held by the application is the same after
    [_save_report] as before. *)
Theorem project_name_placeholder (w : world) (a : App.t) (specs : WiringSpecs) :
  let name := ProjectInfo.project_name (project_info a) in
  let data := gather w specs a in
  (name = "" -> ReportData.project_name data = "Untitled Project")
  /\ (name <> "" -> ReportData.project_name data = name)
  /\ SavedReport.project_name (row_of w specs a) = ReportData.project_name data
  /\ project_info (_save_report w a) = project_info a.
Proof.
  intros name data. subst name data. simpl.
  split; [intros ->; reflexivity|]. split.
  - destruct (ProjectInfo.project_name (project_info a)); [congruence|reflexivity].
  - split; [reflexivity|].
    unfold _save_report. destruct (current_specs a); [|reflexivity].
    destruct (pdf_generate w _ _); simpl; [|reflexivity].
    destruct (open_pdf_error w); reflexivity.
Qed.

Lemma project_name_placeholder_witness :
  let a := _select_power 50 (_select_phase "three" (init ∅)) in
  ReportData.project_name
    (gather sample_world
       (mkWiringSpecs "208V/480V" "" "" "" "" "" "" "" "") a)
  = "Untitled Project".
Proof.
  apply (proj1 (project_name_placeholder sample_world
                  (_select_power 50 (_select_phase "three" (init ∅)))
                  (mkWiringSpecs "208V/480V" "" "" "" "" "" "" "" ""))).
  reflexivity.
Defined.

(** A project name of three spaces is white space only, and it is what
    the gathered data and the stored row carry: no placeholder. *)
Lemma whitespace_project_name_kept :
  let a := set_project (ProjectInfo.mk "   " "" "" "" "")
             (_select_power 50 (_select_phase "three" (init ∅))) in
  Py.strip (ProjectInfo.project_name (project_info a)) = ""
  /\ (exists specs, current_specs a = Some specs
        /\ ReportData.project_name (gather sample_world specs a) = "   ")
  /\ SavedReport.project_name
       <$> (reports (_save_report sample_world a) !! "0123456789ab")
     = Some "   "
  /\ "   " <> "Untitled Project".
Proof.
  split; [vm_compute; reflexivity|]. split.
  - eexists. split; vm_compute; reflexivity.
  - split; [vm_compute; reflexivity | discriminate].
Qed.

End SaveFlow.

(** ** The file name of the PDF *)

Section FileName.

Import Py.

(** Facts about single characters, by going through all of them. *)
Lemma kept_replace c :
  kept c = true -> name_char (if Ascii.eqb c " " then "_"%char else c) = true.
Proof.
  destruct c as [[] [] [] [] [] [] [] []]; vm_compute; auto.
Qed.

Lemma name_char_kept c : name_char c = true -> kept c = true.
Proof.
  destruct c as [[] [] [] [] [] [] [] []]; vm_compute; auto.
Qed.

Lemma name_char_not_space c : name_char c = true -> negb (isspace c) = true.
Proof.
  destruct c as [[] [] [] [] [] [] [] []]; vm_compute; auto.
Qed.

Lemma name_char_no_blank c :
  name_char c = true -> (if Ascii.eqb c " " then "_"%char else c) = c.
Proof.
  destruct c as [[] [] [] [] [] [] [] []]; vm_compute; auto; discriminate.
Qed.

(** C9: the PDF file name is the sanitized project name, the phase, the
    power rating in decimal digits followed by kW, and the time stamp,
    joined by underscores and ending in .pdf, for every phase and each of
    the five ratings; a phase and a rating that are not selected appear
    as None; the project name St. Mary's: CT #2 with spaces around it,
    three phase and 50 kW give
    St_Marys_CT_2_three_50kW_20240506_070809.pdf at that time.
    The sanitized name is obtained by
    keeping the characters that are alphanumeric, a space, a hyphen or
    an underscore, stripping, cutting to the first 40 characters, and
    only then turning spaces into underscores; it has at most 40
    characters, each alphanumeric, a hyphen or an underscore; and a
    project name of at most 40 such characters is used as it is. *)
Theorem pdf_filename_format (w : App.world) (data : ReportData.t) :
  let name := ReportData.project_name data in
  (forall phase power digits,
     ReportData.phase_type data = Some phase ->
     ReportData.power_rating data = Some power ->
     (power, digits) ∈ [(30, "30"); (32, "32"); (40, "40"); (50, "50"); (60, "60")] ->
     App.filename w data
     = App.safe_name name ++ "_" ++ phase ++ "_" ++ digits ++ "kW_"
         ++ App.now_stamp w ++ ".pdf")
  /\ (ReportData.phase_type data = None ->
      ReportData.power_rating data = None ->
      App.filename w data
      = App.safe_name name ++ "_None_NonekW_" ++ App.now_stamp w ++ ".pdf")
  /\ App.filename sample_world
       (ReportData.mk "" "  St. Mary's: CT #2  " "" "" "" "" (Some "three")
          (Some 50) ∅ "" [] ∅)
     = "St_Marys_CT_2_three_50kW_20240506_070809.pdf"
  /\ App.safe_name name
     = replace " " "_" (take 40 (strip (filter kept name)))
  /\ all kept (filter kept name) = true
  /\ String.length (App.safe_name name)
     = Nat.min 40 (String.length (strip (filter kept name)))
  /\ (String.length (App.safe_name name) <= 40)%nat
  /\ all name_char (App.safe_name name) = true
  /\ (all name_char name = true -> (String.length name <= 40)%nat ->
      App.safe_name name = name).
Proof.
  intros name.
  split.
  { intros phase power digits Hphase Hpower Hin.
    unfold App.filename. rewrite Hphase, Hpower. cbn [fmt_opt].
    repeat (apply elem_of_cons in Hin as [Hin|Hin];
            [injection Hin as -> ->; reflexivity|]).
    apply elem_of_nil in Hin. destruct Hin. }
  split.
  { intros Hphase Hpower. unfold App.filename. rewrite Hphase, Hpower.
    reflexivity. }
  split; [vm_compute; reflexivity|].
  split; [reflexivity|].
  split; [apply all_filter|].
  assert (String.length (App.safe_name name)
          = Nat.min 40 (String.length (strip (filter kept name)))) as Hlen.
  { unfold App.safe_name, replace. rewrite length_map, length_take. reflexivity. }
  split; [exact Hlen|]. split; [rewrite Hlen; lia|]. split.
  - unfold App.safe_name, replace.
    apply (all_map kept name_char); [exact kept_replace|].
    apply all_take. unfold strip. apply all_rstrip, all_lstrip, all_filter.
  - intros Hall Hle. unfold App.safe_name. fold kept.
    rewrite (filter_id kept name) by (exact (all_impl _ _ _ name_char_kept Hall)).
    unfold strip.
    rewrite (lstrip_id isspace name)
      by (exact (all_impl _ _ _ name_char_not_space Hall)).
    rewrite (rstrip_id isspace name)
      by (exact (all_impl _ _ _ name_char_not_space Hall)).
    rewrite (take_id 40 name Hle).
    unfold replace. exact (map_id _ name_char name name_char_no_blank Hall).
Qed.

Lemma pdf_filename_format_witness :
  App.safe_name "Ward-7_CT" = "Ward-7_CT".
Proof.
  apply (proj2 (proj2 (proj2 (proj2 (proj2 (proj2 (proj2 (proj2
    (pdf_filename_format sample_world
       (ReportData.mk "" "Ward-7_CT" "" "" "" "" None None ∅ "" [] ∅)))))))))).
  - vm_compute. reflexivity.
  - vm_compute. lia.
Defined.

Example filename_three_50 :
  App.filename sample_world
    (App.gather sample_world (mkWiringSpecs "" "" "" "" "" "" "" "" "")
       (App.set_project (ProjectInfo.mk "  St. Mary's: CT #2  " "" "" "" "")
          (App._select_power 50 (App._select_phase "three" (App.init ∅)))))
  = "St_Marys_CT_2_three_50kW_20240506_070809.pdf".
Proof. vm_compute. reflexivity. Qed.

End FileName.

(** ** The selection of a configuration *)

(** Checks that the commands of a concrete history are ones the widgets
    offer. *)
Ltac ui_ok :=
  repeat (apply List.Forall_cons;
          [cbn [ui_action];
           first [exact I
                 | left; reflexivity
                 | right; reflexivity
                 | unfold POWER_RATINGS; rewrite !elem_of_cons; auto 10]|]);
  apply List.Forall_nil.

Section Selection.

Import App.

Lemma lookup_specs_domain phase power :
  phase = "single" \/ phase = "three" -> power ∈ POWER_RATINGS ->
  is_Some (lookup_specs phase power).
Proof.
  intros Hp Hr. unfold POWER_RATINGS in Hr.
  repeat (apply elem_of_cons in Hr as [->|Hr]);
    [..|apply elem_of_nil in Hr; destruct Hr];
    destruct Hp as [->| ->]; vm_compute; eauto.
Qed.

Lemma rating_nonzero power : power ∈ POWER_RATINGS -> power <> 0.
Proof.
  unfold POWER_RATINGS. intros Hr.
  repeat (apply elem_of_cons in Hr as [->|Hr]); try discriminate.
  apply elem_of_nil in Hr. destruct Hr.
Qed.

Lemma update_specs_selection a :
  selected_phase (_update_specs a) = selected_phase a
  /\ selected_power (_update_specs a) = selected_power a
  /\ current_specs (_update_specs a)
     = match selected_phase a, selected_power a with
       | Some phase, Some power => lookup_specs phase power
       | None, Some power => THREE_PHASE_SPECS !! power
       | _, None => None
       end.
Proof.
  split; [reflexivity|]. split; [reflexivity|].
  unfold _update_specs, lookup_specs. simpl.
  destruct (selected_phase a) as [phase|]; destruct (selected_power a) as [power|];
    simpl; try reflexivity.
  - destruct (String.eqb_spec phase "single") as [->|Hne].
    + rewrite bool_decide_eq_true_2; reflexivity.
    + rewrite bool_decide_eq_false_2; [reflexivity | congruence].
  - destruct (bool_decide _); reflexivity.
Qed.

Lemma selection_ok_init tbl : selection_ok (init tbl).
Proof. repeat split; simpl; intros; discriminate. Qed.

Lemma selection_ok_same a b :
  selected_phase b = selected_phase a ->
  selected_power b = selected_power a ->
  current_specs b = current_specs a ->
  selection_ok a -> selection_ok b.
Proof. unfold selection_ok. intros -> -> ->. auto. Qed.

Lemma save_report_selection w a :
  selected_phase (_save_report w a) = selected_phase a
  /\ selected_power (_save_report w a) = selected_power a
  /\ current_specs (_save_report w a) = current_specs a.
Proof.
  unfold _save_report. destruct (current_specs a) eqn:Hs; [|auto].
  destruct (pdf_generate w _ _); simpl; [|auto].
  destruct (open_pdf_error w); simpl; auto.
Qed.

Lemma submit_selection n w q a :
  selected_phase (submit n w q a) = selected_phase a
  /\ selected_power (submit n w q a) = selected_power a
  /\ current_specs (submit n w q a) = current_specs a.
Proof. unfold submit. destruct (new_load n w q a); auto. Qed.

Lemma selection_ok_step a act :
  ui_action act -> selection_ok a -> selection_ok (step a act).
Proof.
  intros Hact (Hp & Hr & Hs). destruct act; simpl in *.
  - (* a phase card *)
    unfold _select_phase. cbn [selected_power set_phase].
    destruct (selected_power a) as [power|] eqn:Hpow.
    + pose proof (rating_nonzero _ (Hr _ eq_refl)) as Hnz.
      assert (Py.truthy_int (Some power) = true) as ->
        by (destruct power; [congruence|reflexivity..]).
      destruct (update_specs_selection (set_phase (Some phase) a)) as (E1 & E2 & E3).
      unfold selection_ok. rewrite E1, E2, E3. simpl. rewrite Hpow.
      repeat split; [intros ? [= <-]; exact Hact | exact Hr].
    + unfold selection_ok. simpl. rewrite Hpow.
      repeat split; [intros ? [= <-]; exact Hact | discriminate |].
      rewrite Hs. destruct (selected_phase a); reflexivity.
  - (* a rating button *)
    unfold _select_power. cbn [selected_phase set_power].
    destruct (selected_phase a) as [phase|] eqn:Hph.
    + assert (Py.truthy_str (Some phase) = true) as ->.
      { destruct (Hp _ eq_refl) as [-> | ->]; reflexivity. }
      destruct (update_specs_selection (set_power (Some power) a)) as (E1 & E2 & E3).
      unfold selection_ok. rewrite E1, E2, E3. simpl. rewrite Hph.
      repeat split; [exact Hp | intros ? [= <-]; exact Hact].
    + unfold selection_ok. simpl. rewrite Hph.
      repeat split; [discriminate | intros ? [= <-]; exact Hact | exact Hs].
  - repeat split; assumption.
  - repeat split; simpl; intros; discriminate.
  - eapply selection_ok_same; [apply submit_selection..|]. repeat split; assumption.
  - repeat split; assumption.
  - repeat split; assumption.
  - repeat split; assumption.
  - eapply selection_ok_same; [apply save_report_selection..|].
    repeat split; assumption.
  - apply selection_ok_init.
Qed.

Lemma selection_ok_run acts : forall a,
  Forall ui_action acts -> selection_ok a -> selection_ok (run acts a).
Proof.
  induction acts as [|act acts IH]; intros a Hacts Ha; simpl; [exact Ha|].
  apply Forall_cons in Hacts as [Hact Hacts].
  apply IH; [exact Hacts|]. apply selection_ok_step; assumption.
Qed.

(** X1: whatever the user does through the widgets, the resolved
    specification is there exactly when both a phase and a rating are
    selected, and it is then the catalog entry of the selected pair. *)
Theorem specs_follow_selection (acts : list action) (tbl : Db.table) :
  Forall ui_action acts ->
  let a := run acts (init tbl) in
  (is_Some (current_specs a)
   <-> is_Some (selected_phase a) /\ is_Some (selected_power a))
  /\ (forall phase power,
        selected_phase a = Some phase -> selected_power a = Some power ->
        current_specs a = lookup_specs phase power
        /\ is_Some (lookup_specs phase power)).
Proof.
  intros Hacts a.
  destruct (selection_ok_run acts (init tbl) Hacts (selection_ok_init tbl))
    as (Hp & Hr & Hs).
  fold a in Hp, Hr, Hs. split.
  - rewrite Hs.
    destruct (selected_phase a) as [phase|], (selected_power a) as [power|].
    + split; [eauto|]. intros _. apply lookup_specs_domain; auto.
    + split; [intros [? [=]] | intros [_ [? [=]]]].
    + split; [intros [? [=]] | intros [[? [=]] _]].
    + split; [intros [? [=]] | intros [[? [=]] _]].
  - intros phase power Hph Hpow. rewrite Hs, Hph, Hpow.
    split; [reflexivity|]. apply lookup_specs_domain; auto.
Qed.

Lemma specs_follow_selection_witness :
  let a := run [SelectPower 40; SelectPhase "three"; SelectPhase "single"] (init ∅) in
  current_specs a = lookup_specs "single" 40 /\ is_Some (lookup_specs "single" 40).
Proof.
  apply (proj2 (specs_follow_selection
                  [SelectPower 40; SelectPhase "three"; SelectPhase "single"] ∅
                  ltac:(ui_ok))).
  - reflexivity.
  - reflexivity.
Defined.

(** X2: choosing the phase and the rating in either order ends in the
    same state, from any state, for a phase that is not the empty string
    and a rating that is not zero. *)
Theorem selection_order_commutes (a : App.t) (phase : string) (power : Z) :
  phase <> "" -> power <> 0 ->
  _select_power power (_select_phase phase a)
  = _select_phase phase (_select_power power a).
Proof.
  intros Hph Hpow.
  assert (Py.truthy_str (Some phase) = true) as Hts
    by (destruct phase; [congruence|reflexivity]).
  assert (Py.truthy_int (Some power) = true) as Hti
    by (destruct power; [congruence|reflexivity..]).
  destruct a as [ph pw cs tab ls lid ck pi rp ts].
  unfold _select_power, _select_phase.
  cbn [selected_power selected_phase set_phase set_power].
  destruct pw as [[|pw|pw]|], ph as [[|c r]|];
    cbn [Py.truthy_int Py.truthy_str];
    unfold _update_specs, _switch_tab, set_tab, set_specs;
    cbn [selected_power selected_phase set_phase set_power current_specs
         current_tab loads load_id checklist_vars project_info reports toasts];
    rewrite ?Hts, ?Hti;
    cbn [selected_power selected_phase set_phase set_power current_specs
         current_tab loads load_id checklist_vars project_info reports toasts];
    reflexivity.
Qed.

Lemma selection_order_commutes_witness :
  _select_power 50 (_select_phase "three" (init ∅))
  = _select_phase "three" (_select_power 50 (init ∅)).
Proof.
  apply (selection_order_commutes (init ∅) "three" 50); discriminate.
Defined.

End Selection.

(** ** The reports table *)

Section DbFacts.

#[local] Instance newer_total : Total Db.newer.
Proof.
  intros x y. unfold Db.newer.
  destruct (String.leb_total (SavedReport.updated_at y) (SavedReport.updated_at x));
    auto.
Qed.

Lemma Sorted_take {A} (R : relation A) (l : list A) :
  Sorted R l -> forall n, Sorted R (take n l).
Proof.
  induction 1 as [|x l Hs IH Hhd]; intros [|n]; simpl; try constructor.
  - apply IH.
  - destruct Hhd as [|y l' Hy]; destruct n; simpl; constructor. exact Hy.
Qed.

Lemma get_reports_length limit (tbl : Db.table) :
  length (Db.get_reports true limit tbl) = Nat.min limit (size tbl).
Proof.
  unfold Db.get_reports.
  rewrite stdpp.list_basics.list.length_take, merge_sort_Permutation, length_fmap.
  rewrite length_map_to_list. reflexivity.
Qed.

Lemma get_reports_rows engine_ok limit (tbl : Db.table) r :
  r ∈ Db.get_reports engine_ok limit tbl -> exists id, tbl !! id = Some r.
Proof.
  unfold Db.get_reports.
  destruct engine_ok; [|intros H; apply elem_of_nil in H; destruct H].
  intros H. apply subseteq_take in H. rewrite merge_sort_Permutation in H.
  apply list_elem_of_fmap in H as ([id r'] & -> & H).
  exists id. apply elem_of_map_to_list in H. exact H.
Qed.

(** X3: the listing of the reports holds at most [limit] records, as many
    as the table allows; they are rows of the table, ordered by
    [updated_at] from newest to oldest; with a limit that covers the
    table it holds every row; and when the storage engine fails it is
    empty. *)
Theorem get_reports_newest_first (limit : nat) (tbl : Db.table) :
  let listing := Db.get_reports true limit tbl in
  length listing = Nat.min limit (size tbl)
  /\ Sorted Db.newer listing
  /\ (forall r, r ∈ listing -> exists id, tbl !! id = Some r)
  /\ ((size tbl <= limit)%nat ->
      forall id r, tbl !! id = Some r -> r ∈ listing)
  /\ Db.get_reports false limit tbl = [].
Proof.
  intros listing. subst listing.
  split; [apply get_reports_length|].
  split; [apply Sorted_take, Sorted_merge_sort, _|].
  split; [intros r; apply get_reports_rows|].
  split; [|reflexivity].
  unfold Db.get_reports.
  pose proof (merge_sort_Permutation Db.newer (snd <$> map_to_list tbl)) as Hperm.
  assert (length (merge_sort Db.newer (snd <$> map_to_list tbl)) = size tbl) as Hlen.
  { rewrite Hperm, length_fmap. apply length_map_to_list. }
  intros Hsize id r Hr. rewrite take_ge by lia. rewrite Hperm.
  apply list_elem_of_fmap. exists (id, r). split; [reflexivity|].
  apply elem_of_map_to_list. exact Hr.
Qed.

Lemma get_reports_newest_first_witness :
  let r := SavedReport.mk "abc" "Clinic" (Some "single") (Some 30) "completed"
             "t1" "t2" "" "" "" "" "" "{}" "[]" "/tmp/x.pdf" in
  r ∈ Db.get_reports true 20 (<["abc" := r]> ∅).
Proof.
  intros r.
  apply (proj1 (proj2 (proj2 (proj2
           (get_reports_newest_first 20 (<["abc" := r]> ∅)))))
           ltac:(apply Nat.leb_le; vm_compute; reflexivity)
           "abc" r).
  apply lookup_insert_eq.
Defined.

End DbFacts.

(** ** More on saving a report *)

Section SaveMore.

Import App.

Lemma str_or_nonempty s d : d <> "" -> Py.str_or s d <> "".
Proof. destruct s; simpl; [auto|discriminate]. Qed.

Lemma length_take_le n s : (String.length (Py.take n s) <= n)%nat.
Proof. rewrite length_take. lia. Qed.

(** The row written from a state in which the selection is in order. *)
Lemma row_of_ok w specs a :
  selection_ok a -> current_specs a = Some specs -> row_ok (row_of w specs a).
Proof.
  intros (Hp & Hr & Hs) Hc. rewrite Hc in Hs.
  destruct (selected_phase a) as [phase|] eqn:Hph; [|discriminate].
  destruct (selected_power a) as [power|] eqn:Hpow; [|discriminate].
  unfold row_ok, row_of, saved_report, gather.
  cbn [SavedReport.project_name SavedReport.phase_type SavedReport.power_rating
       SavedReport.status SavedReport.custom_notes SavedReport.id
       ReportData.project_name ReportData.phase_type ReportData.power_rating
       ReportData.report_id].
  rewrite Hph, Hpow.
  split; [apply str_or_nonempty; discriminate|].
  split; [destruct (Hp _ eq_refl) as [-> | ->]; auto|].
  split; [exists power; split; [reflexivity | apply Hr; reflexivity]|].
  split; [reflexivity|]. split; [reflexivity|]. apply length_take_le.
Qed.

Lemma rows_ok_run acts :
  Forall ui_action acts ->
  forall k r, reports (run acts (init ∅)) !! k = Some r ->
    k = SavedReport.id r /\ row_ok r.
Proof.
  induction acts as [|act acts IH] using rev_ind; intros Hacts k r.
  - simpl. rewrite lookup_empty. discriminate.
  - apply Forall_app in Hacts as [Hacts Hact].
    apply Forall_cons in Hact as [Hact _].
    rewrite run_snoc.
    pose proof (selection_ok_run acts (init ∅) Hacts (selection_ok_init ∅)) as Hsel.
    destruct (step_reports (run acts (init ∅)) act)
      as [->|(w & specs & -> & Hs & Hg & ->)]; [apply IH, Hacts|].
    rewrite lookup_insert_Some. intros [[<- <-]|[_ H]].
    + split; [reflexivity|]. apply row_of_ok; assumption.
    + exact (IH Hacts _ _ H).
Qed.

(** X5: over any history of widget commands on a database that started
    empty, every row of the reports table is stored under its own id and
    carries a project name that is not empty, one of the two phases, one
    of the five ratings, the status completed and no notes; so the
    reports page shows at most twenty cards, and the title of each is the
    stored project name, never the fallback Untitled. *)
Theorem stored_rows_well_formed (acts : list action) :
  Forall ui_action acts ->
  let tbl := reports (run acts (init ∅)) in
  (forall k r, tbl !! k = Some r -> k = SavedReport.id r /\ row_ok r)
  /\ (forall engine_ok,
        card_titles engine_ok tbl
        = SavedReport.project_name <$> Db.get_reports engine_ok 20 tbl
        /\ (length (card_titles engine_ok tbl) <= 20)%nat).
Proof.
  intros Hacts tbl.
  pose proof (rows_ok_run acts Hacts) as Hrows. fold tbl in Hrows.
  split; [exact Hrows|].
  intros engine_ok. unfold card_titles. split.
  - apply list_fmap_ext. intros i r Hr.
    assert (exists k, tbl !! k = Some r) as [k Hk].
    { apply (get_reports_rows engine_ok 20). apply list_elem_of_lookup. eauto. }
    destruct (Hrows k r Hk) as (_ & Hname & _).
    unfold card_title. destruct (SavedReport.project_name r); [congruence|reflexivity].
  - rewrite length_fmap. destruct engine_ok; [|simpl; lia].
    rewrite get_reports_length. lia.
Qed.

Lemma stored_rows_well_formed_witness :
  let acts := [SelectPhase "single"; SelectPower 30; SaveReport sample_world] in
  card_titles true (reports (run acts (init ∅))) = ["Untitled Project"].
Proof.
  intros acts.
  rewrite (proj1 (proj2 (stored_rows_well_formed acts
             ltac:(ui_ok)) true)).
  vm_compute. reflexivity.
Defined.

(** X6: over any history of widget commands, a save made while the
    phase or the rating is not selected does nothing but show the warning
    toast; this is so right after Change Selection, from any state.  With
    both selected the save goes on to the renderer. *)
Theorem save_needs_selection (acts : list action) (tbl : Db.table) (w : world) :
  Forall ui_action acts ->
  let a := run acts (init tbl) in
  (selected_phase a = None \/ selected_power a = None ->
     _save_report w a = _toast "Please select a configuration first" "warning" a)
  /\ (is_Some (selected_phase a) -> is_Some (selected_power a) ->
      exists specs, current_specs a = Some specs
        /\ ("Generating PDF...", "info") ∈ toasts (_save_report w a))
  /\ _save_report w (_reset_selection a)
     = _toast "Please select a configuration first" "warning" (_reset_selection a).
Proof.
  intros Hacts a.
  destruct (selection_ok_run acts (init tbl) Hacts (selection_ok_init tbl))
    as (Hp & Hr & Hs).
  fold a in Hp, Hr, Hs. split; [|split; [|reflexivity]].
  - intros Hnone. unfold _save_report. rewrite Hs.
    destruct Hnone as [-> | ->]; [reflexivity|].
    destruct (selected_phase a); reflexivity.
  - intros [phase Hph] [power Hpow]. rewrite Hph, Hpow in Hs.
    destruct (lookup_specs_domain phase power (Hp _ Hph) (Hr _ Hpow)) as [specs Hl].
    exists specs. rewrite Hs. split; [exact Hl|].
    unfold _save_report. rewrite Hs, Hl.
    destruct (pdf_generate w _ _); simpl;
      [destruct (open_pdf_error w); simpl|];
      rewrite !elem_of_app, list_elem_of_singleton; auto.
Qed.

Lemma save_needs_selection_witness :
  let a := run [SelectPhase "three"] (init ∅) in
  _save_report sample_world a
  = _toast "Please select a configuration first" "warning" a.
Proof.
  apply (proj1 (save_needs_selection [SelectPhase "three"] ∅ sample_world
                  ltac:(ui_ok))).
  right. reflexivity.
Defined.

(** X7: a save touches nothing but the toasts and the reports table: the
    selection, the resolved specification, the open tab, the ledger and
    its counter, the checklist and the project form are as before; one to
    three toasts are added after those that were there; and in the table
    only the row under the new report id can differ. *)
Theorem save_report_frame (w : world) (a : App.t) :
  let a' := _save_report w a in
  selected_phase a' = selected_phase a
  /\ selected_power a' = selected_power a
  /\ current_specs a' = current_specs a
  /\ current_tab a' = current_tab a
  /\ loads a' = loads a
  /\ load_id a' = load_id a
  /\ checklist_vars a' = checklist_vars a
  /\ project_info a' = project_info a
  /\ (exists added, toasts a' = (toasts a ++ added)%list
                   /\ (1 <= length added <= 3)%nat)
  /\ (forall k, k <> Py.take 12 (md5_hexdigest w (now_iso_id w)) ->
        reports a' !! k = reports a !! k).
Proof.
  intros a'. subst a'. unfold _save_report.
  destruct (current_specs a) as [specs|] eqn:Hs.
  - destruct (pdf_generate w _ _); cbn [negb].
    + unfold Db.save_report.
      destruct (open_pdf_error w), (db_engine_ok w);
        cbn [fst _toast set_reports selected_phase selected_power current_specs
             current_tab loads load_id checklist_vars project_info reports toasts];
        repeat split; try assumption;
        try (eexists; rewrite <- !app_assoc; split; [reflexivity|simpl; lia]);
        try (intros k Hk; apply lookup_insert_ne;
             cbn [SavedReport.id saved_report gather ReportData.report_id];
             congruence).
    + cbn [_toast selected_phase selected_power current_specs
           current_tab loads load_id checklist_vars project_info reports toasts].
      repeat split; try assumption.
      eexists; rewrite <- !app_assoc; split; [reflexivity|simpl; lia].
  - cbn [_toast selected_phase selected_power current_specs
         current_tab loads load_id checklist_vars project_info reports toasts].
    repeat split; try assumption.
    eexists; split; [reflexivity|simpl; lia].
Qed.

(** X8: when the renderer succeeds and the storage engine works, the row
    built from the form is in the table under the report id afterwards,
    with the project name of the form or the placeholder, the selected
    phase and rating, the rendered path and the status completed; and the
    reports listing holds it whenever its limit covers the table. *)
Theorem saved_report_is_listed (w : world) (a : App.t) (specs : WiringSpecs) :
  current_specs a = Some specs ->
  pdf_generate w (pdf_path_of w specs a) (gather w specs a) = true ->
  db_engine_ok w = true ->
  let a' := _save_report w a in
  let r := row_of w specs a in
  reports a' !! Py.take 12 (md5_hexdigest w (now_iso_id w)) = Some r
  /\ SavedReport.project_name r
     = Py.str_or (ProjectInfo.project_name (project_info a)) "Untitled Project"
  /\ SavedReport.phase_type r = selected_phase a
  /\ SavedReport.power_rating r = selected_power a
  /\ SavedReport.pdf_path r = pdf_path_of w specs a
  /\ SavedReport.status r = "completed"
  /\ (forall limit, (size (reports a') <= limit)%nat ->
        r ∈ Db.get_reports true limit (reports a'))
  /\ last (toasts a')
     = Some (match open_pdf_error w with
             | Some e => ("Could not open PDF: " ++ e, "warning")
             | None => ("Report saved successfully!", "success")
             end).
Proof.
  intros Hs Hg Hdb a' r.
  assert (reports a' = <[SavedReport.id r := r]> (reports a)) as Hrep.
  { subst a' r. unfold _save_report. rewrite Hs.
    fold (pdf_path_of w specs a). rewrite Hg. cbn [negb].
    fold (row_of w specs a). unfold Db.save_report. rewrite Hdb.
    destruct (open_pdf_error w); reflexivity. }
  assert (reports a' !! SavedReport.id r = Some r) as Hlook
    by (rewrite Hrep; apply lookup_insert_eq).
  split; [exact Hlook|]. repeat split.
  - intros limit Hsize. unfold Db.get_reports.
    rewrite take_ge
      by (rewrite merge_sort_Permutation, length_fmap, length_map_to_list; exact Hsize).
    rewrite merge_sort_Permutation.
    apply list_elem_of_fmap. exists (SavedReport.id r, r). split; [reflexivity|].
    apply elem_of_map_to_list. exact Hlook.
  - subst a'. unfold _save_report. rewrite Hs.
    fold (pdf_path_of w specs a). rewrite Hg. cbn [negb].
    destruct (open_pdf_error w); cbn [toasts _toast]; apply last_snoc.
Qed.

Lemma saved_report_is_listed_witness :
  let a := _select_power 50 (_select_phase "three" (init ∅)) in
  SavedReport.project_name
    <$> (reports (_save_report sample_world a) !! "0123456789ab")
  = Some "Untitled Project".
Proof.
  intros a.
  assert (exists specs, current_specs a = Some specs) as [specs Hs]
    by (eexists; vm_compute; reflexivity).
  destruct (saved_report_is_listed sample_world a specs Hs eq_refl eq_refl)
    as (Hlook & Hname & _).
  change (Py.take 12 (md5_hexdigest sample_world (now_iso_id sample_world)))
    with "0123456789ab" in Hlook.
  rewrite Hlook. simpl. reflexivity.
Defined.

(** X9: when the renderer succeeds but the storage engine fails, the
    reports table is left as it was, and the user is still told that the
    report was saved: no toast of the kind error is shown. *)
Theorem storage_failure_is_silent (w : world) (a : App.t) (specs : WiringSpecs) :
  current_specs a = Some specs ->
  pdf_generate w (pdf_path_of w specs a) (gather w specs a) = true ->
  db_engine_ok w = false ->
  let a' := _save_report w a in
  reports a' = reports a
  /\ ("Report saved successfully!", "success") ∈ toasts a'
  /\ (forall msg, (msg, "error") ∈ toasts a' -> (msg, "error") ∈ toasts a).
Proof.
  intros Hs Hg Hdb a'. subst a'. unfold _save_report. rewrite Hs.
  fold (pdf_path_of w specs a). rewrite Hg. cbn [negb].
  unfold Db.save_report. rewrite Hdb.
  destruct (open_pdf_error w);
    cbn [fst toasts reports _toast set_reports];
    (split; [reflexivity|]); split;
    rewrite ?elem_of_app, ?list_elem_of_singleton; auto;
    intros msg H; rewrite ?elem_of_app, ?list_elem_of_singleton in H;
    intuition congruence.
Qed.

Lemma storage_failure_is_silent_witness :
  let w := mk_world "t0" "t1" "t2" "t3" (fun s => s) (fun _ => "{}")
             (fun _ => "[]") (fun f => f) (fun _ _ => true) false None in
  let a := _select_power 30 (_select_phase "single" (init ∅)) in
  reports (_save_report w a) = ∅
  /\ ("Report saved successfully!", "success") ∈ toasts (_save_report w a).
Proof.
  intros w a.
  assert (exists specs, current_specs a = Some specs) as [specs Hs]
    by (eexists; vm_compute; reflexivity).
  destruct (storage_failure_is_silent w a specs Hs eq_refl eq_refl)
    as (Hrep & Hok & _).
  split; [exact Hrep | exact Hok].
Defined.

End SaveMore.

(** ** More on the ledger *)

Section LedgerMore.

Import App.

Lemma filter_present l l1 l2 :
  NoDup (ids (l1 ++ l :: l2)) ->
  List.filter (keep_other (Load.id l)) (l1 ++ l :: l2) = (l1 ++ l2)%list.
Proof.
  unfold ids. rewrite map_app. cbn [List.map]. intros Hnd.
  apply NoDup_app in Hnd as (_ & Hdisj & Hnd2).
  apply NoDup_cons in Hnd2 as [Hl2 _].
  rewrite List.filter_app. cbn [List.filter].
  destruct (keep_other_spec (Load.id l) l) as [[_ Hne]|[-> _]]; [congruence|].
  rewrite (filter_absent (Load.id l) l1), (filter_absent (Load.id l) l2);
    [reflexivity | exact Hl2 |].
  intros Hin. apply (Hdisj _ Hin). apply elem_of_cons. auto.
Qed.

Lemma total_watts_cons l ls :
  total_watts (l :: ls) = Load.watts l * Load.quantity l + total_watts ls.
Proof. reflexivity. Qed.

(** X10: in every ledger the program can reach, removing the id of a load
    that is in the list takes out exactly that load: the list is one
    shorter, the other loads stay, in their order, the aggregate goes down
    by the watts of the load times its quantity, the id is gone from the
    list, and the counter is not touched. *)
Theorem remove_present_load (acts : list action) (tbl : Db.table) (l : Load.t) :
  let a := run acts (init tbl) in
  l ∈ loads a ->
  let a' := _remove_load (Load.id l) a in
  (exists l1 l2, loads a = (l1 ++ l :: l2)%list /\ loads a' = (l1 ++ l2)%list)
  /\ S (length (loads a')) = length (loads a)
  /\ total_watts (loads a')
     = total_watts (loads a) - Load.watts l * Load.quantity l
  /\ (Load.id l ∉ ids (loads a'))
  /\ (forall l', l' ∈ loads a -> l' <> l -> l' ∈ loads a')
  /\ load_id a' = load_id a.
Proof.
  intros a Hin a'.
  assert (ledger_ok a) as (Hnd & _ & _) by apply ledger_ok_run, ledger_ok_init.
  apply list_elem_of_split in Hin as (l1 & l2 & Hsplit).
  assert (loads a' = (l1 ++ l2)%list) as Hrem.
  { subst a'. rewrite remove_load_loads, Hsplit. apply filter_present.
    rewrite <- Hsplit. exact Hnd. }
  split; [eauto|]. rewrite Hrem, Hsplit.
  split; [rewrite !length_app; simpl; lia|].
  split.
  { rewrite !total_watts_app, total_watts_cons. lia. }
  split; [rewrite <- Hrem; apply filter_ids_gone|].
  split; [|reflexivity].
  intros l' Hl' Hne. rewrite elem_of_app, elem_of_cons in Hl'.
  rewrite elem_of_app. destruct Hl' as [?|[?|?]]; auto. congruence.
Qed.

Lemma remove_present_load_witness :
  total_watts (loads (_remove_load 2 (init ∅))) = 20000 - 3000 * 1.
Proof.
  apply (proj1 (proj2 (proj2 (remove_present_load [] ∅
           (Load.mk 2 "Image Processor" 3000 1)
           ltac:(cbv [run fold_left init loads DEFAULT_LOADS];
                 rewrite !elem_of_cons; auto))))).
Defined.

End LedgerMore.

(** ** More on the file name *)

Section FileNameMore.

Import Py.

Lemma lstrip_empty ws s : lstrip ws s = "" <-> all ws s = true.
Proof.
  induction s as [|c r IH]; simpl; [tauto|].
  destruct (ws c); simpl; [exact IH|]. split; discriminate.
Qed.

Lemma rstrip_empty ws s : rstrip ws s = "" <-> all ws s = true.
Proof.
  induction s as [|c r IH]; simpl; [tauto|].
  destruct (rstrip ws r) as [|d r'].
  - destruct (ws c); simpl; [tauto|]. split; discriminate.
  - split; [discriminate|]. intros H. apply andb_prop in H as [_ H].
    apply IH in H. discriminate H.
Qed.

Lemma all_lstrip_back ws s : all ws (lstrip ws s) = true -> all ws s = true.
Proof.
  induction s as [|c r IH]; simpl; [auto|].
  destruct (ws c) eqn:Hc; simpl; [exact IH|]. rewrite Hc. auto.
Qed.

Lemma strip_empty s : strip s = "" <-> all isspace s = true.
Proof.
  unfold strip. rewrite rstrip_empty. split.
  - apply all_lstrip_back.
  - apply all_lstrip.
Qed.

Lemma take_empty n s : take (S n) s = "" <-> s = "".
Proof. destruct s; simpl; split; congruence. Qed.

Lemma map_empty f s : map f s = "" <-> s = "".
Proof. destruct s; simpl; split; congruence. Qed.

Lemma kept_space_or_name c :
  kept c = true -> isspace c = negb (name_char c).
Proof. destruct c as [[] [] [] [] [] [] [] []]; vm_compute; auto; discriminate. Qed.

Lemma not_kept_not_name c : kept c = false -> name_char c = false.
Proof. destruct c as [[] [] [] [] [] [] [] []]; vm_compute; auto. Qed.

Lemma all_space_filter_kept s :
  all isspace (filter kept s) = all (fun c => negb (name_char c)) s.
Proof.
  induction s as [|c r IH]; simpl; [reflexivity|].
  destruct (kept c) eqn:Hc; simpl.
  - rewrite (kept_space_or_name c Hc), IH. reflexivity.
  - rewrite (not_kept_not_name c Hc), IH. reflexivity.
Qed.

Lemma safe_name_chars s : all name_char (App.safe_name s) = true.
Proof.
  unfold App.safe_name, replace.
  apply (all_map kept name_char); [exact kept_replace|].
  apply all_take. unfold strip. apply all_rstrip, all_lstrip, all_filter.
Qed.

Lemma safe_name_length s : (String.length (App.safe_name s) <= 40)%nat.
Proof.
  unfold App.safe_name, replace. rewrite length_map, length_take. lia.
Qed.

Lemma safe_name_clean s :
  all name_char s = true -> (String.length s <= 40)%nat -> App.safe_name s = s.
Proof.
  intros Hall Hle. unfold App.safe_name. fold kept.
  rewrite (filter_id kept s) by (exact (all_impl _ _ _ name_char_kept Hall)).
  unfold strip.
  rewrite (lstrip_id isspace s) by (exact (all_impl _ _ _ name_char_not_space Hall)).
  rewrite (rstrip_id isspace s) by (exact (all_impl _ _ _ name_char_not_space Hall)).
  rewrite (take_id 40 s Hle).
  unfold replace. exact (map_id _ name_char s name_char_no_blank Hall).
Qed.

Lemma filter_filter p s : filter p (filter p s) = filter p s.
Proof. apply filter_id, all_filter. Qed.

(** X11: the name part of the file name is empty exactly when the project
    name holds no alphanumeric character, hyphen or underscore, as for a
    name of spaces or of punctuation only; the file name then starts with
    the underscore that precedes the phase.  Sanitizing twice is the same
    as sanitizing once, and the result depends on nothing but the
    characters that pass the filter. *)
Theorem safe_name_empty_and_stable (name : string) :
  (App.safe_name name = "" <-> all (fun c => negb (name_char c)) name = true)
  /\ (forall w data, ReportData.project_name data = name ->
        App.safe_name name = "" ->
        exists rest, App.filename w data = String "_" rest)
  /\ App.safe_name (App.safe_name name) = App.safe_name name
  /\ App.safe_name (filter kept name) = App.safe_name name.
Proof.
  split; [|split; [|split]].
  - unfold App.safe_name, replace. fold kept.
    rewrite map_empty, take_empty, strip_empty. rewrite all_space_filter_kept.
    tauto.
  - intros w data Hname Hempty. unfold App.filename. rewrite Hname, Hempty.
    eexists. reflexivity.
  - apply safe_name_clean; [apply safe_name_chars | apply safe_name_length].
  - unfold App.safe_name. fold kept. rewrite filter_filter. reflexivity.
Qed.

Lemma safe_name_empty_and_stable_witness :
  exists rest,
    App.filename sample_world
      (ReportData.mk "" "?? !!" "" "" "" "" (Some "three") (Some 50) ∅ "" [] ∅)
    = String "_" rest.
Proof.
  apply (proj1 (proj2 (safe_name_empty_and_stable "?? !!")) sample_world
           (ReportData.mk "" "?? !!" "" "" "" "" (Some "three") (Some 50) ∅ "" [] ∅)
           eq_refl).
  vm_compute. reflexivity.
Defined.

End FileNameMore.

(** ** More on the load summary *)

Section SummaryMore.

Import Py.

Lemma binary_round_aux_sign s m e l :
  0 <= m -> sign_is s (binary_round_aux prec emax s m e l).
Proof.
  intros Hm. pose proof (binary_round_aux_not_nan s m e l Hm) as Hn.
  unfold binary_round_aux in *.
  destruct (shr_fexp prec emax m e l) as [mrs1 e1].
  destruct (shr_fexp prec emax _ e1 loc_Exact) as [mrs2 e2].
  destruct (shr_m mrs2); [reflexivity| |discriminate Hn].
  destruct (e2 <=? emax - prec); reflexivity.
Qed.

(** A quotient with a nonpositive dividend and a positive divisor has
    its sign bit set, or is the zero of the divisor's sign. *)
Lemma int_truediv_nonpositive a b q :
  a <= 0 -> 0 < b -> int_truediv a b = Ok q ->
  q = S754_zero false \/ sign_is true q.
Proof.
  intros Ha Hb. unfold int_truediv.
  destruct b as [|b|b]; try lia. destruct a as [|a|a]; try lia.
  - intros H. injection H as H. subst q. left. reflexivity.
  - change (Z.to_pos (Z.abs (Z.neg a))) with a.
    change (Z.to_pos (Z.abs (Z.pos b))) with b.
    change (Z.neg a <? 0) with true. change (Z.pos b <? 0) with false.
    pose proof (SFdiv_core_binary_nonneg a b 0 0) as Hq.
    cbn [SFdiv xorb].
    destruct (SFdiv_core_binary prec emax (Z.pos a) 0 (Z.pos b) 0) as [[mz ez] lz].
    pose proof (binary_round_aux_sign true mz ez lz Hq) as Hs.
    destruct (binary_round_aux prec emax true mz ez lz);
      cbv beta iota; intros H; try discriminate H;
      injection H as H; subst q; right; exact Hs.
Qed.

Lemma classify_not_positive u :
  u = S754_zero false \/ sign_is true u -> App.classify u = "SAFE".
Proof.
  unfold App.classify, float_gt_int.
  rewrite float_of_int_100, float_of_int_80.
  intros [-> | Hs]; [reflexivity|].
  destruct u as [s|s| |s m e]; simpl in Hs; subst; try contradiction; reflexivity.
Qed.

Lemma float_mul_int_100_sign q :
  q = S754_zero false \/ sign_is true q ->
  (forall s, q <> S754_infinity s) ->
  float_mul_int q 100 = S754_zero false \/ sign_is true (float_mul_int q 100).
Proof.
  unfold float_mul_int. rewrite float_of_int_100.
  intros [-> | Hs] Hinf; [left; reflexivity|].
  destruct q as [s|s| |s m e]; simpl in Hs; subst; try contradiction.
  - right. reflexivity.
  - destruct (Hinf true eq_refl).
  - right. cbn [SFmul xorb]. apply binary_round_aux_sign. lia.
Qed.

(** X12: the load summary never divides by zero, whatever is selected:
    its capacity is the selected rating, or 30 when none or zero is
    selected, and the only error it can raise is [OverflowError], from a
    quotient too large for a float.  And a ledger whose aggregate is zero
    or negative, which entering a negative wattage can produce, is shown
    as SAFE at every positive capacity. *)
Theorem load_summary_errors_and_sign (a : App.t) :
  (forall e, App.load_summary a = Raise e -> e = OverflowError)
  /\ (forall s, App.load_summary a = Ok s ->
        App.capacity s <> 0
        /\ (App.selected_power a = None -> App.capacity s = 30)
        /\ (forall power, App.selected_power a = Some power -> power <> 0 ->
              App.capacity s = power)
        /\ (App.total_watts (App.loads a) <= 0 -> 0 < App.capacity s ->
            App.status s = "SAFE")).
Proof.
  assert (int_or (App.selected_power a) 30 * 1000 <> 0) as Hcap.
  { pose proof (int_or_nonzero (App.selected_power a) 30 ltac:(lia)). lia. }
  split.
  - intros e. unfold App.load_summary. cbv zeta.
    destruct (int_truediv (App.total_watts (App.loads a)) 1000) as [kw|e1] eqn:H1;
      cbn [mbind result_bind bind].
    + destruct (int_truediv _ (int_or (App.selected_power a) 30 * 1000))
        as [q|e2] eqn:H2; cbn [mbind result_bind bind mret result_ret];
        [discriminate|].
      intros [= <-]. exact (int_truediv_raise _ _ _ H2 Hcap).
    + intros [= <-]. apply (int_truediv_raise _ _ _ H1). lia.
  - intros s Hs.
    destruct (load_summary_usage a s Hs) as (Hc & Hst & q & Hq & Hu).
    split; [rewrite Hc; apply int_or_nonzero; lia|].
    split; [intros Hnone; rewrite Hc, Hnone; reflexivity|].
    split.
    { intros power Hp Hnz. rewrite Hc, Hp. destruct power; [congruence|reflexivity..]. }
    intros Htot Hpos. rewrite Hst, Hu.
    apply classify_not_positive, float_mul_int_100_sign.
    + assert (0 < App.capacity s * 1000) as Hb by lia.
      exact (int_truediv_nonpositive _ _ _ Htot Hb Hq).
    + apply (int_truediv_number _ _ _ Hq).
Qed.

Lemma load_summary_errors_and_sign_witness :
  let a := App.submit "Credit" "-25000" "1" (App.init ∅) in
  exists s, App.load_summary a = Ok s /\ App.status s = "SAFE".
Proof.
  intros a.
  assert (exists s, App.load_summary a = Ok s) as [s Hs]
    by (eexists; vm_compute; reflexivity).
  exists s. split; [exact Hs|].
  apply (proj2 (proj2 (proj2 (proj2 (load_summary_errors_and_sign a) s Hs)))).
  - vm_compute. discriminate.
  - destruct (load_summary_usage a s Hs) as (-> & _). vm_compute. reflexivity.
Defined.

End SummaryMore.

(** ** The logo text *)

Section LogoFacts.

Import Logo.

Lemma length_append (s t : string) :
  String.length (s ++ t) = (String.length s + String.length t)%nat.
Proof. induction s as [|c r IH]; simpl; [reflexivity|]. rewrite IH. reflexivity. Qed.

Lemma append_empty_r (s : string) : s ++ EmptyString = s.
Proof.
  induction s as [|c r IH]; [reflexivity|].
  change (String c (r ++ EmptyString) = String c r). f_equal. exact IH.
Qed.

Lemma length_equals n : String.length (equals n) = n.
Proof. induction n as [|n IH]; simpl; [reflexivity|]. rewrite IH. reflexivity. Qed.

Lemma before_comma_no_comma s : Py.char_in "," (before_comma s) = false.
Proof.
  induction s as [|c r IH]; cbn [before_comma Py.char_in]; [reflexivity|].
  destruct (Ascii.eqb c ",") eqn:Hc; cbn [Py.char_in]; [reflexivity|].
  rewrite (Ascii.eqb_sym "," c), Hc. exact IH.
Qed.

Lemma after_comma_none s : after_comma s = None <-> Py.char_in "," s = false.
Proof.
  induction s as [|c r IH]; cbn [after_comma Py.char_in]; [tauto|].
  rewrite (Ascii.eqb_sym "," c).
  destruct (Ascii.eqb c ","); cbn [orb]; [split; discriminate | exact IH].
Qed.

(** The text splits at its first comma into the two parts. *)
Lemma split_first_comma s r :
  after_comma s = Some r -> s = before_comma s ++ String "," r.
Proof.
  induction s as [|c t IH]; cbn [after_comma before_comma]; [discriminate|].
  destruct (Ascii.eqb_spec c ",") as [->|Hne].
  - intros [= ->]. reflexivity.
  - intros H.
    change (String c t = String c (before_comma t ++ String "," r)).
    f_equal. exact (IH H).
Qed.

(** X13: for every data URL text, the text handed to the base64 decoder
    has a length that is a multiple of four: it is the part between the
    first and the second comma, or the whole text when it has no comma,
    followed by at most three equal signs, and by none when its length
    is a multiple of four already. *)
Theorem logo_data_padded (s : string) :
  (String.length (logo_data s) mod 4 = 0)%nat
  /\ (exists k, (k <= 3)%nat /\ logo_data s = payload s ++ equals k)
  /\ ((String.length (payload s) mod 4 = 0)%nat -> logo_data s = payload s)
  /\ (Py.char_in "," s = false -> payload s = s)
  /\ (forall r, after_comma s = Some r ->
        s = before_comma s ++ String "," r
        /\ payload s = before_comma r
        /\ Py.char_in "," (payload s) = false).
Proof.
  unfold logo_data, pad. cbv zeta.
  pose proof (Nat.mod_upper_bound (String.length (payload s)) 4 ltac:(lia)) as Hlt.
  pose proof (Nat.div_mod_eq (String.length (payload s)) 4) as Hdiv.
  split; [|split; [|split; [|split]]].
  - destruct (Nat.eqb_spec (4 - String.length (payload s) mod 4) 4) as [He|Hne].
    + assert (String.length (payload s) mod 4 = 0)%nat as H0 by lia. exact H0.
    + rewrite length_append, length_equals.
      set (n := String.length (payload s)) in *.
      set (m := (n mod 4)%nat) in *.
      replace (n + (4 - m))%nat with (m + (4 - m) + 4 * (n / 4))%nat by lia.
      replace (m + (4 - m))%nat with (1 * 4)%nat by lia.
      rewrite (Nat.mul_comm 4 (n / 4)), <- Nat.mul_add_distr_r.
      apply Nat.Div0.mod_mul.
  - destruct (Nat.eqb_spec (4 - String.length (payload s) mod 4) 4) as [He|Hne].
    + exists 0%nat. split; [lia|]. symmetry. apply append_empty_r.
    + exists (4 - String.length (payload s) mod 4)%nat. split; [lia|reflexivity].
  - intros H0. rewrite H0. reflexivity.
  - intros Hno. unfold payload. apply after_comma_none in Hno. rewrite Hno.
    reflexivity.
  - intros r Hr. split; [exact (split_first_comma s r Hr)|].
    unfold payload. rewrite Hr. split; [reflexivity|apply before_comma_no_comma].
Qed.

Lemma logo_data_padded_witness :
  logo_data "data:image/png;base64,iVBORw0KGgoA" = "iVBORw0KGgoA".
Proof.
  apply (proj1 (proj2 (proj2 (logo_data_padded "data:image/png;base64,iVBORw0KGgoA")))).
  reflexivity.
Defined.

End LogoFacts.

(** ** The load analysis table *)

Section PdfFacts.

Import Pdf.




(** X15: in the PDF of a report, the specification table shows the
    eight fields of the resolved specification and never the placeholder
    of a missing key; the cells of the project, the address, the
    contractor and the electrician are never empty; the notes section is
    left out exactly when the specification has no notes; and the banner
    carries the phase label and the power that the card of the stored
    report shows on the reports page. *)
Theorem pdf_shows_resolved_specs
  (w : App.world) (specs : WiringSpecs) (a : App.t) (today pdf_path : string) :
  let data := App.gather w specs a in
  spec_rows data
  = [ ["<b>Parameter</b>"; "<b>Value</b>"];
      ["Voltage"; voltage specs];
      ["Amperage"; amperage specs];
      ["Wire Gauge (Hot)"; wire_gauge specs];
      ["Neutral Wire"; neutral_wire specs];
      ["Ground Wire"; ground_wire specs];
      ["Conduit Size"; conduit_size specs];
      ["Breaker Size"; breaker_size specs];
      ["Connection"; receptacle specs] ]
  /\ (forall label value,
        [label; value] ∈ info today data -> label <> "Date:" -> value <> "")
  /\ (notes_paragraph data = None <-> notes specs = "")
  /\ (forall text, notes_paragraph data = Some text -> text = notes specs)
  /\ banner_phase data = App.card_phase (App.saved_report w data pdf_path)
  /\ banner_power data = App.card_power (App.saved_report w data pdf_path).
Proof.
  cbv zeta. split; [|split; [|split; [|split; [|split]]]].
  - unfold spec_rows, get. cbn [ReportData.specs App.gather].
    unfold App.specs_dict. reflexivity.
  - intros label value Hin Hdate. unfold info in Hin.
    cbn [ReportData.project_name ReportData.project_address
         ReportData.contractor ReportData.electrician App.gather] in Hin.
    repeat (apply elem_of_cons in Hin as [Hin|Hin];
            [injection Hin as -> ->;
             first [congruence | apply str_or_nonempty; discriminate]|]).
    apply elem_of_nil in Hin. destruct Hin.
  - unfold notes_paragraph. cbn [ReportData.specs_notes App.gather].
    destruct (notes specs); cbn [Py.truthy_str]; split; congruence.
  - intros text. unfold notes_paragraph.
    cbn [ReportData.specs_notes App.gather].
    destruct (notes specs); cbn [Py.truthy_str]; congruence.
  - reflexivity.
  - reflexivity.
Qed.

End PdfFacts.

(** ** The two wiring diagrams *)

Section DiagramFacts.

Import Diagram.

(** X16: the diagram tab draws nothing while no specification is
    resolved.  Otherwise the diagram of the tab and the diagram in the PDF
    of a report saved from the same state carry the same title, the same
    voltage, breaker size and power in their boxes, and the same
    conductors, under the same labels in the same order: Hot, Neutral
    and Ground when the phase is single, and Phase A, Phase B, Phase C
    and Ground otherwise.  In each of the two the legend has one colour per
    conductor, the wires use exactly the colours of the legend, and every
    wire segment is horizontal or vertical. *)
Theorem diagrams_agree (w : App.world) (a : App.t) :
  match _build_diagram_tab a with
  | None => App.current_specs a = None
  | Some (heading, values, wires, legend) =>
      exists specs pdf_heading pdf_values pdf_wires pdf_legend,
        App.current_specs a = Some specs
        /\ _generate_diagram (App.gather w specs a)
           = (pdf_heading, pdf_values, pdf_wires, pdf_legend)
        /\ heading = pdf_heading
        /\ values = pdf_values
        /\ legend.*1.*1 = pdf_legend.*1
        /\ legend.*1.*1
           = (if is_single (App.selected_phase a)
              then ["Hot"; "Neutral"; "Ground"]
              else ["Phase A"; "Phase B"; "Phase C"; "Ground"])
        /\ NoDup legend.*1.*2
        /\ NoDup pdf_legend.*2
        /\ (forall c, c ∈ colours wires <-> c ∈ legend.*1.*2)
        /\ (forall c, c ∈ colours pdf_wires <-> c ∈ pdf_legend.*2)
        /\ Forall straight wires
        /\ Forall straight pdf_wires
  end.
Proof.
  unfold _build_diagram_tab.
  destruct (App.current_specs a) as [specs|] eqn:Hs; [|reflexivity].
  cbv zeta. exists specs. eexists _, _, _, _.
  split; [reflexivity|]. split; [reflexivity|].
  split; [reflexivity|]. split; [reflexivity|].
  cbn [ReportData.phase_type ReportData.power_rating App.gather].
  unfold screen_legend, pdf_legend, screen_wires, pdf_wires, colours.
  destruct (is_single (App.selected_phase a));
    cbn [fmap list_fmap fst snd colour].
  all: split; [reflexivity|]; split; [reflexivity|].
  all: split; [repeat (apply NoDup_cons; split;
                       [rewrite ?elem_of_cons, elem_of_nil;
                        intros H; intuition discriminate|]); apply NoDup_nil; exact I|].
  all: split; [repeat (apply NoDup_cons; split;
                       [rewrite ?elem_of_cons, elem_of_nil;
                        intros H; intuition discriminate|]); apply NoDup_nil; exact I|].
  all: split; [intros c; rewrite !elem_of_cons, !elem_of_nil; tauto|].
  all: split; [intros c; rewrite !elem_of_cons, !elem_of_nil; tauto|].
  all: split;
    repeat (apply List.Forall_cons;
            [unfold straight; cbn [x1 x2 y1 y2];
             first [left; reflexivity | right; reflexivity]|]);
    apply List.Forall_nil.
Qed.

(** X17: the report id, the license number of the project form and the
    ticks of the safety checklist never reach the PDF: two states with
    the same selection, the same project name, address, contractor and
    electrician and the same ledger give the same banner, the same
    tables, the same notes and the same diagram, whatever the hash and
    the time stamps of the report are. *)
Theorem pdf_ignores_license_and_checklist
  (w w' : App.world) (specs : WiringSpecs) (a a' : App.t) (today : string) :
  App.selected_phase a' = App.selected_phase a ->
  App.selected_power a' = App.selected_power a ->
  App.loads a' = App.loads a ->
  ProjectInfo.project_name (App.project_info a')
  = ProjectInfo.project_name (App.project_info a) ->
  ProjectInfo.project_address (App.project_info a')
  = ProjectInfo.project_address (App.project_info a) ->
  ProjectInfo.contractor (App.project_info a')
  = ProjectInfo.contractor (App.project_info a) ->
  ProjectInfo.electrician (App.project_info a')
  = ProjectInfo.electrician (App.project_info a) ->
  let data := App.gather w specs a in
  let data' := App.gather w' specs a' in
  Pdf.banner_phase data' = Pdf.banner_phase data
  /\ Pdf.banner_power data' = Pdf.banner_power data
  /\ Pdf.info today data' = Pdf.info today data
  /\ Pdf.spec_rows data' = Pdf.spec_rows data
  /\ _generate_diagram data' = _generate_diagram data
  /\ Pdf.load_rows data' = Pdf.load_rows data
  /\ Pdf.notes_paragraph data' = Pdf.notes_paragraph data.
Proof.
  intros Hphase Hpower Hloads Hname Haddr Hcon Hel. cbv zeta.
  unfold Pdf.banner_phase, Pdf.banner_power, Pdf.info, Pdf.spec_rows,
    _generate_diagram, Pdf.load_rows, Pdf.notes_paragraph.
  cbn [ReportData.phase_type ReportData.power_rating ReportData.specs
       ReportData.project_name ReportData.project_address
       ReportData.contractor ReportData.electrician ReportData.loads
       ReportData.specs_notes App.gather].
  rewrite Hphase, Hpower, Hloads, Hname, Haddr, Hcon, Hel.
  repeat split.
Qed.

Lemma pdf_ignores_license_and_checklist_witness :
  let specs := mkWiringSpecs "480V" "60A" "4 AWG" "1" "80A" "8 AWG" "N/A" "Hardwired" "" in
  let a := App.run [App.SelectPhase "three"; App.SelectPower 50] (App.init ∅) in
  let a' := App.run [App.SetChecklist "No ground loops" true;
                     App.EditProjectInfo (ProjectInfo.mk "" "" "" "" "EL-12345")] a in
  Pdf.info "May 06, 2024" (App.gather sample_world specs a')
  = Pdf.info "May 06, 2024" (App.gather sample_world specs a).
Proof.
  intros specs a a'.
  apply (proj1 (proj2 (proj2
    (pdf_ignores_license_and_checklist sample_world sample_world specs a a'
       "May 06, 2024" eq_refl eq_refl eq_refl eq_refl eq_refl eq_refl eq_refl)))).
Defined.

End DiagramFacts.

(** ** The animations of a toast *)

Section ToastFacts.

Import Toast.

Lemma slide_S y d n : slide y d (S n) = Place y :: slide (y + d) d n.
Proof.
  unfold slide. cbn [seq fmap list_fmap]. f_equal; [f_equal; lia|].
  rewrite <- fmap_S_seq, <- list_fmap_compose.
  apply list_fmap_ext. intros i x _. cbn. f_equal. lia.
Qed.

Lemma animate_in_step_spec fuel : forall y,
  (Z.to_nat ((15 - y + 3) / 4) < fuel)%nat ->
  animate_in_step fuel y = Some (slide y 4 (Z.to_nat ((15 - y + 3) / 4))).
Proof.
  induction fuel as [|k IH]; intros y Hf; [lia|].
  cbn [animate_in_step]. destruct (Z.ltb_spec y 15) as [Hy|Hy].
  - assert (Z.to_nat ((15 - y + 3) / 4)
            = S (Z.to_nat ((15 - (y + 4) + 3) / 4))) as Hn.
    { replace (15 - y + 3) with ((15 - (y + 4) + 3) + 1 * 4) by lia.
      rewrite Z.div_add by lia.
      rewrite Z2Nat.inj_add; [|apply Z.div_pos; lia|lia].
      change (Z.to_nat 1) with 1%nat. lia. }
    rewrite Hn in Hf |- *. rewrite IH by lia. rewrite slide_S. reflexivity.
  - assert ((15 - y + 3) / 4 <= 0) as Hle
      by (apply Z.lt_succ_r, Z.div_lt_upper_bound; lia).
    replace (Z.to_nat ((15 - y + 3) / 4)) with 0%nat by lia. reflexivity.
Qed.

Lemma animate_out_step_spec fuel : forall y,
  (Z.to_nat ((y + 50 + 5) / 6) < fuel)%nat ->
  animate_out_step fuel y
  = Some (slide y (-6) (Z.to_nat ((y + 50 + 5) / 6)) ++ [Destroy])%list.
Proof.
  induction fuel as [|k IH]; intros y Hf; [lia|].
  cbn [animate_out_step]. destruct (Z.gtb_spec y (-50)) as [Hy|Hy].
  - assert (Z.to_nat ((y + 50 + 5) / 6)
            = S (Z.to_nat ((y - 6 + 50 + 5) / 6))) as Hn.
    { replace (y + 50 + 5) with ((y - 6 + 50 + 5) + 1 * 6) by lia.
      rewrite Z.div_add by lia.
      rewrite Z2Nat.inj_add; [|apply Z.div_pos; lia|lia].
      change (Z.to_nat 1) with 1%nat. lia. }
    rewrite Hn in Hf |- *. rewrite IH by lia. rewrite slide_S.
    replace (y + -6) with (y - 6) by lia. reflexivity.
  - assert ((y + 50 + 5) / 6 <= 0) as Hle
      by (apply Z.lt_succ_r, Z.div_lt_upper_bound; lia).
    replace (Z.to_nat ((y + 50 + 5) / 6)) with 0%nat by lia. reflexivity.
Qed.

(** X18: the two animations of a toast end.  From any position the
    slide-in places the toast every 4 pixels while its position is less
    than 15 and then schedules nothing more; the slide-out places it every
    6 pixels while its position is greater than -50 and then destroys it,
    once, as its last step.  As the toast starts them, the slide-in from -50 makes
    17 placements and comes to rest at 14, and the slide-out from 15
    makes 11 placements, the last at -45, before the toast is
    destroyed. *)
Theorem toast_animations_end (fuel : nat) (y : Z) :
  let n_in := Z.to_nat ((15 - y + 3) / 4) in
  let n_out := Z.to_nat ((y + 50 + 5) / 6) in
  ((n_in < fuel)%nat -> animate_in_step fuel y = Some (slide y 4 n_in))
  /\ ((n_out < fuel)%nat ->
      animate_out_step fuel y = Some (slide y (-6) n_out ++ [Destroy])%list)
  /\ ((17 < fuel)%nat ->
      _animate_in fuel = Some (slide (-50) 4 17)
      /\ last (slide (-50) 4 17) = Some (Place 14))
  /\ ((11 < fuel)%nat ->
      _animate_out fuel = Some (slide 15 (-6) 11 ++ [Destroy])%list
      /\ last (slide 15 (-6) 11) = Some (Place (-45))).
Proof.
  cbv zeta. split; [|split; [|split]].
  - apply animate_in_step_spec.
  - apply animate_out_step_spec.
  - intros Hf. split; [|reflexivity].
    unfold _animate_in. rewrite animate_in_step_spec; [reflexivity|].
    change (Z.to_nat ((15 - -50 + 3) / 4)) with 17%nat. exact Hf.
  - intros Hf. split; [|reflexivity].
    unfold _animate_out. rewrite animate_out_step_spec; [reflexivity|].
    change (Z.to_nat ((15 + 50 + 5) / 6)) with 11%nat. exact Hf.
Qed.

Lemma toast_animations_end_witness :
  _animate_in 18 = Some (slide (-50) 4 17).
Proof.
  apply (proj1 (proj2 (proj2 (toast_animations_end 18 0)))). lia.
Defined.

End ToastFacts.
